(** * Knessight: batch-job orchestration and work-item state machine

    A shallow embedding of the Python modules [job_tracker], [batch_manager],
    [filter_pipeline], [score_pipeline] and [output], and the properties of
    the specification that are stated about them.

    Conventions of the embedding.
    - A Python [str] is a Rocq [string] holding its UTF-8 encoding.
      Concatenation, equality, [startswith] and [split] on an ASCII separator
      commute with the encoding.
    - A Python dict used as a map is a [gmap]; a dict holding one JSON object
      of a result file is an association list inside [json].
    - A method that mutates [self] takes the object's state and returns the
      new one; a function that can raise returns a [result], and a method
      of the batch manager that can raise returns the manager next to its
      result, since what it did before raising stays done.
    - The OpenAI client, the clock and the JSON parser are the environment:
      they are passed as records of functions.  The client's answers are
      indexed by a call counter, so that two calls with the same argument may
      answer differently.
    - A directory is the map from the names of its files to what was written
      to them, two names being two files.  Whether a name can be opened for
      appending is the answer of the environment for that name.  A CSV file
      is the list of the rows written to it; what the reader makes of them
      (line endings, the limit on the length of a field) is in the model.
    - Console output and the progress bars are not modelled. *)

From Stdlib Require Import ZArith Ascii String List Lia.
From Stdlib Require Import DecimalString DecimalZ DecimalPos.
From Stdlib Require Import Floats.SpecFloat.
From stdpp Require Import base option gmap strings list.

Local Open Scope string_scope.
Local Open Scope list_scope.

(** * Part I: the program *)

(** ** Python values and primitives *)

Module Py.

(** The exception classes the modelled code raises or catches. *)
Inductive exn :=
| KeyError (key : string)
| IndexError
| ValueError (msg : string)
| JSONDecodeError
| TypeError
| AttributeError
| FileNotFoundError
| APIError (msg : string)
| CsvError (msg : string).

Inductive result (A : Type) :=
| Ok (a : A)
| Raise (e : exn).
Arguments Ok {A} a.
Arguments Raise {A} e.

#[export] Instance result_ret : MRet result := fun A a => Ok a.
#[export] Instance result_bind : MBind result := fun A B f m =>
  match m with
  | Ok a => f a
  | Raise e => Raise e
  end.

#[export] Instance result_fmap : FMap result := fun A B f m =>
  match m with
  | Ok a => Ok (f a)
  | Raise e => Raise e
  end.

Definition is_ok {A} (r : result A) : bool :=
  match r with Ok _ => true | Raise _ => false end.

(** [json.JSONDecodeError] is a subclass of [ValueError]. *)
Definition is_ValueError (e : exn) : bool :=
  match e with
  | ValueError _ | JSONDecodeError => true
  | _ => false
  end.

Definition is_KeyError (e : exn) : bool :=
  match e with KeyError _ => true | _ => false end.

(** [time.sleep(secs)] for an [int]. *)
Definition sleep_msg : string := "sleep length must be non-negative".

Definition sleep (secs : Z) : result unit :=
  if (secs <? 0)%Z then Raise (ValueError sleep_msg) else Ok ().

(** [list(it)] for an iterator whose [next] can raise: the items in order,
    or the first exception. *)
Fixpoint list_of {A} (it : list (result A)) : result (list A) :=
  match it with
  | [] => Ok []
  | r :: it' => a ← r; l ← list_of it'; Ok (a :: l)
  end.

(** *** Strings *)

(** [s.split(sep)] for a one-character separator. *)
Fixpoint split (sep : ascii) (s : string) : list string :=
  match s with
  | "" => [""]
  | String c r =>
      if Ascii.eqb c sep then "" :: split sep r
      else match split sep r with
           | h :: t => String c h :: t
           | [] => [String c ""]
           end
  end.

Definition startswith (s p : string) : bool := String.prefix p s.

Definition in_range (lo hi : nat) (c : ascii) : bool :=
  (lo <=? nat_of_ascii c)%nat && (nat_of_ascii c <=? hi)%nat.

(** [len(s)]: the number of characters, which is the number of bytes of the
    encoding that do not continue a character (80..BF continue one). *)
Fixpoint len (s : string) : Z :=
  match s with
  | "" => 0
  | String c r => ((if in_range 128 191 c then 0 else 1) + len r)%Z
  end.

Definition LF : ascii := ascii_of_nat 10.
Definition CR : ascii := ascii_of_nat 13.

(** What a file opened for reading in text mode without [newline=] makes
    of its content: CR LF and a CR alone are read as LF. *)
Fixpoint universal_newlines (s : string) : string :=
  match s with
  | "" => ""
  | String c r =>
      if Ascii.eqb c CR then
        match r with
        | String c' r' =>
            if Ascii.eqb c' LF then String LF (universal_newlines r')
            else String LF (universal_newlines r)
        | "" => String LF ""
        end
      else String c (universal_newlines r)
  end.

(** One-byte whitespace of [str.isspace]: U+0009..U+000D, U+001C..U+001F
    and the space. *)
Definition is_space (c : ascii) : bool :=
  in_range 9 13 c || in_range 28 32 c.

(** Two-byte whitespace: U+0085 and U+00A0 (C2 85, C2 A0). *)
Definition is_space2 (c1 c2 : ascii) : bool :=
  (nat_of_ascii c1 =? 194)%nat
  && ((nat_of_ascii c2 =? 133)%nat || (nat_of_ascii c2 =? 160)%nat).

(** Three-byte whitespace: U+1680 (E1 9A 80), U+2000..U+200A, U+2028,
    U+2029, U+202F (E2 80 ..), U+205F (E2 81 9F), U+3000 (E3 80 80). *)
Definition is_space3 (c1 c2 c3 : ascii) : bool :=
  let a := nat_of_ascii c1 in
  let b := nat_of_ascii c2 in
  ((a =? 225) && (b =? 154) && (nat_of_ascii c3 =? 128))%nat
  || ((a =? 226) && (b =? 128)
      && (in_range 128 138 c3 || in_range 168 169 c3
          || (nat_of_ascii c3 =? 175)))%nat
  || ((a =? 226) && (b =? 129) && (nat_of_ascii c3 =? 159))%nat
  || ((a =? 227) && (b =? 128) && (nat_of_ascii c3 =? 128))%nat.

(** Dropping leading whitespace.  With [back] the bytes are read in
    reverse order, which is how [rstrip] uses it. *)
Fixpoint skip_space (back : bool) (s : string) : string :=
  match s with
  | "" => ""
  | String c1 r1 =>
      if is_space c1 then skip_space back r1
      else
        match r1 with
        | "" => s
        | String c2 r2 =>
            if (if back then is_space2 c2 c1 else is_space2 c1 c2)
            then skip_space back r2
            else
              match r2 with
              | "" => s
              | String c3 r3 =>
                  if (if back then is_space3 c3 c2 c1
                      else is_space3 c1 c2 c3)
                  then skip_space back r3
                  else s
              end
        end
  end.

Definition lstrip (s : string) : string := skip_space false s.
Definition reverse (s : string) : string :=
  string_of_list_ascii (List.rev (list_ascii_of_string s)).

Definition rstrip (s : string) : string :=
  reverse (skip_space true (reverse s)).

(** [s.strip()] *)
Definition strip (s : string) : string := rstrip (lstrip s).

(** [str(n)] for an [int]. *)
Definition str (n : Z) : string := NilZero.string_of_int (Z.to_int n).

Definition is_digit (c : ascii) : bool := in_range 48 57 c.

(** The digit groups of an [int] literal: digits, with single underscores
    allowed between two digits. *)
Fixpoint digit_groups (after_digit : bool) (s : string) : option string :=
  match s with
  | "" => if after_digit then Some "" else None
  | String c r =>
      if is_digit c then String c <$> digit_groups true r
      else if Ascii.eqb c "_" && after_digit
           then match r with
                | "" => None
                | String c' _ =>
                    if is_digit c' then digit_groups false r else None
                end
           else None
  end.

Definition int_error (s : string) : exn :=
  ValueError ("invalid literal for int() with base 10: '" +:+ s +:+ "'").

Definition int_digits (s : string) : option Z :=
  ds ← digit_groups false s;
  Z.of_uint <$> NilEmpty.uint_of_string ds.

(** [int(s)] for a [str]: surrounding whitespace, an optional sign, decimal
    digits.  Digits outside ASCII, which CPython also accepts, are not
    modelled; the text of the error message quotes [s] without escapes. *)
Definition int (s : string) : result Z :=
  let t := strip s in
  let r :=
    match t with
    | String "-" d => Z.opp <$> int_digits d
    | String "+" d => int_digits d
    | _ => int_digits t
    end in
  match r with
  | Some z => Ok z
  | None => Raise (int_error s)
  end.

(** [int(b)] for a [bool]. *)
Definition int_of_bool (b : bool) : Z := if b then 1%Z else 0%Z.

(** *** JSON values as [json.loads] builds them

    An object is the list of its entries; where a key is listed twice the
    first entry is the dict's.  A float is an IEEE 754 binary64 number. *)

#[warnings="-register-all"] Inductive json :=
| JNull
| JBool (b : bool)
| JInt (z : Z)
| JFloat (f : spec_float)
| JStr (s : string)
| JArr (l : list json)
| JObj (m : list (string * json)).

(** Does the float [f] have the integer value [n]? *)
Definition float_eq_int (f : spec_float) (n : Z) : bool :=
  match f with
  | S754_zero _ => (n =? 0)%Z
  | S754_finite s m e =>
      let v := if s then Z.neg m else Z.pos m in
      if (0 <=? e)%Z then (v * 2 ^ e =? n)%Z
      else (v =? n * 2 ^ (- e))%Z
  | _ => false
  end.

(** [v == n] for an [int] [n]. *)
Definition eq_int (v : json) (n : Z) : bool :=
  match v with
  | JInt z => (z =? n)%Z
  | JBool b => (int_of_bool b =? n)%Z
  | JFloat f => float_eq_int f n
  | _ => false
  end.

(** [bool(v)] *)
Definition truthy (v : json) : bool :=
  match v with
  | JNull => false
  | JBool b => b
  | JInt z => negb (z =? 0)%Z
  | JFloat (S754_zero _) => false
  | JFloat _ => true
  | JStr s => negb (String.eqb s "")
  | JArr l => match l with [] => false | _ => true end
  | JObj m => match m with [] => false | _ => true end
  end.

Fixpoint assoc (k : string) (m : list (string * json)) : option json :=
  match m with
  | [] => None
  | (k', v) :: m' => if String.eqb k k' then Some v else assoc k m'
  end.

(** [d.get(k, dflt)]: a method of dicts only. *)
Definition get (d : json) (k : string) (dflt : json) : result json :=
  match d with
  | JObj m => Ok (default dflt (assoc k m))
  | _ => Raise AttributeError
  end.

(** [d[k]] for a string key. *)
Definition getitem (d : json) (k : string) : result json :=
  match d with
  | JObj m =>
      match assoc k m with
      | Some v => Ok v
      | None => Raise (KeyError k)
      end
  | _ => Raise TypeError
  end.

(** [d[0]].  For a string this is its first character, of which the model
    keeps the first byte: the code indexes the value next with a string
    key, which raises for every string. *)
Definition getitem0 (d : json) : result json :=
  match d with
  | JArr (v :: _) => Ok v
  | JArr [] => Raise IndexError
  | JStr (String c _) => Ok (JStr (String c ""))
  | JStr "" => Raise IndexError
  | JObj _ => Raise (KeyError "0")
  | _ => Raise TypeError
  end.

(** [json.loads] is part of the environment.  It is applied to any value:
    only a [str] reaches the parser. *)
Definition loads (json_loads : string -> option json) (v : json)
  : result json :=
  match v with
  | JStr s =>
      match json_loads s with
      | Some j => Ok j
      | None => Raise JSONDecodeError
      end
  | _ => Raise TypeError
  end.

(** [l.remove(x)]: the first occurrence goes, and there must be one. *)
Fixpoint remove (x : string) (l : list string) : result (list string) :=
  match l with
  | [] => Raise (ValueError "list.remove(x): x not in list")
  | y :: l' =>
      if String.eqb x y then Ok l'
      else l'' ← remove x l'; Ok (y :: l'')
  end.

(** *** Predicates on strings used in the proofs *)

(** A character of a decimal numeral: a digit or the minus sign. *)
Definition numeral_char (c : ascii) : bool := is_digit c || Ascii.eqb c "-".

Fixpoint all_chars (P : ascii -> bool) (s : string) : bool :=
  match s with
  | "" => true
  | String c r => P c && all_chars P r
  end.

End Py.

(** ** The environment: OpenAI client, clock, parser, database *)

Module Env.
Import Py.

(** A value of a batch's metadata dict: the pipelines store strings, and
    [retry_failed_requests] stores the integer counter [retry_attempt]. *)
Inductive meta_value :=
| MStr (s : string)
| MInt (z : Z).

(** The batch object of the client: [batch.status],
    [batch.request_counts] (total, completed, failed) and
    [batch.output_file_id]. *)
Record batch := {
  status : string;
  request_counts_total : Z;
  request_counts_completed : Z;
  request_counts_failed : Z;
  output_file_id : option string }.

(** A row of [get_speech_metadata] and of [get_person_metadata]: the keys
    the pipeline reads. *)
Record speech_metadata := { date : string }.
Record person_metadata := {
  name : string;
  faction : option string;
  party_name : option string }.

(** The first argument of a call is the number of calls made to the
    environment before it.  [py_str v] is [str(v)] for a float, a list or
    a dict, and [open_append name] is what [open(path, "a")] does for the
    file [name] of the intermediate directory: it returns or raises. *)
Record t := {
  files_create : nat -> list json -> result string;
  batches_create : nat -> string -> gmap string meta_value -> result string;
  batches_retrieve : nat -> string -> result batch;
  files_content : nat -> string -> result string;
  time : nat -> spec_float;
  now : nat -> string;
  json_loads : string -> option json;
  mean : list json -> result json;
  round2 : json -> json;
  get_speech_metadata : Z -> option speech_metadata;
  get_person_metadata : Z -> option person_metadata;
  py_str : json -> string;
  open_append : string -> result unit }.

End Env.

(** ** job_tracker.py *)

Module JobTracker.

(** One value of the status dict.  Every entry the tracker writes has the
    key [status]; the other keys are present or not. *)
Record entry := {
  status : string;
  filter_batch_job_ids : option (list string);
  filter_completed_at : option string;
  score_batch_job_ids : option (list string);
  score_completed_at : option string }.

(** [self._status] and the content of [job_status.json]. *)
Record t := {
  _status : gmap string entry;
  status_file : gmap string entry }.

Definition empty : t := {| _status := ∅; status_file := ∅ |}.

Definition _save_status (self : t) : t :=
  {| _status := _status self; status_file := _status self |}.

Definition set_status (st : gmap string entry) (self : t) : t :=
  {| _status := st; status_file := status_file self |}.

Definition _make_key (person_id : Z) (topic : string) : string :=
  Py.str person_id +:+ "_" +:+ topic.

(** The body of the loop of [get_pending_pairs]. *)
Definition pending_step (self : t) (phase : string)
    (pending : list (Z * string)) (pair : Z * string) : list (Z * string) :=
  let '(person_id, topic) := pair in
  let key := _make_key person_id topic in
  match _status self !! key with
  | None =>
      if String.eqb phase "filter" then pending ++ [(person_id, topic)]
      else pending
  | Some e =>
      if String.eqb phase "filter" && String.eqb (status e) "pending"
      then pending ++ [(person_id, topic)]
      else if String.eqb phase "score"
              && String.eqb (status e) "filter_complete"
      then pending ++ [(person_id, topic)]
      else pending
  end.

Definition get_pending_pairs (self : t) (phase : string)
    (all_pairs : list (Z * string)) : list (Z * string) :=
  fold_left (pending_step self phase) all_pairs [].

Definition mark_filter_complete (now : string) (self : t) (person_id : Z)
    (topic : string) (batch_job_ids : list string) : t :=
  let key := _make_key person_id topic in
  let e := {|
    status := "filter_complete";
    filter_batch_job_ids := Some batch_job_ids;
    filter_completed_at := Some now;
    score_batch_job_ids :=
      Some (default [] (_status self !! key ≫= score_batch_job_ids));
    score_completed_at := None |} in
  _save_status (set_status (<[key := e]> (_status self)) self).

Definition pending_entry : entry := {|
  status := "pending";
  filter_batch_job_ids := None;
  filter_completed_at := None;
  score_batch_job_ids := None;
  score_completed_at := None |}.

Definition with_status (s : string) (e : entry) : entry := {|
  status := s;
  filter_batch_job_ids := filter_batch_job_ids e;
  filter_completed_at := filter_completed_at e;
  score_batch_job_ids := score_batch_job_ids e;
  score_completed_at := score_completed_at e |}.

Definition mark_score_complete (now : string) (self : t) (person_id : Z)
    (topic : string) (batch_job_ids : list string) : t :=
  let key := _make_key person_id topic in
  let e0 := default pending_entry (_status self !! key) in
  let e := {|
    status := "score_complete";
    filter_batch_job_ids := filter_batch_job_ids e0;
    filter_completed_at := filter_completed_at e0;
    score_batch_job_ids := Some batch_job_ids;
    score_completed_at := Some now |} in
  _save_status (set_status (<[key := e]> (_status self)) self).

Definition is_pair_complete (self : t) (person_id : Z) (topic phase : string)
  : bool :=
  match _status self !! _make_key person_id topic with
  | None => false
  | Some e =>
      if String.eqb phase "filter"
      then String.eqb (status e) "filter_complete"
           || String.eqb (status e) "score_complete"
      else if String.eqb phase "score"
      then String.eqb (status e) "score_complete"
      else false
  end.

(** The body of the loop of [reset_pairs]; [phase] is [None] when the
    argument is left out. *)
Definition reset_step (phase : option string) (st : gmap string entry)
    (pair : Z * string) : gmap string entry :=
  let '(person_id, topic) := pair in
  let key := _make_key person_id topic in
  match phase with
  | None => <[key := pending_entry]> st
  | Some ph =>
      if String.eqb ph "filter" then <[key := pending_entry]> st
      else if String.eqb ph "score" then
        match st !! key with
        | Some e =>
            if String.eqb (status e) "score_complete"
            then <[key := with_status "filter_complete" e]> st
            else st
        | None => st
        end
      else st
  end.

Definition reset_pairs (self : t) (pairs : list (Z * string))
    (phase : option string) : t :=
  _save_status (set_status (fold_left (reset_step phase) pairs (_status self)) self).

Definition key_of (pair : Z * string) : string := _make_key pair.1 pair.2.

(** *** The pending set in the words of the specification *)

Definition stored_status (self : t) (pair : Z * string) : option string :=
  status <$> (_status self !! _make_key pair.1 pair.2).

(** Pending for the filter phase: no stored entry, or the status pending. *)
Definition filter_candidate (self : t) (pair : Z * string) : bool :=
  match stored_status self pair with
  | None => true
  | Some s => String.eqb s "pending"
  end.

(** Pending for the score phase: the stored status is filter_complete. *)
Definition score_candidate (self : t) (pair : Z * string) : bool :=
  match stored_status self pair with
  | None => false
  | Some s => String.eqb s "filter_complete"
  end.

(** What a reset for the score phase does to a stored entry. *)
Definition demote (e : entry) : entry :=
  if String.eqb (status e) "score_complete"
  then with_status "filter_complete" e
  else e.

(** *** Runs of the store *)

(** The state of a work item: its stored status, [pending] when it has no
    entry. *)
Definition state_of (self : t) (person_id : Z) (topic : string) : string :=
  match _status self !! _make_key person_id topic with
  | Some e => status e
  | None => "pending"
  end.

Inductive op :=
| MarkFilter (now : string) (person_id : Z) (topic : string) (ids : list string)
| MarkScore (now : string) (person_id : Z) (topic : string) (ids : list string)
| Reset (pairs : list (Z * string)) (phase : option string).

Definition apply (o : op) (self : t) : t :=
  match o with
  | MarkFilter now p tp ids => mark_filter_complete now self p tp ids
  | MarkScore now p tp ids => mark_score_complete now self p tp ids
  | Reset pairs phase => reset_pairs self pairs phase
  end.

Definition is_reset_to_pending (o : op) : bool :=
  match o with
  | Reset _ None => true
  | Reset _ (Some ph) => String.eqb ph "filter"
  | _ => false
  end.

Definition is_reset_score (o : op) : bool :=
  match o with
  | Reset _ (Some ph) => String.eqb ph "score"
  | _ => false
  end.

(** The moves the specification allows an operation to make on one item:
    stay, one step forward, or a reset by its rule. *)
Definition allowed (o : op) (s s' : string) : bool :=
  String.eqb s s'
  || (String.eqb s "pending" && String.eqb s' "filter_complete")
  || (String.eqb s "filter_complete" && String.eqb s' "score_complete")
  || (is_reset_score o
      && String.eqb s "score_complete" && String.eqb s' "filter_complete")
  || (is_reset_to_pending o && String.eqb s' "pending").

(** Every operation of the run makes an allowed move on the item. *)
Fixpoint monotonic (person_id : Z) (topic : string) (ops : list op) (self : t)
  : bool :=
  match ops with
  | [] => true
  | o :: ops' =>
      allowed o (state_of self person_id topic)
                (state_of (apply o self) person_id topic)
      && monotonic person_id topic ops' (apply o self)
  end.

(** The condition on a run under which the progression holds: a phase is
    marked complete only for a pair that is pending for that phase or
    already marked for it.  The store does not check it. *)
Definition guarded (o : op) (self : t) : bool :=
  match o with
  | MarkFilter _ p tp _ =>
      String.eqb (state_of self p tp) "pending"
      || String.eqb (state_of self p tp) "filter_complete"
  | MarkScore _ p tp _ =>
      String.eqb (state_of self p tp) "filter_complete"
      || String.eqb (state_of self p tp) "score_complete"
  | Reset _ _ => true
  end.

Fixpoint guarded_run (ops : list op) (self : t) : bool :=
  match ops with
  | [] => true
  | o :: ops' => guarded o self && guarded_run ops' (apply o self)
  end.

End JobTracker.

(** ** batch_manager.py *)

Module BatchManager.
Import Py Env.

(** An element of [self._failed_speeches]. *)
Record failed_speech := {
  request : json;
  metadata : gmap string meta_value;
  timestamp : string }.

(** A value of [self._costs].  The job's dict is stored as it is when the
    cost is tracked. *)
Record cost := {
  cost_timestamp : string;
  requests_total : Z;
  requests_completed : Z;
  requests_failed : Z;
  cost_metadata : gmap string meta_value }.

(** The three ledgers in memory, the three files on disk, and the number of
    calls made to the environment so far.  The JSONL file of a batch is
    written for the upload only and is not kept in the state. *)
Record t := {
  _batch_jobs : gmap string (gmap string meta_value);
  _costs : gmap string cost;
  _failed_speeches : list failed_speech;
  batch_jobs_file : gmap string (gmap string meta_value);
  costs_file : gmap string cost;
  failed_speeches_file : list failed_speech;
  tick : nat }.

Definition empty : t := {|
  _batch_jobs := ∅; _costs := ∅; _failed_speeches := [];
  batch_jobs_file := ∅; costs_file := ∅; failed_speeches_file := [];
  tick := 0 |}.

Definition set_batch_jobs (j : gmap string (gmap string meta_value)) (self : t)
  : t := {|
  _batch_jobs := j; _costs := _costs self;
  _failed_speeches := _failed_speeches self;
  batch_jobs_file := batch_jobs_file self; costs_file := costs_file self;
  failed_speeches_file := failed_speeches_file self; tick := tick self |}.

Definition set_costs (c : gmap string cost) (self : t) : t := {|
  _batch_jobs := _batch_jobs self; _costs := c;
  _failed_speeches := _failed_speeches self;
  batch_jobs_file := batch_jobs_file self; costs_file := costs_file self;
  failed_speeches_file := failed_speeches_file self; tick := tick self |}.

Definition set_failed_speeches (f : list failed_speech) (self : t) : t := {|
  _batch_jobs := _batch_jobs self; _costs := _costs self;
  _failed_speeches := f;
  batch_jobs_file := batch_jobs_file self; costs_file := costs_file self;
  failed_speeches_file := failed_speeches_file self; tick := tick self |}.

(** One more call to the environment has been made. *)
Definition called (self : t) : t := {|
  _batch_jobs := _batch_jobs self; _costs := _costs self;
  _failed_speeches := _failed_speeches self;
  batch_jobs_file := batch_jobs_file self; costs_file := costs_file self;
  failed_speeches_file := failed_speeches_file self; tick := S (tick self) |}.

Definition _save_batch_jobs (self : t) : t := {|
  _batch_jobs := _batch_jobs self; _costs := _costs self;
  _failed_speeches := _failed_speeches self;
  batch_jobs_file := _batch_jobs self; costs_file := costs_file self;
  failed_speeches_file := failed_speeches_file self; tick := tick self |}.

Definition _save_costs (self : t) : t := {|
  _batch_jobs := _batch_jobs self; _costs := _costs self;
  _failed_speeches := _failed_speeches self;
  batch_jobs_file := batch_jobs_file self; costs_file := _costs self;
  failed_speeches_file := failed_speeches_file self; tick := tick self |}.

Definition _save_failed_speeches (self : t) : t := {|
  _batch_jobs := _batch_jobs self; _costs := _costs self;
  _failed_speeches := _failed_speeches self;
  batch_jobs_file := batch_jobs_file self; costs_file := costs_file self;
  failed_speeches_file := _failed_speeches self; tick := tick self |}.

(** The dict [{**metadata, "submitted_at": .., "status": "submitted",
    "request_count": .., "file_id": ..}]. *)
Definition job_entry (metadata : gmap string meta_value) (submitted_at : string)
    (request_count : nat) (file_id : string) : gmap string meta_value :=
  <["file_id" := MStr file_id]>
    (<["request_count" := MInt (Z.of_nat request_count)]>
       (<["status" := MStr "submitted"]>
          (<["submitted_at" := MStr submitted_at]> metadata))).

(** A method of the manager that can raise returns the manager next to its
    result: what it did before raising stays done. *)
Definition create_batch (E : Env.t) (self : t) (requests : list json)
    (metadata : gmap string meta_value) : result string * t :=
  match files_create E (tick self) requests with
  | Raise e => (Raise e, called self)
  | Ok file_id =>
      let self := called self in
      match batches_create E (tick self) file_id metadata with
      | Raise e => (Raise e, called self)
      | Ok batch_id =>
          let self := called self in
          let submitted_at := now E (tick self) in
          let self := called self in
          let job :=
            job_entry metadata submitted_at (length requests) file_id in
          let self :=
            set_batch_jobs (<[batch_id := job]> (_batch_jobs self)) self in
          let self := _save_batch_jobs self in
          (Ok batch_id, self)
      end
  end.

(** [self._batch_jobs[batch_id][k] = v], under [if batch_id in
    self._batch_jobs]. *)
Definition set_job_field (batch_id k : string) (v : meta_value) (self : t) : t :=
  match _batch_jobs self !! batch_id with
  | Some job => set_batch_jobs (<[batch_id := <[k := v]> job]> (_batch_jobs self)) self
  | None => self
  end.

Definition _track_batch_cost (E : Env.t) (self : t) (batch_id : string)
    (b : batch) : t :=
  let ts := now E (tick self) in
  let self := called self in
  let c := {|
    cost_timestamp := ts;
    requests_total := request_counts_total b;
    requests_completed := request_counts_completed b;
    requests_failed := request_counts_failed b;
    cost_metadata := default ∅ (_batch_jobs self !! batch_id) |} in
  _save_costs (set_costs (<[batch_id := c]> (_costs self)) self).

Definition is_terminal (status : string) : bool :=
  String.eqb status "completed" || String.eqb status "failed"
  || String.eqb status "expired" || String.eqb status "cancelled".

(** The variables of the loop of [poll_batches]. *)
Record poll_state := {
  completed : gmap string string;
  remaining : list string;
  mgr : t }.

(** The [except Exception] clause of the loop body. *)
Definition on_exception (ps : poll_state) (batch_id : string)
  : result poll_state :=
  let completed' := <[batch_id := "error"]> (completed ps) in
  remaining' ← remove batch_id (remaining ps);
  Ok {| completed := completed'; remaining := remaining'; mgr := mgr ps |}.

(** The body of [for batch_id in list(remaining)]: the [try] block, and the
    handler where the block raises. *)
Definition poll_one (E : Env.t) (ps : poll_state) (batch_id : string)
  : result poll_state :=
  let answer := batches_retrieve E (tick (mgr ps)) batch_id in
  let ps := {| completed := completed ps; remaining := remaining ps;
               mgr := called (mgr ps) |} in
  match answer with
  | Raise _ => on_exception ps batch_id
  | Ok b =>
      let m := set_job_field batch_id "status" (MStr (status b)) (mgr ps) in
      if is_terminal (status b) then
        let completed' := <[batch_id := status b]> (completed ps) in
        match remove batch_id (remaining ps) with
        | Raise _ =>
            on_exception {| completed := completed'; remaining := remaining ps;
                            mgr := m |} batch_id
        | Ok remaining' =>
            let m :=
              match _batch_jobs m !! batch_id with
              | Some _ =>
                  set_job_field batch_id "completed_at"
                    (MStr (now E (tick m))) (called m)
              | None => m
              end in
            let m :=
              if String.eqb (status b) "completed"
              then _track_batch_cost E m batch_id b
              else m in
            Ok {| completed := completed'; remaining := remaining'; mgr := m |}
        end
      else Ok {| completed := completed ps; remaining := remaining ps; mgr := m |}
  end.

(** The [for] loop over the copy [list(remaining)]. *)
Fixpoint poll_round (E : Env.t) (ps : poll_state) (ids : list string)
  : result poll_state :=
  match ids with
  | [] => Ok ps
  | batch_id :: ids' => ps' ← poll_one E ps batch_id; poll_round E ps' ids'
  end.

Definition prec : Z := 53.
Definition emax : Z := 1024.

(** [f >= n] for a float and an [int]. *)
Definition float_ge_int (f : spec_float) (n : Z) : bool :=
  match f with
  | S754_zero _ => (n <=? 0)%Z
  | S754_infinity s => negb s
  | S754_nan => false
  | S754_finite s m e =>
      let v := if s then Z.neg m else Z.pos m in
      if (0 <=? e)%Z then (n <=? v * 2 ^ e)%Z
      else (n * 2 ^ (- e) <=? v)%Z
  end.

(** [update_interval = min(5, interval)] *)
Definition update_interval (interval : Z) : Z := Z.min 5 interval.

(** The [while remaining] loop.  A job that never reaches a terminal status
    keeps it running: [None] is the loop still running when the fuel is
    spent.  At the end of a round that leaves a batch outstanding the loop
    sleeps, and [time.sleep] raises for a negative length: [Some (Raise e)]
    is the call raising.  What it wrote to the ledgers before stays
    written, and is not part of this result. *)
Fixpoint poll_loop (fuel : nat) (E : Env.t) (interval : Z)
    (last_full_poll : spec_float) (ps : poll_state)
  : option (result (gmap string string * t)) :=
  match remaining ps with
  | [] => Some (Ok (completed ps, mgr ps))
  | _ :: _ =>
      match fuel with
      | O => None
      | S fuel' =>
          let current_time := time E (tick (mgr ps)) in
          let ps := {| completed := completed ps; remaining := remaining ps;
                       mgr := called (mgr ps) |} in
          let should_full_poll :=
            float_ge_int (SFsub prec emax current_time last_full_poll)
                         interval in
          match poll_round E ps (remaining ps) with
          | Raise e => Some (Raise e)
          | Ok ps =>
              let ps :=
                if should_full_poll
                then {| completed := completed ps; remaining := remaining ps;
                        mgr := _save_batch_jobs (mgr ps) |}
                else ps in
              let last_full_poll :=
                if should_full_poll then current_time else last_full_poll in
              match remaining ps with
              | [] => poll_loop fuel' E interval last_full_poll ps
              | _ :: _ =>
                  match sleep (update_interval interval) with
                  | Raise e => Some (Raise e)
                  | Ok _ => poll_loop fuel' E interval last_full_poll ps
                  end
              end
          end
      end
  end.

Definition poll_batches (fuel : nat) (E : Env.t) (self : t)
    (batch_ids : list string) (interval : Z)
  : option (result (gmap string string * t)) :=
  poll_loop fuel E interval (S754_zero false)
    {| completed := ∅; remaining := batch_ids; mgr := self |}.

(** A call that ends the polling of a batch: the client raises, or the
    batch has a terminal status. *)
Definition settles (E : Env.t) (call : nat) (batch_id : string) : bool :=
  match batches_retrieve E call batch_id with
  | Raise _ => true
  | Ok b => is_terminal (status b)
  end.

(** The values of the dict that [poll_batches] returns. *)
Definition is_final (status : string) : bool :=
  is_terminal status || String.eqb status "error".

(** The invariant of the polling loop for the ids given to [poll_batches]:
    an id is outstanding or has its final status, and nothing else is. *)
Definition poll_inv (batch_ids : list string) (ps : poll_state) : Prop :=
  (forall id, id ∈ batch_ids <->
     id ∈ remaining ps \/ is_Some (completed ps !! id))
  /\ forall id st, completed ps !! id = Some st -> is_final st = true.

Definition not_completed_msg (batch_id status : string) : string :=
  "Batch " +:+ batch_id +:+ " not completed yet (status: " +:+ status +:+ ")".

Definition no_output_msg (batch_id : string) : string :=
  "Batch " +:+ batch_id +:+ " has no output file".

Definition newline : ascii := ascii_of_nat 10.

Definition nonempty (line : string) : bool := negb (String.eqb line "").

(** The loop that parses the JSONL content. *)
Fixpoint parse_lines (E : Env.t) (lines : list string) (results : list json)
  : result (list json) :=
  match lines with
  | [] => Ok results
  | line :: lines' =>
      if String.eqb line "" then parse_lines E lines' results
      else
        r ← loads (json_loads E) (JStr line);
        parse_lines E lines' (results ++ [r])
  end.

Definition retrieve_results (E : Env.t) (self : t) (batch_id : string)
  : result (list json) * t :=
  match batches_retrieve E (tick self) batch_id with
  | Raise e => (Raise e, called self)
  | Ok b =>
      let self := called self in
      if negb (String.eqb (status b) "completed")
      then (Raise (ValueError (not_completed_msg batch_id (status b))), self)
      else
        match output_file_id b with
        | None | Some "" => (Raise (ValueError (no_output_msg batch_id)), self)
        | Some file_id =>
            match files_content E (tick self) file_id with
            | Raise e => (Raise e, called self)
            | Ok content =>
                (parse_lines E (split newline (strip content)) [],
                 called self)
            end
        end
  end.

(** The loop that logs the requests given up. *)
Fixpoint log_failed (E : Env.t) (self : t) (failed_requests : list json)
    (metadata : gmap string meta_value) : t :=
  match failed_requests with
  | [] => self
  | req :: reqs =>
      let r := {| request := req; metadata := metadata;
                  timestamp := now E (tick self) |} in
      let self := called self in
      let self := set_failed_speeches (_failed_speeches self ++ [r]) self in
      log_failed E self reqs metadata
  end.

(** [retry_failed_requests] writes [retry_attempt] into the caller's dict:
    the dict after the call is returned next to the result. *)
Definition retry_failed_requests (E : Env.t) (self : t)
    (failed_requests : list json) (metadata : gmap string meta_value)
    (max_attempts : Z)
  : result (option string) * gmap string meta_value * t :=
  match default (MInt 0) (metadata !! "retry_attempt") with
  | MStr _ => (Raise TypeError, metadata, self)
  | MInt attempt =>
      if (max_attempts <=? attempt)%Z then
        let self := log_failed E self failed_requests metadata in
        let self := _save_failed_speeches self in
        (Ok None, metadata, self)
      else
        let metadata := <["retry_attempt" := MInt (attempt + 1)]> metadata in
        let '(r, self) := create_batch E self failed_requests metadata in
        (Some <$> r, metadata, self)
  end.

(** [n] calls of [retry_failed_requests] in a row for the same requests,
    each with the dict the call before it left: the results in order, the
    dict and the manager after the last call. *)
Fixpoint retry_times (n : nat) (E : Env.t) (self : t)
    (failed_requests : list json) (metadata : gmap string meta_value)
    (max_attempts : Z)
  : list (result (option string)) * gmap string meta_value * t :=
  match n with
  | O => ([], metadata, self)
  | S n' =>
      let '(r, metadata, self) :=
        retry_failed_requests E self failed_requests metadata max_attempts in
      let '(rs, metadata, self) :=
        retry_times n' E self failed_requests metadata max_attempts in
      (r :: rs, metadata, self)
  end.

(** The client accepts every upload and every batch. *)
Definition accepts (E : Env.t) : Prop :=
  (forall call requests, is_ok (files_create E call requests) = true)
  /\ forall call file_id metadata,
       is_ok (batches_create E call file_id metadata) = true.

(** The value [metadata.get("retry_attempt", 0)] is the int [a]. *)
Definition attempt_is (metadata : gmap string meta_value) (a : Z) : Prop :=
  default (MInt 0) (metadata !! "retry_attempt") = MInt a.

End BatchManager.

(** ** filter_pipeline.py: the intermediate artifact *)

Module FilterPipeline.
Import Py Env.

(** A dict given to the CSV writer: the columns Id, Text, RelevanceScore. *)
Record filtered_speech := {
  Id : Z;
  Text : string;
  RelevanceScore : json }.

Definition csv_name (person_id : Z) (topic : string) : string :=
  str person_id +:+ "_" +:+ topic +:+ "_filtered.csv".

(** [intermediate_dir]: the files by name.  A file is modelled by the rows
    written to it; its header line is written when the file is created.
    This is the write once the file is open; the stage opens it first
    ([FilterStage.save_all]). *)
Definition _save_filtered_speeches (intermediate_dir : gmap string (list filtered_speech))
    (person_id : Z) (topic : string) (speeches : list filtered_speech)
  : gmap string (list filtered_speech) :=
  let csv_path := csv_name person_id topic in
  match intermediate_dir !! csv_path with
  | None => <[csv_path := speeches]> intermediate_dir
  | Some rows => <[csv_path := (rows ++ speeches)%list]> intermediate_dir
  end.

(** The text [csv.DictWriter] writes for the value of a cell: a string as
    it is, [None] as the empty string, any other value through [str]. *)
Definition cell (E : Env.t) (v : json) : string :=
  match v with
  | JStr s => s
  | JNull => ""
  | JInt z => str z
  | JBool b => if b then "True" else "False"
  | _ => py_str E v
  end.

(** [csv.field_size_limit()] as the code leaves it. *)
Definition field_limit : Z := 131072.

Definition field_limit_msg : string :=
  "field larger than field limit (131072)".

(** What the reader returns for a cell that was written as [written].  The
    file is written with an empty [newline] and read without one, so the
    line ends inside the text are read as LF; the reader raises [_csv.Error]
    for a cell of more characters than the limit.  Quoting is undone by
    the reader and is not modelled. *)
Definition read_cell (written : string) : result string :=
  let s := universal_newlines written in
  if (field_limit <? len s)%Z then Raise (CsvError field_limit_msg)
  else Ok s.

(** A row as [csv.DictReader] yields it: the cells Id and Text as text.
    The reader parses the whole row. *)
Definition read_row (E : Env.t) (r : filtered_speech)
  : result (string * string) :=
  row_id ← read_cell (str (Id r));
  row_text ← read_cell (Text r);
  _ ← read_cell (cell E (RelevanceScore r));
  Ok (row_id, row_text).

(** [csv.DictReader(f)] is an iterator over the rows: a row that cannot be
    read raises when the iteration comes to it. *)
Definition DictReader (E : Env.t) (rows : list filtered_speech)
  : list (result (string * string)) :=
  map (read_row E) rows.

(** A cell within the limit, and a row of such cells. *)
Definition fits (written : string) : bool :=
  (len (universal_newlines written) <=? field_limit)%Z.

Definition readable (E : Env.t) (r : filtered_speech) : bool :=
  fits (str (Id r)) && fits (Text r) && fits (cell E (RelevanceScore r)).

End FilterPipeline.

(** ** The final artifact of a pair *)

Module Scored.
Import Py.

(** A dict of [scored_speeches]: the columns of the final CSV. *)
Record speech := {
  Id : Z;
  Date : string;
  Topic : string;
  Text : string;
  Rank : json;
  Reasoning : json }.

End Scored.

(** ** output.py *)

Module OutputManager.
Import Py Env.

(** An element of [Topics] in an MK's [main.json]. *)
Record topic_data := {
  topicName : string;
  count : Z;
  average : json }.

Record mk_json := {
  id : Z;
  knessetSiteId : Z;
  mk_name : string;
  imageUrl : string;
  description : string;
  Topics : list topic_data }.

(** [mk_data/<person_id>/main.json] by the directory's name, and
    [topics/<topic>.json] by topic; a topic file maps [str(person_id)] to
    the list [count, average]. *)
Record t := {
  mk_files : gmap string mk_json;
  topic_files : gmap string (gmap string (Z * json)) }.

Definition empty : t := {| mk_files := ∅; topic_files := ∅ |}.

(** The loop over [data["Topics"]] that updates the first entry of the
    topic, and [None] where [topic_found] stays false. *)
Fixpoint set_topic (topics : list topic_data) (topic : string) (n : Z)
    (avg : json) : option (list topic_data) :=
  match topics with
  | [] => None
  | td :: rest =>
      if String.eqb (topicName td) topic
      then Some ({| topicName := topicName td; count := n; average := avg |}
                   :: rest)
      else (td ::.) <$> set_topic rest topic n avg
  end.

Definition update_topics (topics : list topic_data) (topic : string) (n : Z)
    (avg : json) : list topic_data :=
  match set_topic topics topic n avg with
  | Some topics' => topics'
  | None => topics ++ [{| topicName := topic; count := n; average := avg |}]
  end.

(** [str(v)] inside the f-string of the description. *)
Definition show (v : option string) : string := default "None" v.

Definition new_mk_json (person_id : Z) (md : person_metadata) : mk_json := {|
  id := person_id;
  knessetSiteId := person_id;
  mk_name := name md;
  imageUrl := "";
  description :=
    "Faction: " +:+ show (faction md) +:+ ", Party: " +:+ show (party_name md);
  Topics := [] |}.

Definition _update_mk_json (E : Env.t) (self : t) (person_id : Z)
    (topic : string) (n : Z) (avg : json) : t :=
  let json_path := str person_id in
  let loaded :=
    match mk_files self !! json_path with
    | Some data => Some data
    | None => new_mk_json person_id <$> get_person_metadata E person_id
    end in
  match loaded with
  | None => self
  | Some data =>
      let data' := {|
        id := id data; knessetSiteId := knessetSiteId data;
        mk_name := mk_name data; imageUrl := imageUrl data;
        description := description data;
        Topics := update_topics (Topics data) topic n (round2 E avg) |} in
      {| mk_files := <[json_path := data']> (mk_files self);
         topic_files := topic_files self |}
  end.

Definition _update_topic_json (E : Env.t) (self : t) (topic : string)
    (person_id : Z) (n : Z) (avg : json) : t :=
  let data := default ∅ (topic_files self !! topic) in
  let data' := <[str person_id := (n, round2 E avg)]> data in
  {| mk_files := mk_files self;
     topic_files := <[topic := data']> (topic_files self) |}.

Definition update_aggregations (E : Env.t) (self : t) (person_id : Z)
    (topic : string) (scored_speeches : list Scored.speech) : result t :=
  match scored_speeches with
  | [] => Ok self
  | _ :: _ =>
      let n := Z.of_nat (length scored_speeches) in
      let ranks := map Scored.Rank scored_speeches in
      avg ← mean E ranks;
      let self := _update_mk_json E self person_id topic n avg in
      let self := _update_topic_json E self topic person_id n avg in
      Ok self
  end.

(** What the two documents hold for a pair: the first entry of the topic in
    the MK's file, and the MK's entry in the topic's file. *)
Definition mk_stat (self : t) (person_id : Z) (topic : string)
  : option (Z * json) :=
  data ← mk_files self !! str person_id;
  td ← List.find (fun td => String.eqb (topicName td) topic) (Topics data);
  Some (count td, average td).

Definition topic_stat (self : t) (person_id : Z) (topic : string)
  : option (Z * json) :=
  data ← topic_files self !! topic;
  data !! str person_id.

(** Two calls in a row. *)
Definition update_twice (E : Env.t) (self : t) (person_id : Z)
    (topic : string) (scored_speeches : list Scored.speech) : result t :=
  self' ← update_aggregations E self person_id topic scored_speeches;
  update_aggregations E self' person_id topic scored_speeches.

End OutputManager.

(** ** score_pipeline.py *)

Module ScorePipeline.
Import Py Env.

(** [client_data] holds the final CSV of a pair under
    [mk_data/<person_id>/<topic>.csv]. *)
Record t := {
  batch_manager : BatchManager.t;
  job_tracker : JobTracker.t;
  output_manager : OutputManager.t;
  intermediate_dir : gmap string (list FilterPipeline.filtered_speech);
  client_data : gmap string (list Scored.speech) }.

Definition nl : string := String BatchManager.newline "".
Definition quote : string := String (ascii_of_nat 34) "".

(** The float 0.3 of [temperature]. *)
Definition temperature : spec_float := S754_finite false 5404319552844595 (-54).

Definition custom_id (speech_id : Z) (include_reasoning : bool) : string :=
  "score_" +:+ str speech_id +:+ "_" +:+ str (int_of_bool include_reasoning).

Definition system_message : string :=
  "You are a political speech analyst. Score stance on topics from 1 (strongly opposes) to 10 (strongly supports). Respond with JSON only.".

Definition user_message (text topic scoring_prompt : string)
    (include_reasoning : bool) : string :=
  let reasoning_instruction :=
    if include_reasoning
    then nl +:+ "Also provide a one-sentence reasoning for your score."
    else "" in
  "Speech Text:" +:+ nl +:+ text +:+ nl +:+ nl
  +:+ "Topic: " +:+ topic +:+ nl +:+ nl
  +:+ scoring_prompt +:+ reasoning_instruction +:+ nl +:+ nl
  +:+ "Respond with JSON only, format:" +:+ nl
  +:+ "{" +:+ nl
  +:+ "  " +:+ quote +:+ "stance_score" +:+ quote +:+ ": 1-10"
  +:+ (if include_reasoning
       then ", " +:+ quote +:+ "reasoning" +:+ quote +:+ ": "
            +:+ quote +:+ "one sentence" +:+ quote
       else "")
  +:+ nl +:+ "}".

Definition _build_scoring_request (speech_id : Z)
    (text topic scoring_prompt : string) (include_reasoning : bool) : json :=
  JObj [
    ("custom_id", JStr (custom_id speech_id include_reasoning));
    ("method", JStr "POST");
    ("url", JStr "/v1/chat/completions");
    ("body", JObj [
       ("model", JStr "gpt-4o-mini");
       ("messages", JArr [
          JObj [("role", JStr "system"); ("content", JStr system_message)];
          JObj [("role", JStr "user");
                ("content",
                 JStr (user_message text topic scoring_prompt
                         include_reasoning))]]);
       ("response_format", JObj [("type", JStr "json_object")]);
       ("temperature", JFloat temperature)])].

(** The loop of [_get_speech_text_from_csv] over the rows of the reader:
    it reads no further than the row it returns from. *)
Fixpoint find_text (reader : list (result (string * string)))
    (speech_id : Z) : result string :=
  match reader with
  | [] => Ok ""
  | row :: reader' =>
      row ← row;
      n ← int row.1;
      if (n =? speech_id)%Z then Ok row.2 else find_text reader' speech_id
  end.

Definition _get_speech_text_from_csv (E : Env.t)
    (dir : gmap string (list FilterPipeline.filtered_speech))
    (csv_path : string) (speech_id : Z) : result string :=
  match dir !! csv_path with
  | None => Raise FileNotFoundError
  | Some rows => find_text (FilterPipeline.DictReader E rows) speech_id
  end.

(** [score_data] of a result:
    [json.loads(result["response"]["body"]["choices"][0]["message"]["content"])]. *)
Definition score_data_of (E : Env.t) (result : json) : Py.result json :=
  response ← getitem result "response";
  response_body ← getitem response "body";
  choices ← getitem response_body "choices";
  choice ← getitem0 choices;
  message ← getitem choice "message";
  content ← getitem message "content";
  loads (json_loads E) content.

(** The inner [try] block for one result; [Ok None] is [continue]. *)
Definition parse_response (E : Env.t)
    (dir : gmap string (list FilterPipeline.filtered_speech))
    (person_id : Z) (topic : string) (result : json) (speech_id : Z)
    (has_reasoning : bool) : Py.result (option Scored.speech) :=
  score_data ← score_data_of E result;
  stance_score ← get score_data "stance_score" JNull;
  reasoning ← get score_data "reasoning" JNull;
  match stance_score with
  | JNull => Ok None
  | _ =>
      match get_speech_metadata E speech_id with
      | None => Ok None
      | Some metadata =>
          let csv_path := FilterPipeline.csv_name person_id topic in
          speech_text ← _get_speech_text_from_csv E dir csv_path speech_id;
          Ok (Some {|
            Scored.Id := speech_id;
            Scored.Date := date metadata;
            Scored.Topic := topic;
            Scored.Text := speech_text;
            Scored.Rank := stance_score;
            Scored.Reasoning :=
              if has_reasoning && truthy reasoning then reasoning
              else JStr "" |})
      end
  end.

(** [parts[i]] *)
Definition part (parts : list string) (i : nat) : Py.result string :=
  match parts !! i with
  | Some p => Ok p
  | None => Raise IndexError
  end.

(** The body of [for result in results]: [Ok None] is [continue], and an
    exception that the inner handler does not catch leaves the loop. *)
Definition process_result (E : Env.t)
    (dir : gmap string (list FilterPipeline.filtered_speech))
    (person_id : Z) (topic : string) (result : json)
  : Py.result (option Scored.speech) :=
  response ← get result "response" (JObj []);
  status_code ← get response "status_code" JNull;
  if negb (eq_int status_code 200) then Ok None
  else
    cid ← get result "custom_id" (JStr "");
    match cid with
    | JStr cid =>
        if negb (startswith cid "score_") then Ok None
        else
          let parts := split "_" cid in
          p1 ← part parts 1;
          speech_id ← int p1;
          p2 ← part parts 2;
          flag ← int p2;
          let has_reasoning := negb (flag =? 0)%Z in
          match parse_response E dir person_id topic result speech_id
                  has_reasoning with
          | Raise e =>
              if is_ValueError e || is_KeyError e then Ok None else Raise e
          | r => r
          end
    | _ => Raise AttributeError
    end.

Fixpoint collect (E : Env.t)
    (dir : gmap string (list FilterPipeline.filtered_speech))
    (person_id : Z) (topic : string) (results : list json)
    (scored_speeches : list Scored.speech) : Py.result (list Scored.speech) :=
  match results with
  | [] => Ok scored_speeches
  | result :: results' =>
      r ← process_result E dir person_id topic result;
      collect E dir person_id topic results'
        (match r with
         | Some s => scored_speeches ++ [s]
         | None => scored_speeches
         end)
  end.

Definition scored_csv_name (person_id : Z) (topic : string) : string :=
  "mk_data/" +:+ str person_id +:+ "/" +:+ topic +:+ ".csv".

(** The file is opened for writing: what it held is replaced. *)
Definition _save_scored_speeches (files : gmap string (list Scored.speech))
    (person_id : Z) (topic : string) (speeches : list Scored.speech)
  : gmap string (list Scored.speech) :=
  <[scored_csv_name person_id topic := speeches]> files.

Definition meta_truthy (v : option meta_value) : bool :=
  match v with
  | None => false
  | Some (MStr s) => negb (String.eqb s "")
  | Some (MInt z) => negb (z =? 0)%Z
  end.

(** [int(person_id)] for the value of the metadata. *)
Definition meta_int (v : meta_value) : Py.result Z :=
  match v with
  | MStr s => int s
  | MInt z => Ok z
  end.

(** The topic of the metadata as text; the pipeline stores a string. *)
Definition meta_text (v : meta_value) : string :=
  match v with
  | MStr s => s
  | MInt z => str z
  end.

Definition with_batch_manager (b : BatchManager.t) (self : t) : t := {|
  batch_manager := b; job_tracker := job_tracker self;
  output_manager := output_manager self;
  intermediate_dir := intermediate_dir self;
  client_data := client_data self |}.

(** [_process_batch_results]: the outer handler prints the exception and
    returns, so what was done before it stays done. *)
Definition _process_batch_results (E : Env.t) (self : t) (batch_id : string)
  : t :=
  let '(r, bm) := BatchManager.retrieve_results E (batch_manager self) batch_id in
  let self := with_batch_manager bm self in
  match r with
  | Raise _ => self
  | Ok results =>
      let batch_info := default ∅ (BatchManager._batch_jobs bm !! batch_id) in
      let person_id := batch_info !! "person_id" in
      let topic := batch_info !! "topic" in
      match person_id, topic with
      | Some p, Some tp =>
          if meta_truthy person_id then
            match meta_int p with
            | Raise _ => self
            | Ok person_id =>
                if (person_id =? 0)%Z || negb (meta_truthy topic) then self
                else
                  let topic := meta_text tp in
                  match collect E (intermediate_dir self) person_id topic
                          results [] with
                  | Raise _ => self
                  | Ok scored_speeches =>
                      let files :=
                        match scored_speeches with
                        | [] => client_data self
                        | _ :: _ =>
                            _save_scored_speeches (client_data self)
                              person_id topic scored_speeches
                        end in
                      let ts := now E (BatchManager.tick bm) in
                      let bm := BatchManager.called bm in
                      let jt :=
                        JobTracker.mark_score_complete ts (job_tracker self)
                          person_id topic [batch_id] in
                      let out :=
                        match OutputManager.update_aggregations E
                                (output_manager self) person_id topic
                                scored_speeches with
                        | Ok out => out
                        | Raise _ => output_manager self
                        end in
                      {| batch_manager := bm; job_tracker := jt;
                         output_manager := out;
                         intermediate_dir := intermediate_dir self;
                         client_data := files |}
                  end
            end
          else self
      | _, _ => self
      end
  end.

End ScorePipeline.

(** ** A small environment for the examples *)

Module Examples.
Import Py Env.

(** The answer of the model to one scoring request, and what the parser
    makes of it. *)
Definition answer : string :=
  "{" +:+ ScorePipeline.quote +:+ "stance_score" +:+ ScorePipeline.quote
  +:+ ": 7, " +:+ ScorePipeline.quote +:+ "reasoning" +:+ ScorePipeline.quote
  +:+ ": " +:+ ScorePipeline.quote +:+ "Backs the bill."
  +:+ ScorePipeline.quote +:+ "}".

Definition answer_json : json :=
  JObj [("stance_score", JInt 7); ("reasoning", JStr "Backs the bill.")].

(** The result the service returns for the request of speech 12 with
    reasoning, and its line in the output file. *)
Definition scored_result : json :=
  JObj [
    ("custom_id", JStr "score_12_1");
    ("response", JObj [
       ("status_code", JInt 200);
       ("body", JObj [
          ("choices", JArr [
             JObj [("message", JObj [("content", JStr answer)])]])])])].

Definition backslash : string := String (ascii_of_nat 92) "".

Definition quoted (s : string) : string :=
  ScorePipeline.quote +:+ s +:+ ScorePipeline.quote.

Definition escaped (s : string) : string :=
  backslash +:+ ScorePipeline.quote +:+ s +:+ backslash
  +:+ ScorePipeline.quote.

Definition result_line : string :=
  "{" +:+ quoted "custom_id" +:+ ": " +:+ quoted "score_12_1" +:+ ", "
  +:+ quoted "response" +:+ ": {" +:+ quoted "status_code" +:+ ": 200, "
  +:+ quoted "body" +:+ ": {" +:+ quoted "choices" +:+ ": [{"
  +:+ quoted "message" +:+ ": {" +:+ quoted "content" +:+ ": "
  +:+ quoted ("{" +:+ escaped "stance_score" +:+ ": 7, "
              +:+ escaped "reasoning" +:+ ": " +:+ escaped "Backs the bill."
              +:+ "}")
  +:+ "}}]}}}".

(** A parser that knows three documents. *)
Definition toy_loads (s : string) : option json :=
  if String.eqb s answer then Some answer_json
  else if String.eqb s result_line then Some scored_result
  else if String.eqb s "{}" then Some (JObj [])
  else None.

Fixpoint sum_ranks (ranks : list json) : option Z :=
  match ranks with
  | [] => Some 0%Z
  | JInt z :: ranks' => Z.add z <$> sum_ranks ranks'
  | _ => None
  end.

(** The mean of integer ranks where it is an integer; this environment
    knows no other mean. *)
Definition toy_mean (ranks : list json) : result json :=
  match sum_ranks ranks with
  | Some s =>
      let n := Z.of_nat (length ranks) in
      if (0 <? n)%Z && (s mod n =? 0)%Z then Ok (JInt (s / n))
      else Raise TypeError
  | None => Raise TypeError
  end.

(** Two lines of output with an empty line between them. *)
Definition output : string :=
  result_line +:+ ScorePipeline.nl +:+ ScorePipeline.nl +:+ "{}"
  +:+ ScorePipeline.nl.

(** The client accepts every batch; the batch [batch_x] cannot be polled,
    and every other batch is in progress for the first three calls and
    completed from then on.  The intermediate directory has no
    subdirectory: a name with a slash cannot be opened. *)
Definition env : Env.t := {|
  files_create := fun call _ => Ok ("file-" +:+ str (Z.of_nat call));
  batches_create := fun call _ _ => Ok ("batch_" +:+ str (Z.of_nat call));
  batches_retrieve := fun call batch_id =>
    if String.eqb batch_id "batch_x" then Raise (APIError "timeout")
    else Ok {| status := if (call <? 3)%nat then "in_progress"
                         else "completed";
               request_counts_total := 2;
               request_counts_completed := if (call <? 3)%nat then 0 else 2;
               request_counts_failed := 0;
               output_file_id := Some "file-out" |};
  files_content := fun _ _ => Ok output;
  time := fun _ => S754_zero false;
  now := fun call => "2025-01-01T00:00:" +:+ str (Z.of_nat call);
  json_loads := toy_loads;
  mean := toy_mean;
  round2 := fun v => v;
  get_speech_metadata := fun _ => Some {| date := "2024-05-01" |};
  get_person_metadata := fun _ =>
    Some {| name := "Dana Levi"; faction := Some "Centre";
            party_name := None |};
  py_str := fun _ => "[]";
  open_append := fun name =>
    if all_chars (fun c => negb (Ascii.eqb c "/")) name then Ok ()
    else Raise FileNotFoundError |}.

(** A client whose batches never leave the status in progress. *)
Definition stuck_env : Env.t := {|
  files_create := files_create env;
  batches_create := batches_create env;
  batches_retrieve := fun _ _ =>
    Ok {| status := "in_progress"; request_counts_total := 2;
          request_counts_completed := 0; request_counts_failed := 0;
          output_file_id := None |};
  files_content := files_content env;
  time := time env;
  now := now env;
  json_loads := json_loads env;
  mean := mean env;
  round2 := round2 env;
  get_speech_metadata := get_speech_metadata env;
  get_person_metadata := get_person_metadata env;
  py_str := py_str env;
  open_append := open_append env |}.

Definition request : json :=
  ScorePipeline._build_scoring_request 12 "We must fund schools." "education"
    "Score the stance." true.

Definition filtered_row : FilterPipeline.filtered_speech := {|
  FilterPipeline.Id := 12;
  FilterPipeline.Text := "We must fund schools.";
  FilterPipeline.RelevanceScore := JInt 4 |}.

Definition intermediate : gmap string (list FilterPipeline.filtered_speech) :=
  FilterPipeline._save_filtered_speeches ∅ 5 "education" [filtered_row].

Definition scored_row : Scored.speech := {|
  Scored.Id := 12;
  Scored.Date := "2024-05-01";
  Scored.Topic := "education";
  Scored.Text := "We must fund schools.";
  Scored.Rank := JInt 7;
  Scored.Reasoning := JStr "Backs the bill." |}.

(** A store with A pending, B filter_complete and C score_complete. *)
Definition A : Z * string := (1%Z, "economy").
Definition B : Z * string := (2%Z, "economy").
Definition C : Z * string := (3%Z, "health_care").

Definition tracker : JobTracker.t :=
  JobTracker.mark_score_complete "t3"
    (JobTracker.mark_filter_complete "t2"
       (JobTracker.reset_pairs JobTracker.empty [A] None) 2 "economy" ["job2"])
    3 "health_care" ["job3"].

(** A run of the store in which each mark finds its pair pending for the
    phase or marked for it, with resets between. *)
Definition ops : list JobTracker.op := [
  JobTracker.Reset [A] None;
  JobTracker.MarkFilter "t1" 1 "economy" ["job1"];
  JobTracker.MarkFilter "t2" 1 "economy" ["job2"];
  JobTracker.MarkScore "t3" 1 "economy" ["job3"];
  JobTracker.Reset [A; B] (Some "score");
  JobTracker.MarkScore "t4" 1 "economy" ["job4"];
  JobTracker.Reset [A] (Some "filter")].

(** The entry of C in [tracker]. *)
Definition entry_C : JobTracker.entry := {|
  JobTracker.status := "score_complete";
  JobTracker.filter_batch_job_ids := None;
  JobTracker.filter_completed_at := None;
  JobTracker.score_batch_job_ids := Some ["job3"];
  JobTracker.score_completed_at := Some "t3" |}.

(** The two documents after one update for [scored_row]. *)
Definition after_once : OutputManager.t :=
  OutputManager._update_topic_json env
    (OutputManager._update_mk_json env OutputManager.empty 5 "education" 1
       (JInt 7))
    "education" 5 1 (JInt 7).

(** The manager after the batch of [request] is submitted for the pair
    (5, education), the batch the client then answers with, and the state
    of the score pipeline at that point. *)
Definition score_metadata : gmap string meta_value :=
  <["phase" := MStr "score"]>
    (<["person_id" := MStr "5"]>
       (<["topic" := MStr "education"]> {["batch_index" := MStr "0"]})).

Definition submitted : BatchManager.t :=
  (BatchManager.create_batch env BatchManager.empty [request]
     score_metadata).2.

Definition pipeline : ScorePipeline.t := {|
  ScorePipeline.batch_manager := submitted;
  ScorePipeline.job_tracker :=
    JobTracker.mark_filter_complete "t0" JobTracker.empty 5 "education"
      ["batch_0"];
  ScorePipeline.output_manager := OutputManager.empty;
  ScorePipeline.intermediate_dir := intermediate;
  ScorePipeline.client_data := ∅ |}.


(** The batch the client answers with before the third call. *)
Definition running_batch : batch := {|
  status := "in_progress"; request_counts_total := 2;
  request_counts_completed := 0; request_counts_failed := 0;
  output_file_id := Some "file-out" |}.

Definition completed_batch : batch := {|
  status := "completed"; request_counts_total := 2;
  request_counts_completed := 2; request_counts_failed := 0;
  output_file_id := Some "file-out" |}.

(** The same answer for a request that did not ask for reasoning, and the
    row it yields. *)
Definition unrequested_result : json :=
  JObj [
    ("custom_id", JStr "score_12_0");
    ("response", JObj [
       ("status_code", JInt 200);
       ("body", JObj [
          ("choices", JArr [
             JObj [("message", JObj [("content", JStr answer)])]])])])].

Definition unrequested_row : Scored.speech := {|
  Scored.Id := 12;
  Scored.Date := "2024-05-01";
  Scored.Topic := "education";
  Scored.Text := "We must fund schools.";
  Scored.Rank := JInt 7;
  Scored.Reasoning := JStr "" |}.

End Examples.

(** ** More of Python: joins, slices, ranges, the items of a dict *)

Module PyList.
Import Py.

(** [sep.join(l)] *)
Fixpoint join (sep : string) (l : list string) : string :=
  match l with
  | [] => ""
  | s :: l' =>
      match l' with
      | [] => s
      | _ :: _ => s +:+ sep +:+ join sep l'
      end
  end.

(** [s.split(sep, 1)]: the text before the first separator and the text
    after it, or [s] alone where it has no separator. *)
Fixpoint split1 (sep : ascii) (s : string) : list string :=
  match s with
  | "" => [""]
  | String c r =>
      if Ascii.eqb c sep then [""; r]
      else match split1 sep r with
           | h :: t => String c h :: t
           | [] => [String c ""]
           end
  end.

(** [range(0, n, step)] for the length [n] of a list.  A negative step
    counts down from 0 and yields nothing; the step 0 raises. *)
Definition range (n : nat) (step : Z) : result (list nat) :=
  if (step =? 0)%Z then Raise (ValueError "range() arg 3 must not be zero")
  else if (step <? 0)%Z then Ok []
  else
    let k := Z.to_nat step in
    Ok (map (fun j => j * k) (seq 0 ((n + k - 1) / k))).

(** [l[i : i + size]] for [0 <= i] and [0 < size]. *)
Definition slice {A} (l : list A) (i size : nat) : list A :=
  take size (drop i l).

(** The items of a dict that [json.loads] built, each key once: the entry
    of a key is its first one in the list. *)
Fixpoint items_from (seen : list string) (m : list (string * json))
  : list (string * json) :=
  match m with
  | [] => []
  | (k, v) :: m' =>
      if bool_decide (k ∈ seen) then items_from seen m'
      else (k, v) :: items_from (k :: seen) m'
  end.

(** [d.items()]: a method of dicts only. *)
Definition items (d : json) : result (list (string * json)) :=
  match d with
  | JObj m => Ok (items_from [] m)
  | _ => Raise AttributeError
  end.

(** A character that is printed and is no space: U+0021..U+007E. *)
Definition graphic (c : ascii) : bool := in_range 33 126 c.

Definition first_char (P : ascii -> bool) (s : string) : bool :=
  match s with
  | "" => false
  | String c _ => P c
  end.

Definition last_char (P : ascii -> bool) (s : string) : bool :=
  first_char P (reverse s).

End PyList.

(** ** job_tracker.py: the statistics *)

Module JobTrackerReport.
Import Py JobTracker.

(** The body of the loop of [get_statistics]: [stats[status] += 1] under
    [if status in stats]. *)
Definition stats_step (stats : gmap string Z) (item : string * entry)
  : gmap string Z :=
  let status := status item.2 in
  match stats !! status with
  | Some n => <[status := (n + 1)%Z]> stats
  | None => stats
  end.

Definition get_statistics (self : t) : gmap string Z :=
  let stats : gmap string Z :=
    <["pending" := 0%Z]>
      (<["filter_complete" := 0%Z]>
         (<["score_complete" := 0%Z]>
            {["total" := Z.of_nat (size (_status self))]})) in
  foldl stats_step stats (map_to_list (_status self)).

(** The number of tracked pairs with the status [s]. *)
Definition count_status (s : string) (self : t) : Z :=
  Z.of_nat (length (List.filter (fun item : string * entry =>
                                   String.eqb (status item.2) s)
                      (map_to_list (_status self)))).

(** The store after a run of operations. *)
Definition run (ops : list op) (self : t) : t :=
  fold_left (fun self o => apply o self) ops self.

Definition known_status (s : string) : bool :=
  String.eqb s "pending" || String.eqb s "filter_complete"
  || String.eqb s "score_complete".

(** Every entry of the store has one of the three statuses. *)
Definition known (self : t) : Prop :=
  map_Forall (fun _ e => known_status (status e) = true) (_status self).

End JobTrackerReport.

(** ** batch_manager.py: the JSONL file of a batch, and what polling
    leaves alone *)

Module BatchFile.
Import Py Env BatchManager.

(** The text [create_batch] writes for the upload:
    [json.dumps(req, ensure_ascii=False) + "\n"] for each request.  The
    printer is a parameter, as the parser is. *)
Fixpoint jsonl (dumps : json -> string) (requests : list json) : string :=
  match requests with
  | [] => ""
  | req :: requests' =>
      (dumps req +:+ String newline "") +:+ jsonl dumps requests'
  end.

(** What the proofs need of the printer: it writes one line per value, a
    line that starts and ends with a printed character (a JSON text starts
    with a brace, a bracket, a quote, a digit, a sign or a letter), and the
    parser reads the line back. *)
Definition prints (E : Env.t) (dumps : json -> string) (req : json) : Prop :=
  json_loads E (dumps req) = Some req
  /\ PyList.first_char PyList.graphic (dumps req) = true
  /\ PyList.last_char PyList.graphic (dumps req) = true
  /\ all_chars (fun c => negb (Ascii.eqb c newline)) (dumps req) = true.

(** The job's dict without the two keys the polling loop writes. *)
Definition submitted_fields (job : gmap string meta_value)
  : gmap string meta_value :=
  delete "status" (delete "completed_at" job).

(** What [poll_batches] leaves of the manager [m] in [m']: the ledger has
    the same ids, a job keeps every field but its status and completion
    time, the jobs not polled are untouched, no cost entry goes away, and
    the ledger of failed requests and its file are untouched. *)
Definition ledger_kept (batch_ids : list string) (m m' : t) : Prop :=
  (forall id, is_Some (_batch_jobs m' !! id) <-> is_Some (_batch_jobs m !! id))
  /\ (forall id, submitted_fields <$> _batch_jobs m' !! id
                 = submitted_fields <$> _batch_jobs m !! id)
  /\ (forall id, id ∉ batch_ids -> _batch_jobs m' !! id = _batch_jobs m !! id)
  /\ (forall id, id ∉ batch_ids -> _costs m' !! id = _costs m !! id)
  /\ (forall id, is_Some (_costs m !! id) -> is_Some (_costs m' !! id))
  /\ _failed_speeches m' = _failed_speeches m
  /\ failed_speeches_file m' = failed_speeches_file m.

(** What the dict of [poll_batches] says of a batch is what the client
    said: the status [error] stands for a call that raised, any other
    status is the terminal status of an answer, and for the status
    [completed] the counts of that answer are in the cost ledger, in
    memory and on disk. *)
Definition reported (E : Env.t) (done : gmap string string) (m : t) : Prop :=
  forall id st, done !! id = Some st ->
    if String.eqb st "error"
    then exists call e, batches_retrieve E call id = Raise e
    else exists call b,
        batches_retrieve E call id = Ok b /\ status b = st
        /\ is_terminal st = true
        /\ (st = "completed" ->
            exists c, _costs m !! id = Some c /\ costs_file m !! id = Some c
              /\ requests_total c = request_counts_total b
              /\ requests_completed c = request_counts_completed b
              /\ requests_failed c = request_counts_failed b).

(** The client was given [requests] as a file and the file with [metadata]
    as a batch, and answered with [batch_id]. *)
Definition submitted_as (E : Env.t) (requests : list json)
    (metadata : gmap string meta_value) (batch_id : string) : Prop :=
  exists call file_id,
    files_create E call requests = Ok file_id
    /\ batches_create E (S call) file_id metadata = Ok batch_id.

(** The file of the ledger of jobs holds the ledger. *)
Definition saved (m : t) : Prop := batch_jobs_file m = _batch_jobs m.

(** The client refuses every upload with the exception [e]. *)
Definition refuses (E : Env.t) (e : exn) : Prop :=
  forall call requests, files_create E call requests = Raise e.

End BatchFile.

(** ** output.py: an invariant of the MK documents *)

Module OutputDocs.
Import OutputManager.

(** No MK document lists a topic twice. *)
Definition distinct_topics (self : t) : Prop :=
  map_Forall (fun _ data => NoDup (map topicName (Topics data)))
    (mk_files self).

End OutputDocs.

(** ** database.py: the two queries of the pipeline *)

Module Database.
Import Py.

(** A row of a query on [knesset_speeches_view]: the columns the pipeline
    reads.  The text can be NULL. *)
Record row := {
  row_id : Z;
  row_text : option string }.

(** A [Speech]: the fields the pipeline reads. *)
Record Speech := {
  id : Z;
  text : string }.

(** The SQLite engine is the environment: what [cursor.fetchall()] yields
    for the query by person and for the query by ids.  The errors of the
    engine are not modelled. *)
Record t := {
  fetch_by_person : Z -> list row;
  fetch_by_ids : list Z -> list row }.

(** [row["text"] or ""] *)
Definition text_or_empty (v : option string) : string := default "" v.

Definition get_all_speeches_by_person_id (self : t) (person_id : Z)
  : list Speech :=
  map (fun r => {| id := row_id r; text := text_or_empty (row_text r) |})
    (fetch_by_person self person_id).

(** The dict comprehension keeps the last row of an id. *)
Definition get_speeches_by_ids (self : t) (speech_ids : list Z)
  : gmap Z string :=
  match speech_ids with
  | [] => ∅
  | _ :: _ =>
      foldl (fun m r => <[row_id r := text_or_empty (row_text r)]> m) ∅
        (fetch_by_ids self speech_ids)
  end.

End Database.

(** ** config.py: what the pipelines read of the configuration *)

Module Config.
Import Py.

(** The batch size is read from the environment of the process, and the
    prompts from files: a prompt that is missing raises. *)
Record t := {
  BATCH_SIZE : Z;
  get_filter_prompt : list string -> result string;
  load_scoring_prompt : string -> result string }.

End Config.

(** ** filter_pipeline.py: the stage *)

Module FilterStage.
Import Py Env PyList FilterPipeline.

Record t := {
  batch_manager : BatchManager.t;
  job_tracker : JobTracker.t;
  intermediate_dir : gmap string (list filtered_speech) }.

Definition custom_id (speech_id : Z) : string := "speech_" +:+ str speech_id.

Definition system_message : string :=
  "You are a political speech analyst. Rate speech relevance to topics on a scale of 1-5. Respond with JSON only.".

Definition user_message (text : string) (topics : list string)
    (filter_prompt : string) : string :=
  let nl := ScorePipeline.nl in
  let quote := ScorePipeline.quote in
  "Speech Text:" +:+ nl +:+ text +:+ nl +:+ nl
  +:+ "Topics to evaluate:" +:+ nl +:+ join ", " topics +:+ nl +:+ nl
  +:+ filter_prompt +:+ nl +:+ nl
  +:+ "Respond with JSON only, format:" +:+ nl
  +:+ "{" +:+ nl
  +:+ "  " +:+ quote +:+ "topic1" +:+ quote +:+ ": {" +:+ quote
  +:+ "relevance" +:+ quote +:+ ": 1-5}," +:+ nl
  +:+ "  " +:+ quote +:+ "topic2" +:+ quote +:+ ": {" +:+ quote
  +:+ "relevance" +:+ quote +:+ ": 1-5}," +:+ nl
  +:+ "  ..." +:+ nl +:+ "}".

Definition _build_filter_request (speech : Database.Speech)
    (topics : list string) (filter_prompt : string) : json :=
  JObj [
    ("custom_id", JStr (custom_id (Database.id speech)));
    ("method", JStr "POST");
    ("url", JStr "/v1/chat/completions");
    ("body", JObj [
       ("model", JStr "gpt-4o-mini");
       ("messages", JArr [
          JObj [("role", JStr "system"); ("content", JStr system_message)];
          JObj [("role", JStr "user");
                ("content",
                 JStr (user_message (Database.text speech) topics
                         filter_prompt))]]);
       ("response_format", JObj [("type", JStr "json_object")]);
       ("temperature", JFloat ScorePipeline.temperature)])].

(** [not speech.text or not speech.text.strip()] is false. *)
Definition nonblank (speech : Database.Speech) : bool :=
  negb (String.eqb (Database.text speech) "")
  && negb (String.eqb (strip (Database.text speech)) "").

(** The metadata of a batch of the filter stage. *)
Definition filter_metadata (person_id : Z) (topics : list string)
    (batch_index : Z) : gmap string meta_value :=
  <["phase" := MStr "filter"]>
    (<["person_id" := MStr (str person_id)]>
       (<["topics" := MStr (join "," topics)]>
          {["batch_index" := MStr (str batch_index)]})).

(** The loop [for i in range(0, len(requests), batch_size)] that submits
    one batch per slice.  The two stages have the same loop and differ in
    the metadata, which is given here for [i // batch_size].  A call that
    raises ends the loop: the batches created before it stay in the
    ledger. *)
Fixpoint submit (E : Env.t) (self : BatchManager.t) (requests : list json)
    (batch_size : Z) (metadata : Z -> gmap string meta_value)
    (starts : list nat) (batch_ids : list string)
  : result (list string) * BatchManager.t :=
  match starts with
  | [] => (Ok batch_ids, self)
  | i :: starts' =>
      let batch_requests := slice requests i (Z.to_nat batch_size) in
      match BatchManager.create_batch E self batch_requests
              (metadata (Z.of_nat i / batch_size)%Z) with
      | (Raise e, self) => (Raise e, self)
      | (Ok batch_id, self) =>
          submit E self requests batch_size metadata starts'
            (batch_ids ++ [batch_id])
      end
  end.

Definition _process_person (C : Config.t) (D : Database.t) (E : Env.t)
    (self : BatchManager.t) (person_id : Z) (topics : list string)
  : result (list string) * BatchManager.t :=
  let speeches := Database.get_all_speeches_by_person_id D person_id in
  match speeches with
  | [] => (Ok [], self)
  | _ :: _ =>
      match Config.get_filter_prompt C topics with
      | Raise e => (Raise e, self)
      | Ok filter_prompt =>
          let requests :=
            map (fun speech => _build_filter_request speech topics filter_prompt)
              (List.filter nonblank speeches) in
          let batch_size := Config.BATCH_SIZE C in
          match range (length requests) batch_size with
          | Raise e => (Raise e, self)
          | Ok starts =>
              submit E self requests batch_size
                (filter_metadata person_id topics) starts []
          end
      end
  end.

(** The head of the body of both loops over the results: [Ok None] is
    [continue]. *)
Definition speech_id_of (result : json) : Py.result (option Z) :=
  response ← get result "response" (JObj []);
  status_code ← get response "status_code" JNull;
  if negb (eq_int status_code 200) then Ok None
  else
    cid ← get result "custom_id" (JStr "");
    match cid with
    | JStr cid =>
        if negb (startswith cid "speech_") then Ok None
        else
          p1 ← ScorePipeline.part (split "_" cid) 1;
          speech_id ← int p1;
          Ok (Some speech_id)
    | _ => Raise AttributeError
    end.

(** The first pass. *)
Fixpoint collect_ids (results : list json) (speech_ids : list Z)
  : Py.result (list Z) :=
  match results with
  | [] => Ok speech_ids
  | result :: results' =>
      r ← speech_id_of result;
      collect_ids results'
        (match r with
         | Some speech_id => speech_ids ++ [speech_id]
         | None => speech_ids
         end)
  end.

(** [all_by_topic[topic].append(row)] for the [defaultdict(list)], whose
    keys are kept in the order of their first use. *)
Fixpoint append_row (all_by_topic : list (string * list filtered_speech))
    (topic : string) (row : filtered_speech)
  : list (string * list filtered_speech) :=
  match all_by_topic with
  | [] => [(topic, [row])]
  | (tp, rows) :: rest =>
      if String.eqb tp topic then (tp, rows ++ [row]) :: rest
      else (tp, rows) :: append_row rest topic row
  end.

(** The loop over [relevance_scores.items()]. *)
Fixpoint add_scores (speech_id : Z) (speech_text : string)
    (scores : list (string * json))
    (all_by_topic : list (string * list filtered_speech))
  : Py.result (list (string * list filtered_speech)) :=
  match scores with
  | [] => Ok all_by_topic
  | (topic, score_data) :: scores' =>
      relevance ← get score_data "relevance" (JInt 0);
      add_scores speech_id speech_text scores'
        (append_row all_by_topic topic
           {| Id := speech_id; Text := speech_text;
              RelevanceScore := relevance |})
  end.

(** The inner [try] block for one result.  The expression that reads the
    answer is the one of the score stage. *)
Definition parse_relevance (E : Env.t) (speech_map : gmap Z string)
    (result : json) (speech_id : Z)
    (all_by_topic : list (string * list filtered_speech))
  : Py.result (list (string * list filtered_speech)) :=
  relevance_scores ← ScorePipeline.score_data_of E result;
  let speech_text := default "" (speech_map !! speech_id) in
  if String.eqb speech_text "" then Ok all_by_topic
  else
    scores ← items relevance_scores;
    add_scores speech_id speech_text scores all_by_topic.

(** The body of the second loop.  The handler catches what the block
    raises before it appends a row (the loop over the items raises
    [AttributeError] only, which the handler lets through), so the dict is
    then as it was before the block. *)
Definition group_result (E : Env.t) (speech_map : gmap Z string)
    (all_by_topic : list (string * list filtered_speech)) (result : json)
  : Py.result (list (string * list filtered_speech)) :=
  r ← speech_id_of result;
  match r with
  | None => Ok all_by_topic
  | Some speech_id =>
      match parse_relevance E speech_map result speech_id all_by_topic with
      | Raise e =>
          if is_ValueError e || is_KeyError e then Ok all_by_topic
          else Raise e
      | r => r
      end
  end.

Fixpoint group_results (E : Env.t) (speech_map : gmap Z string)
    (results : list json)
    (all_by_topic : list (string * list filtered_speech))
  : Py.result (list (string * list filtered_speech)) :=
  match results with
  | [] => Ok all_by_topic
  | result :: results' =>
      all_by_topic ← group_result E speech_map all_by_topic result;
      group_results E speech_map results' all_by_topic
  end.

(** The rows of each topic written to the topic's file. *)
Definition save_rows (dir : gmap string (list filtered_speech))
    (person_id : Z) (all_by_topic : list (string * list filtered_speech))
  : gmap string (list filtered_speech) :=
  fold_left
    (fun dir item => _save_filtered_speeches dir person_id item.1 item.2)
    all_by_topic dir.

(** The loop that saves the rows of each topic.  Each call opens the file
    of its topic, whose name is made of a key of the answer: where the file
    system refuses the name the call raises, and the files written before
    stay written. *)
Fixpoint save_all (E : Env.t) (dir : gmap string (list filtered_speech))
    (person_id : Z) (all_by_topic : list (string * list filtered_speech))
  : Py.result unit * gmap string (list filtered_speech) :=
  match all_by_topic with
  | [] => (Ok (), dir)
  | (topic, speeches) :: rest =>
      match open_append E (csv_name person_id topic) with
      | Raise e => (Raise e, dir)
      | Ok _ =>
          save_all E (_save_filtered_speeches dir person_id topic speeches)
            person_id rest
      end
  end.

(** The loop that marks the topics: each call reads the clock. *)
Fixpoint mark_topics (E : Env.t) (bm : BatchManager.t) (jt : JobTracker.t)
    (person_id : Z) (topics : list string) (batch_id : string)
  : BatchManager.t * JobTracker.t :=
  match topics with
  | [] => (bm, jt)
  | topic :: topics' =>
      let ts := now E (BatchManager.tick bm) in
      mark_topics E (BatchManager.called bm)
        (JobTracker.mark_filter_complete ts jt person_id topic [batch_id])
        person_id topics' batch_id
  end.

Definition with_batch_manager (b : BatchManager.t) (self : t) : t := {|
  batch_manager := b; job_tracker := job_tracker self;
  intermediate_dir := intermediate_dir self |}.

(** [_process_batch_results]: the handler prints the exception and raises
    it again. *)
Definition _process_batch_results (D : Database.t) (E : Env.t) (self : t)
    (batch_id : string) : Py.result unit * t :=
  let '(r, bm) :=
    BatchManager.retrieve_results E (batch_manager self) batch_id in
  let self := with_batch_manager bm self in
  match r with
  | Raise e => (Raise e, self)
  | Ok results =>
      let batch_info :=
        default ∅ (BatchManager._batch_jobs bm !! batch_id) in
      let person_id := batch_info !! "person_id" in
      let topics := default (MStr "") (batch_info !! "topics") in
      let converted :=
        match person_id with
        | Some v =>
            if ScorePipeline.meta_truthy person_id
            then ScorePipeline.meta_int v
            else Ok 0%Z
        | None => Ok 0%Z
        end in
      match converted with
      | Raise e => (Raise e, self)
      | Ok person_id =>
          if (person_id =? 0)%Z
             || negb (ScorePipeline.meta_truthy (Some topics))
          then (Ok (), self)
          else
            match collect_ids results [] with
            | Raise e => (Raise e, self)
            | Ok speech_ids =>
                let speech_map :=
                  Database.get_speeches_by_ids D speech_ids in
                match group_results E speech_map results [] with
                | Raise e => (Raise e, self)
                | Ok all_by_topic =>
                    let '(saved, dir) :=
                      save_all E (intermediate_dir self) person_id
                        all_by_topic in
                    match saved, topics with
                    | Raise e, _ =>
                        (Raise e,
                         {| batch_manager := bm;
                            job_tracker := job_tracker self;
                            intermediate_dir := dir |})
                    | Ok _, MInt _ =>
                        (Raise TypeError,
                         {| batch_manager := bm;
                            job_tracker := job_tracker self;
                            intermediate_dir := dir |})
                    | Ok _, MStr s =>
                        let '(bm, jt) :=
                          mark_topics E bm (job_tracker self) person_id
                            (split "," s) batch_id in
                        (Ok (),
                         {| batch_manager := bm; job_tracker := jt;
                            intermediate_dir := dir |})
                    end
                end
            end
      end
  end.

(** The grouping of [run]: the topics of each person, as a set. *)
Definition group_pairs (pairs : list (Z * string)) : gmap Z (gset string) :=
  fold_left
    (fun (person_topics : gmap Z (gset string)) (pair : Z * string) =>
       <[pair.1 := default ∅ (person_topics !! pair.1) ∪ {[pair.2]}]>
         person_topics)
    pairs ∅.

(** The person and the topics that [_process_batch_results] reads from the
    ledger for a batch, where it reads them and the topics are a string. *)
Definition topics_of (bm : BatchManager.t) (batch_id : string)
  : option (Z * list string) :=
  let batch_info := default ∅ (BatchManager._batch_jobs bm !! batch_id) in
  match batch_info !! "person_id", batch_info !! "topics" with
  | Some p, Some (MStr s) =>
      if ScorePipeline.meta_truthy (Some p) && negb (String.eqb s "") then
        match ScorePipeline.meta_int p with
        | Ok person_id =>
            if (person_id =? 0)%Z then None
            else Some (person_id, split "," s)
        | Raise _ => None
        end
      else None
  | _, _ => None
  end.

(** The row [row] under [topic] is the one the second loop makes of
    [result]: the result carries the row's speech id, the text is the
    speech's text in the map and is not empty, and the score is what the
    answer holds for the topic under the key relevance, 0 where it holds
    none. *)
Definition row_from (E : Env.t) (speech_map : gmap Z string) (result : json)
    (topic : string) (row : filtered_speech) : Prop :=
  speech_id_of result = Ok (Some (Id row))
  /\ speech_map !! Id row = Some (Text row)
  /\ Text row <> ""
  /\ exists relevance_scores scores score_data,
      ScorePipeline.score_data_of E result = Ok relevance_scores
      /\ items relevance_scores = Ok scores
      /\ (topic, score_data) ∈ scores
      /\ get score_data "relevance" (JInt 0) = Ok (RelevanceScore row).

(** No topic holds the separator of the metadata. *)
Definition comma_free (topic : string) : bool :=
  all_chars (fun c => negb (Ascii.eqb c ",")) topic.

End FilterStage.

(** ** score_pipeline.py: the submission of a pair *)

Module ScoreStage.
Import Py Env PyList ScorePipeline.

(** The metadata of a batch of the score stage. *)
Definition score_metadata (person_id : Z) (topic : string) (batch_index : Z)
  : gmap string meta_value :=
  <["phase" := MStr "score"]>
    (<["person_id" := MStr (str person_id)]>
       (<["topic" := MStr topic]>
          {["batch_index" := MStr (str batch_index)]})).

(** The loop that builds the requests from the rows read.
    [random.random()] is the environment: [random k] is the draw number [k]
    of the process, and [draws] counts the draws made. *)
Fixpoint build_requests (random : nat -> spec_float) (draws : nat)
    (reasoning_rate : spec_float) (topic scoring_prompt : string)
    (filtered_speeches : list (string * string)) (requests : list json)
  : result (list json) * nat :=
  match filtered_speeches with
  | [] => (Ok requests, draws)
  | (row_id, text) :: rest =>
      match int row_id with
      | Raise e => (Raise e, draws)
      | Ok speech_id =>
          let include_reasoning := SFltb (random draws) reasoning_rate in
          build_requests random (S draws) reasoning_rate topic scoring_prompt
            rest
            (requests ++ [_build_scoring_request speech_id text topic
                            scoring_prompt include_reasoning])
      end
  end.

Definition _process_pair (C : Config.t) (E : Env.t)
    (random : nat -> spec_float) (draws : nat)
    (dir : gmap string (list FilterPipeline.filtered_speech))
    (self : BatchManager.t) (person_id : Z) (topic : string)
    (reasoning_rate : spec_float)
  : result (list string) * BatchManager.t * nat :=
  match dir !! FilterPipeline.csv_name person_id topic with
  | None => (Ok [], self, draws)
  | Some rows =>
      match list_of (FilterPipeline.DictReader E rows) with
      | Raise e => (Raise e, self, draws)
      | Ok [] => (Ok [], self, draws)
      | Ok filtered_speeches =>
          match Config.load_scoring_prompt C topic with
          | Raise e => (Raise e, self, draws)
          | Ok scoring_prompt =>
              match build_requests random draws reasoning_rate topic
                      scoring_prompt filtered_speeches [] with
              | (Raise e, draws) => (Raise e, self, draws)
              | (Ok requests, draws) =>
                  let batch_size := Config.BATCH_SIZE C in
                  match range (length requests) batch_size with
                  | Raise e => (Raise e, self, draws)
                  | Ok starts =>
                      let '(r, self) :=
                        FilterStage.submit E self requests batch_size
                          (score_metadata person_id topic) starts [] in
                      (r, self, draws)
                  end
              end
          end
      end
  end.

(** The pair that [_process_batch_results] reads from the ledger for a
    batch, where it reads one. *)
Definition pair_of (bm : BatchManager.t) (batch_id : string)
  : option (Z * string) :=
  let batch_info := default ∅ (BatchManager._batch_jobs bm !! batch_id) in
  match batch_info !! "person_id", batch_info !! "topic" with
  | Some p, Some tp =>
      if meta_truthy (Some p) && meta_truthy (Some tp) then
        match meta_int p with
        | Ok person_id =>
            if (person_id =? 0)%Z then None
            else Some (person_id, meta_text tp)
        | Raise _ => None
        end
      else None
  | _, _ => None
  end.

End ScoreStage.

(** ** cli.py *)

Module Cli.
Import Py PyList JobTracker.

(** The test of the comprehension of [load_topics_from_file]. *)
Definition kept (line : string) : bool :=
  negb (String.eqb (strip line) "") && negb (startswith (strip line) "#").

(** The file is the lines that reading it yields, or [None] where it does
    not exist. *)
Definition load_topics_from_file (file : option (list string))
  : result (list string) :=
  match file with
  | None => Raise FileNotFoundError
  | Some lines => Ok (map strip (List.filter kept lines))
  end.

(** The pending pairs of the command [filter], and the tracker it leaves. *)
Definition filter_pending (job_tracker : JobTracker.t)
    (all_pairs : list (Z * string)) (force_reprocess : bool)
  : list (Z * string) * JobTracker.t :=
  let job_tracker :=
    if force_reprocess then reset_pairs job_tracker all_pairs (Some "filter")
    else job_tracker in
  (get_pending_pairs job_tracker "filter" all_pairs, job_tracker).

(** The pending pairs of the command [score]. *)
Definition score_pending (job_tracker : JobTracker.t)
    (all_pairs : list (Z * string)) (force_reprocess : bool)
  : list (Z * string) * JobTracker.t :=
  let job_tracker :=
    if force_reprocess then reset_pairs job_tracker all_pairs (Some "score")
    else job_tracker in
  (get_pending_pairs job_tracker "score" all_pairs, job_tracker).

(** The body of the loop of [cleanup_intermediate] over the items of the
    tracker: the paths it appends to [completed]. *)
Definition cleanup_target (dir : gmap string (list FilterPipeline.filtered_speech))
    (item : string * entry) : list string :=
  if String.eqb (status item.2) "score_complete" then
    match split1 "_" item.1 with
    | [person_id; topic] =>
        let csv_path := person_id +:+ "_" +:+ topic +:+ "_filtered.csv" in
        if bool_decide (is_Some (dir !! csv_path)) then [csv_path] else []
    | _ => []
    end
  else [].

(** [csv_path.unlink()] *)
Definition unlink (dir : gmap string (list FilterPipeline.filtered_speech))
    (csv_path : string)
  : result (gmap string (list FilterPipeline.filtered_speech)) :=
  match dir !! csv_path with
  | Some _ => Ok (delete csv_path dir)
  | None => Raise FileNotFoundError
  end.

Fixpoint unlink_all (dir : gmap string (list FilterPipeline.filtered_speech))
    (completed : list string)
  : result (gmap string (list FilterPipeline.filtered_speech)) :=
  match completed with
  | [] => Ok dir
  | csv_path :: completed' =>
      dir ← unlink dir csv_path;
      unlink_all dir completed'
  end.

(** [confirm] is the option [--yes], [response] the answer to the prompt. *)
Definition cleanup_intermediate (job_tracker : JobTracker.t)
    (dir : gmap string (list FilterPipeline.filtered_speech))
    (confirm response : bool)
  : result (gmap string (list FilterPipeline.filtered_speech)) :=
  let completed :=
    flat_map (cleanup_target dir) (map_to_list (_status job_tracker)) in
  match completed with
  | [] => Ok dir
  | _ :: _ =>
      if confirm || response then unlink_all dir completed else Ok dir
  end.

End Cli.

(** ** More of the small environment *)

Module StageExamples.
Import Py Env.

(** The answer of the model to one filter request, and what the parser
    makes of it. *)
Definition filter_answer : string :=
  "{" +:+ Examples.quoted "education" +:+ ": {"
  +:+ Examples.quoted "relevance" +:+ ": 4}}".

Definition filter_answer_json : json :=
  JObj [("education", JObj [("relevance", JInt 4)])].

(** The result the service returns for the request of speech 12, and its
    line in the output file. *)
Definition filter_result : json :=
  JObj [
    ("custom_id", JStr "speech_12");
    ("response", JObj [
       ("status_code", JInt 200);
       ("body", JObj [
          ("choices", JArr [
             JObj [("message", JObj [("content", JStr filter_answer)])]])])])].

Definition filter_line : string :=
  "{" +:+ Examples.quoted "custom_id" +:+ ": "
  +:+ Examples.quoted "speech_12" +:+ ", "
  +:+ Examples.quoted "response" +:+ ": {" +:+ Examples.quoted "status_code"
  +:+ ": 200, " +:+ Examples.quoted "body" +:+ ": {"
  +:+ Examples.quoted "choices" +:+ ": [{" +:+ Examples.quoted "message"
  +:+ ": {" +:+ Examples.quoted "content" +:+ ": "
  +:+ Examples.quoted ("{" +:+ Examples.escaped "education" +:+ ": {"
                       +:+ Examples.escaped "relevance" +:+ ": 4}}")
  +:+ "}}]}}}".

(** An answer that rates a topic of its own, whose name has a slash, next
    to a topic of the batch; the result that carries it and its line. *)
Definition slash_answer : string :=
  "{" +:+ Examples.quoted "education" +:+ ": {"
  +:+ Examples.quoted "relevance" +:+ ": 4}, "
  +:+ Examples.quoted "health/care" +:+ ": {"
  +:+ Examples.quoted "relevance" +:+ ": 2}}".

Definition slash_answer_json : json :=
  JObj [("education", JObj [("relevance", JInt 4)]);
        ("health/care", JObj [("relevance", JInt 2)])].

Definition slash_result : json :=
  JObj [
    ("custom_id", JStr "speech_12");
    ("response", JObj [
       ("status_code", JInt 200);
       ("body", JObj [
          ("choices", JArr [
             JObj [("message", JObj [("content", JStr slash_answer)])]])])])].

Definition slash_line : string :=
  "{" +:+ Examples.quoted "custom_id" +:+ ": "
  +:+ Examples.quoted "speech_12" +:+ ", "
  +:+ Examples.quoted "response" +:+ ": {" +:+ Examples.quoted "status_code"
  +:+ ": 200, " +:+ Examples.quoted "body" +:+ ": {"
  +:+ Examples.quoted "choices" +:+ ": [{" +:+ Examples.quoted "message"
  +:+ ": {" +:+ Examples.quoted "content" +:+ ": "
  +:+ Examples.quoted ("{" +:+ Examples.escaped "education" +:+ ": {"
                       +:+ Examples.escaped "relevance" +:+ ": 4}, "
                       +:+ Examples.escaped "health/care" +:+ ": {"
                       +:+ Examples.escaped "relevance" +:+ ": 2}}")
  +:+ "}}]}}}".

Definition filter_loads (s : string) : option json :=
  if String.eqb s filter_answer then Some filter_answer_json
  else if String.eqb s filter_line then Some filter_result
  else if String.eqb s slash_answer then Some slash_answer_json
  else if String.eqb s slash_line then Some slash_result
  else Examples.toy_loads s.

(** A printer for the values of the examples. *)
Definition toy_dumps (v : json) : string :=
  match v with
  | JObj [] => "{}"
  | JObj (("custom_id", JStr "speech_12") :: _) => filter_line
  | _ => Examples.result_line
  end.

(** The environment of the examples, with another output file. *)
Definition with_output (content : string) : Env.t := {|
  files_create := files_create Examples.env;
  batches_create := batches_create Examples.env;
  batches_retrieve := batches_retrieve Examples.env;
  files_content := fun _ _ => Ok content;
  time := time Examples.env;
  now := now Examples.env;
  json_loads := filter_loads;
  mean := mean Examples.env;
  round2 := round2 Examples.env;
  get_speech_metadata := get_speech_metadata Examples.env;
  get_person_metadata := get_person_metadata Examples.env;
  py_str := py_str Examples.env;
  open_append := open_append Examples.env |}.

(** The output file of the filter batch of the examples. *)
Definition filter_env : Env.t :=
  with_output (BatchFile.jsonl toy_dumps [filter_result]).

(** The output file of a filter batch whose answer names the topic with a
    slash. *)
Definition slash_env : Env.t := with_output (slash_line +:+ ScorePipeline.nl).

(** An output file in the format of the input file. *)
Definition printed_env : Env.t :=
  with_output (BatchFile.jsonl toy_dumps [Examples.scored_result; JObj []]).

(** A client that is out of service. *)
Definition refusing_env : Env.t := {|
  files_create := fun _ _ => Raise (APIError "unavailable");
  batches_create := batches_create Examples.env;
  batches_retrieve := batches_retrieve Examples.env;
  files_content := files_content Examples.env;
  time := time Examples.env;
  now := now Examples.env;
  json_loads := json_loads Examples.env;
  mean := mean Examples.env;
  round2 := round2 Examples.env;
  get_speech_metadata := get_speech_metadata Examples.env;
  get_person_metadata := get_person_metadata Examples.env;
  py_str := py_str Examples.env;
  open_append := open_append Examples.env |}.

(** Person 5 has three speeches: one with a text, one whose text is NULL
    and one whose text is blank. *)
Definition speeches_of_5 : list Database.row := [
  {| Database.row_id := 12;
     Database.row_text := Some "We must fund schools." |};
  {| Database.row_id := 13; Database.row_text := None |};
  {| Database.row_id := 14; Database.row_text := Some "   " |}].

Definition database : Database.t := {|
  Database.fetch_by_person := fun person_id =>
    if (person_id =? 5)%Z then speeches_of_5 else [];
  Database.fetch_by_ids := fun speech_ids =>
    List.filter (fun r => bool_decide (Database.row_id r ∈ speech_ids))
      speeches_of_5 |}.

Definition config : Config.t := {|
  Config.BATCH_SIZE := 2;
  Config.get_filter_prompt := fun _ => Ok "Rate the relevance.";
  Config.load_scoring_prompt := fun _ => Ok "Score the stance." |}.

(** Every draw is the float 0.5. *)
Definition random (_ : nat) : spec_float :=
  S754_finite false 4503599627370496 (-53).

(** The rate 0.75. *)
Definition rate : spec_float := S754_finite false 6755399441055744 (-53).

(** The filter stage after the speeches of person 5 are submitted for the
    topics education and health. *)
Definition submitted_filter : BatchManager.t :=
  (FilterStage._process_person config database Examples.env
     BatchManager.empty 5 ["education"; "health"]).2.

Definition filter_stage : FilterStage.t := {|
  FilterStage.batch_manager := submitted_filter;
  FilterStage.job_tracker := JobTracker.empty;
  FilterStage.intermediate_dir := ∅ |}.

(** Two rows of one speech, as two runs of the filter stage leave them,
    and a row of another speech. *)
Definition three_rows : list FilterPipeline.filtered_speech := [
  Examples.filtered_row; Examples.filtered_row;
  {| FilterPipeline.Id := 15; FilterPipeline.Text := "Roads first.";
     FilterPipeline.RelevanceScore := JInt 2 |}].

Definition three_row_dir
  : gmap string (list FilterPipeline.filtered_speech) :=
  FilterPipeline._save_filtered_speeches ∅ 5 "education" three_rows.

(** A text of two lines that end in CR LF and in CR, and a text of one
    character more than the reader takes for a field. *)
Definition two_lines : string :=
  "Roads first," +:+ String CR (String LF "")
  +:+ "rails later." +:+ String CR "".

Definition long_text : string :=
  Pos.iter (String "a") "" 131073%positive.

(** An artifact whose third row has the long text. *)
Definition long_rows : list FilterPipeline.filtered_speech := [
  Examples.filtered_row;
  {| FilterPipeline.Id := 15; FilterPipeline.Text := two_lines;
     FilterPipeline.RelevanceScore := JInt 2 |};
  {| FilterPipeline.Id := 16; FilterPipeline.Text := long_text;
     FilterPipeline.RelevanceScore := JInt 3 |};
  {| FilterPipeline.Id := 17; FilterPipeline.Text := "Ports too.";
     FilterPipeline.RelevanceScore := JInt 1 |}].

Definition long_row_dir
  : gmap string (list FilterPipeline.filtered_speech) :=
  FilterPipeline._save_filtered_speeches ∅ 5 "education" long_rows.

End StageExamples.

(** * Part II: the properties *)

Module PyFacts.
Import Py.

Lemma numeral_char_plain c :
  numeral_char c = true ->
  is_space c = false /\ Ascii.eqb c "_" = false
  /\ (forall a b, is_space2 c a = false /\ is_space2 a c = false
                  /\ is_space3 c a b = false /\ is_space3 a b c = false).
Proof.
  unfold numeral_char, is_digit, is_space, is_space2, is_space3, in_range.
  intros H.
  assert (Hc : (48 <= nat_of_ascii c <= 57)%nat \/ c = "-"%char).
  { apply orb_true_iff in H as [H|H].
    - left. apply andb_true_iff in H as [H1 H2].
      apply Nat.leb_le in H1, H2. lia.
    - right. by apply Ascii.eqb_eq. }
  destruct Hc as [Hc | ->].
  - split; [|split].
    + destruct (Nat.leb_spec 9 (nat_of_ascii c)), (Nat.leb_spec (nat_of_ascii c) 13),
        (Nat.leb_spec 28 (nat_of_ascii c)), (Nat.leb_spec (nat_of_ascii c) 32);
        simpl; try reflexivity; lia.
    + apply Ascii.eqb_neq. intros ->.
      change (nat_of_ascii "_") with 95%nat in Hc. lia.
    + intros a b.
      assert (E1 : (nat_of_ascii c =? 194)%nat = false) by (apply Nat.eqb_neq; lia).
      assert (E2 : (nat_of_ascii c =? 225)%nat = false) by (apply Nat.eqb_neq; lia).
      assert (E3 : (nat_of_ascii c =? 226)%nat = false) by (apply Nat.eqb_neq; lia).
      assert (E4 : (nat_of_ascii c =? 227)%nat = false) by (apply Nat.eqb_neq; lia).
      assert (E5 : (nat_of_ascii c =? 133)%nat = false) by (apply Nat.eqb_neq; lia).
      assert (E6 : (nat_of_ascii c =? 160)%nat = false) by (apply Nat.eqb_neq; lia).
      assert (E7 : (nat_of_ascii c =? 128)%nat = false) by (apply Nat.eqb_neq; lia).
      assert (E8 : (nat_of_ascii c =? 159)%nat = false) by (apply Nat.eqb_neq; lia).
      assert (E9 : (nat_of_ascii c =? 175)%nat = false) by (apply Nat.eqb_neq; lia).
      assert (E10 : (128 <=? nat_of_ascii c)%nat = false) by (apply Nat.leb_gt; lia).
      assert (E11 : (168 <=? nat_of_ascii c)%nat = false) by (apply Nat.leb_gt; lia).
      rewrite E1, E2, E3, E4, E5, E6, E7, E8, E9, E10, E11. simpl.
      rewrite ?andb_false_r. simpl. rewrite ?andb_false_r. done.
  - split; [reflexivity|split; [reflexivity|]].
    intros a b. change (nat_of_ascii "-") with 45%nat. simpl.
    rewrite ?andb_false_r. simpl. rewrite ?andb_false_r. done.
Qed.


Lemma skip_space_numeral back s :
  all_chars numeral_char s = true -> skip_space back s = s.
Proof.
  destruct s as [|c1 r1]; [done|]. simpl. intros H.
  apply andb_true_iff in H as [H1 H].
  destruct (numeral_char_plain c1 H1) as (-> & _ & Hc).
  destruct r1 as [|c2 r2]; [done|].
  destruct (Hc c2 c2) as (-> & -> & _ & _).
  destruct back; destruct r2 as [|c3 r3]; try done.
  - destruct (Hc c2 c3) as (_ & _ & _ & H3).
    destruct (Hc c3 c2) as (_ & _ & _ & ->). done.
  - destruct (Hc c2 c3) as (_ & _ & -> & _). done.
Qed.

Lemma all_chars_list P s :
  all_chars P s = forallb P (list_ascii_of_string s).
Proof. induction s as [|c r IH]; simpl; [done|]. by rewrite IH. Qed.

Lemma reverse_reverse s : reverse (reverse s) = s.
Proof.
  unfold reverse.
  rewrite list_ascii_of_string_of_list_ascii, rev_involutive.
  apply string_of_list_ascii_of_string.
Qed.

Lemma all_chars_reverse P s : all_chars P (reverse s) = all_chars P s.
Proof.
  unfold reverse. rewrite !all_chars_list, list_ascii_of_string_of_list_ascii.
  apply eq_true_iff_eq. rewrite !forallb_forall.
  split; intros H x Hx; apply H.
  - by apply (proj1 (in_rev _ x)).
  - by apply (proj2 (in_rev _ x)).
Qed.

Lemma strip_numeral s : all_chars numeral_char s = true -> strip s = s.
Proof.
  intros H. unfold strip, lstrip, rstrip.
  rewrite (skip_space_numeral false s H).
  rewrite skip_space_numeral by (by rewrite all_chars_reverse).
  apply reverse_reverse.
Qed.

Lemma string_of_uint_digits d :
  all_chars is_digit (NilEmpty.string_of_uint d) = true.
Proof. induction d; simpl; auto. Qed.

Lemma all_chars_impl (P Q : ascii -> bool) s :
  (forall c, P c = true -> Q c = true) ->
  all_chars P s = true -> all_chars Q s = true.
Proof.
  intros HPQ. induction s as [|c r IH]; simpl; [done|].
  intros H. apply andb_true_iff in H as [H1 H2].
  rewrite (HPQ c H1), (IH H2). done.
Qed.

Lemma digit_numeral c : is_digit c = true -> numeral_char c = true.
Proof. unfold numeral_char. by intros ->. Qed.

Lemma digit_groups_digits b s :
  all_chars is_digit s = true -> (s = "" -> b = true) ->
  digit_groups b s = Some s.
Proof.
  revert b. induction s as [|c r IH]; intros b H Hb; simpl.
  - by rewrite Hb.
  - simpl in H. apply andb_true_iff in H as [H1 H2]. rewrite H1.
    rewrite (IH true H2) by done. done.
Qed.

Lemma string_of_uint_nonempty d :
  d <> Decimal.Nil -> NilEmpty.string_of_uint d <> "".
Proof. destruct d; simpl; congruence. Qed.

Lemma int_digits_uint d :
  d <> Decimal.Nil ->
  int_digits (NilEmpty.string_of_uint d) = Some (Z.of_uint d).
Proof.
  intros Hd. unfold int_digits.
  rewrite digit_groups_digits.
  - simpl. by rewrite NilEmpty.usu.
  - apply string_of_uint_digits.
  - intros E. by destruct (string_of_uint_nonempty d Hd).
Qed.

Lemma str_pos p : str (Z.pos p) = NilEmpty.string_of_uint (Pos.to_uint p).
Proof.
  unfold str. simpl. unfold NilZero.string_of_uint.
  pose proof (Unsigned.to_uint_nonnil p) as H.
  by destruct (Pos.to_uint p).
Qed.

Lemma str_neg p :
  str (Z.neg p) = String "-" (NilEmpty.string_of_uint (Pos.to_uint p)).
Proof.
  unfold str. simpl. unfold NilZero.string_of_uint.
  pose proof (Unsigned.to_uint_nonnil p) as H.
  by destruct (Pos.to_uint p).
Qed.

Lemma str_numeral z : all_chars numeral_char (str z) = true.
Proof.
  destruct z as [|p|p].
  - reflexivity.
  - rewrite str_pos.
    apply (all_chars_impl is_digit); [apply digit_numeral|apply string_of_uint_digits].
  - rewrite str_neg. simpl.
    apply (all_chars_impl is_digit); [apply digit_numeral|apply string_of_uint_digits].
Qed.

Lemma of_uint_pos p : Z.of_uint (Pos.to_uint p) = Z.pos p.
Proof. exact (DecimalZ.of_to (Z.pos p)). Qed.

(** [int] reads back what [str] prints. *)
Lemma int_str z : int (str z) = Ok z.
Proof.
  unfold int. rewrite strip_numeral by apply str_numeral.
  destruct z as [|p|p].
  - reflexivity.
  - rewrite str_pos.
    pose proof (int_digits_uint _ (Unsigned.to_uint_nonnil p)) as H.
    pose proof (string_of_uint_digits (Pos.to_uint p)) as Hd.
    destruct (NilEmpty.string_of_uint (Pos.to_uint p)) as [|c r] eqn:E.
    + by destruct (string_of_uint_nonempty _ (Unsigned.to_uint_nonnil p)).
    + assert (c <> "-"%char /\ c <> "+"%char) as [N1 N2].
      { simpl in Hd. apply andb_true_iff in Hd as [Hc _].
        split; intros ->; discriminate. }
      rewrite H, of_uint_pos.
      destruct c as [[] [] [] [] [] [] [] []]; try reflexivity; congruence.
  - rewrite str_neg.
    rewrite (int_digits_uint _ (Unsigned.to_uint_nonnil p)), of_uint_pos.
    reflexivity.
Qed.

Lemma str_inj z1 z2 : str z1 = str z2 -> z1 = z2.
Proof.
  intros H. pose proof (int_str z1) as H1. rewrite H, int_str in H1.
  congruence.
Qed.


Lemma append_nil s : "" +:+ s = s.
Proof. reflexivity. Qed.

Lemma append_cons c r s : String c r +:+ s = String c (r +:+ s).
Proof. reflexivity. Qed.

Lemma split_numeral s t :
  all_chars numeral_char s = true ->
  split "_" (s +:+ String "_" t) = s :: split "_" t.
Proof.
  induction s as [|c r IH]; simpl; [done|].
  intros H. apply andb_true_iff in H as [H1 H2].
  destruct (numeral_char_plain c H1) as (_ & -> & _).
  by rewrite (IH H2).
Qed.

Lemma app_underscore_inj s1 s2 t1 t2 :
  all_chars numeral_char s1 = true -> all_chars numeral_char s2 = true ->
  s1 +:+ String "_" t1 = s2 +:+ String "_" t2 -> s1 = s2 /\ t1 = t2.
Proof.
  revert s2. induction s1 as [|c r IH]; intros [|c' r']; simpl; intros H1 H2 E;
    rewrite ?append_nil, ?append_cons in E.
  - split; congruence.
  - apply andb_true_iff in H2 as [H2 _].
    destruct (numeral_char_plain c' H2) as (_ & N & _).
    injection E as <- _. discriminate.
  - apply andb_true_iff in H1 as [H1 _].
    destruct (numeral_char_plain c H1) as (_ & N & _).
    injection E as -> _. discriminate.
  - apply andb_true_iff in H1 as [_ H1]. apply andb_true_iff in H2 as [_ H2].
    injection E as -> E. destruct (IH r' H1 H2 E) as [-> ->]. done.
Qed.

End PyFacts.

Module JobTrackerFacts.
Import Py PyFacts JobTracker.

Lemma _make_key_inj p1 t1 p2 t2 :
  _make_key p1 t1 = _make_key p2 t2 -> p1 = p2 /\ t1 = t2.
Proof.
  unfold _make_key. intros E.
  apply app_underscore_inj in E as [E ->]; try apply str_numeral.
  by apply str_inj in E as ->.
Qed.

Lemma _make_key_ne (a b : Z * string) :
  a <> b -> _make_key a.1 a.2 <> _make_key b.1 b.2.
Proof.
  destruct a as [p1 t1], b as [p2 t2]. simpl. intros N E.
  apply _make_key_inj in E as [-> ->]. done.
Qed.

Lemma pending_step_filter self acc pair :
  pending_step self "filter" acc pair
  = acc ++ (if filter_candidate self pair then [pair] else []).
Proof.
  destruct pair as [p tp].
  unfold pending_step, filter_candidate, stored_status. simpl.
  destruct (_status self !! _make_key p tp) as [e|]; simpl.
  - destruct (String.eqb (status e) "pending"); simpl; by rewrite ?app_nil_r.
  - done.
Qed.

Lemma pending_step_score self acc pair :
  pending_step self "score" acc pair
  = acc ++ (if score_candidate self pair then [pair] else []).
Proof.
  destruct pair as [p tp].
  unfold pending_step, score_candidate, stored_status. simpl.
  destruct (_status self !! _make_key p tp) as [e|]; simpl.
  - destruct (String.eqb (status e) "filter_complete"); simpl;
      by rewrite ?app_nil_r.
  - by rewrite app_nil_r.
Qed.

Lemma fold_pending (f : list (Z * string) -> Z * string -> list (Z * string))
    (P : Z * string -> bool) :
  (forall acc pair, f acc pair = acc ++ (if P pair then [pair] else [])) ->
  forall pairs acc, fold_left f pairs acc = acc ++ List.filter P pairs.
Proof.
  intros Hf. induction pairs as [|pair pairs IH]; intros acc; simpl.
  - by rewrite app_nil_r.
  - rewrite IH, Hf. destruct (P pair); simpl.
    + by rewrite <- app_assoc.
    + by rewrite app_nil_r.
Qed.

Lemma candidate_status self pair s :
  stored_status self pair = Some s ->
  filter_candidate self pair = String.eqb s "pending"
  /\ score_candidate self pair = String.eqb s "filter_complete".
Proof. unfold filter_candidate, score_candidate. by intros ->. Qed.

(** C2. Pending-set correctness: for the phase filter the pending pairs are
    exactly the candidates with no stored entry or with the stored status
    pending, for the phase score exactly the candidates with the stored
    status filter_complete, in the order of the candidate list; a store
    that holds A as pending, B as filter_complete and C as score_complete
    answers [A] for filter and [B] for score on the candidates A, B, C. *)
Theorem pending_set_correct (self : t) (all_pairs : list (Z * string)) :
  get_pending_pairs self "filter" all_pairs
    = List.filter (filter_candidate self) all_pairs
  /\ get_pending_pairs self "score" all_pairs
    = List.filter (score_candidate self) all_pairs
  /\ forall A B C : Z * string,
      stored_status self A = Some "pending" ->
      stored_status self B = Some "filter_complete" ->
      stored_status self C = Some "score_complete" ->
      get_pending_pairs self "filter" [A; B; C] = [A]
      /\ get_pending_pairs self "score" [A; B; C] = [B].
Proof.
  assert (Hf : forall pairs, get_pending_pairs self "filter" pairs
                 = List.filter (filter_candidate self) pairs).
  { intros pairs. unfold get_pending_pairs.
    by rewrite (fold_pending _ _ (pending_step_filter self)). }
  assert (Hs : forall pairs, get_pending_pairs self "score" pairs
                 = List.filter (score_candidate self) pairs).
  { intros pairs. unfold get_pending_pairs.
    by rewrite (fold_pending _ _ (pending_step_score self)). }
  split; [apply Hf|split; [apply Hs|]].
  intros A B C HA HB HC. rewrite Hf, Hs. simpl.
  destruct (candidate_status _ _ _ HA) as [-> ->].
  destruct (candidate_status _ _ _ HB) as [-> ->].
  destruct (candidate_status _ _ _ HC) as [-> ->].
  done.
Qed.



Lemma key_of_elem (pair : Z * string) (pairs : list (Z * string)) :
  key_of pair ∈ map key_of pairs <-> pair ∈ pairs.
Proof.
  split.
  - intros H. apply list_elem_of_fmap in H as (q & E & Hq).
    destruct pair as [p1 t1], q as [p2 t2]. unfold key_of in E. simpl in E.
    apply _make_key_inj in E as [-> ->]. done.
  - intros H. apply list_elem_of_fmap. eauto.
Qed.

Lemma reset_step_pending phase st pair :
  phase = None \/ phase = Some "filter" ->
  reset_step phase st pair = <[key_of pair := pending_entry]> st.
Proof. destruct pair. by intros [-> | ->]. Qed.

Lemma reset_fold_pending phase pairs st k :
  phase = None \/ phase = Some "filter" ->
  fold_left (reset_step phase) pairs st !! k
  = if decide (k ∈ map key_of pairs) then Some pending_entry else st !! k.
Proof.
  intros Hp. revert st. induction pairs as [|pair pairs IH]; intros st.
  - cbn [fold_left map]. case_decide as H; [|done]. by apply elem_of_nil in H.
  - cbn [fold_left map]. rewrite IH, (reset_step_pending _ _ _ Hp).
    destruct (decide (k = key_of pair)) as [->|Hne].
    + rewrite lookup_insert_eq, (decide_True (P := _ ∈ _ :: _))
        by apply list_elem_of_here.
      by case_decide.
    + rewrite lookup_insert_ne by done.
      destruct (decide (k ∈ map key_of pairs)).
      * by rewrite decide_True by (by apply list_elem_of_further).
      * by rewrite decide_False by (rewrite elem_of_cons; tauto).
Qed.

Lemma demote_demote e : demote (demote e) = demote e.
Proof.
  unfold demote. destruct (String.eqb (status e) "score_complete") eqn:E.
  - reflexivity.
  - by rewrite E.
Qed.

Lemma reset_step_score st pair k :
  reset_step (Some "score") st pair !! k
  = if decide (k = key_of pair) then demote <$> st !! k else st !! k.
Proof.
  destruct pair as [p tp]. unfold reset_step, key_of, demote. simpl.
  destruct (st !! _make_key p tp) as [e|] eqn:E.
  - destruct (String.eqb (status e) "score_complete") eqn:Es.
    + case_decide as Hk.
      * subst k. rewrite lookup_insert_eq, E. simpl. by rewrite Es.
      * by rewrite lookup_insert_ne.
    + case_decide as Hk; [|done]. subst k. rewrite E. simpl. by rewrite Es.
  - case_decide as Hk; [|done]. subst k. by rewrite E.
Qed.

Lemma reset_fold_score pairs st k :
  fold_left (reset_step (Some "score")) pairs st !! k
  = if decide (k ∈ map key_of pairs) then demote <$> st !! k else st !! k.
Proof.
  revert st. induction pairs as [|pair pairs IH]; intros st.
  - cbn [fold_left map]. case_decide as H; [|done]. by apply elem_of_nil in H.
  - cbn [fold_left map]. rewrite IH, reset_step_score.
    destruct (decide (k = key_of pair)) as [->|Hne].
    + rewrite (decide_True (P := _ ∈ _ :: _)) by apply list_elem_of_here.
      case_decide; [|done].
      destruct (st !! key_of pair); simpl; [|done]. by rewrite demote_demote.
    + destruct (decide (k ∈ map key_of pairs)).
      * by rewrite decide_True by (by apply list_elem_of_further).
      * by rewrite decide_False by (rewrite elem_of_cons; tauto).
Qed.

Lemma reset_fold_other ph pairs st :
  String.eqb ph "filter" = false -> String.eqb ph "score" = false ->
  fold_left (reset_step (Some ph)) pairs st = st.
Proof.
  intros H1 H2. induction pairs as [|[p tp] pairs IH]; [done|].
  simpl. by rewrite H1, H2.
Qed.

Lemma reset_pairs_status self pairs phase :
  _status (reset_pairs self pairs phase)
  = fold_left (reset_step phase) pairs (_status self).
Proof. reflexivity. Qed.

(** The entry of a pair after a reset, for every phase argument. *)
Lemma reset_pairs_lookup self pairs phase p tp :
  _status (reset_pairs self pairs phase) !! _make_key p tp
  = if decide ((p, tp) ∈ pairs) then
      match phase with
      | None => Some pending_entry
      | Some ph =>
          if String.eqb ph "filter" then Some pending_entry
          else if String.eqb ph "score"
               then demote <$> _status self !! _make_key p tp
               else _status self !! _make_key p tp
      end
    else _status self !! _make_key p tp.
Proof.
  rewrite reset_pairs_status.
  pose proof (key_of_elem (p, tp) pairs) as Hin.
  change (key_of (p, tp)) with (_make_key p tp) in Hin.
  destruct phase as [ph|].
  - destruct (String.eqb_spec ph "filter") as [->|Hf].
    + rewrite reset_fold_pending by auto. repeat case_decide; tauto.
    + destruct (String.eqb_spec ph "score") as [->|Hs].
      * rewrite reset_fold_score. repeat case_decide; tauto.
      * rewrite reset_fold_other by (by apply String.eqb_neq).
        by case_decide.
  - rewrite reset_fold_pending by auto. repeat case_decide; tauto.
Qed.

(** C8. Reset semantics: a reset for the phase filter, or with the phase
    left out, leaves every listed item with the bare entry of status
    pending; a reset for the phase score turns the status of the listed
    items that are score_complete into filter_complete and keeps the rest
    of their entry; every other item keeps its entry, and the file holds
    the new status dict. *)
Theorem reset_semantics (self : t) (pairs : list (Z * string))
    (person_id : Z) (topic : string) :
  let key := _make_key person_id topic in
  (forall phase, phase = None \/ phase = Some "filter" ->
     _status (reset_pairs self pairs phase) !! key
     = if decide ((person_id, topic) ∈ pairs) then Some pending_entry
       else _status self !! key)
  /\ (forall e, (person_id, topic) ∈ pairs ->
        _status self !! key = Some e -> status e = "score_complete" ->
        _status (reset_pairs self pairs (Some "score")) !! key
        = Some (with_status "filter_complete" e))
  /\ (((person_id, topic) ∉ pairs
       \/ _status self !! key = None
       \/ exists e, _status self !! key = Some e
                    /\ status e <> "score_complete") ->
      _status (reset_pairs self pairs (Some "score")) !! key
      = _status self !! key)
  /\ forall phase,
      status_file (reset_pairs self pairs phase)
      = _status (reset_pairs self pairs phase).
Proof.
  intros key. subst key. repeat split.
  - intros phase [-> | ->]; by rewrite reset_pairs_lookup.
  - intros e Hin He Hs. rewrite reset_pairs_lookup. simpl.
    rewrite decide_True by done. rewrite He. simpl.
    unfold demote. by rewrite Hs.
  - intros H. rewrite reset_pairs_lookup. simpl.
    case_decide as Hin; [|done].
    destruct H as [H | [H | (e & He & Hs)]]; [done|by rewrite H|].
    rewrite He. simpl. unfold demote.
    by destruct (String.eqb_spec (status e) "score_complete").
Qed.


Lemma state_of_mark_filter now self person_id topic ids p tp :
  state_of (mark_filter_complete now self person_id topic ids) p tp
  = if decide ((p, tp) = (person_id, topic)) then "filter_complete"
    else state_of self p tp.
Proof.
  unfold state_of, mark_filter_complete. simpl. case_decide as H.
  - injection H as -> ->. by rewrite lookup_insert_eq.
  - rewrite lookup_insert_ne; [done|].
    intros E. apply _make_key_inj in E as [-> ->]. done.
Qed.

Lemma state_of_mark_score now self person_id topic ids p tp :
  state_of (mark_score_complete now self person_id topic ids) p tp
  = if decide ((p, tp) = (person_id, topic)) then "score_complete"
    else state_of self p tp.
Proof.
  unfold state_of, mark_score_complete. simpl. case_decide as H.
  - injection H as -> ->. by rewrite lookup_insert_eq.
  - rewrite lookup_insert_ne; [done|].
    intros E. apply _make_key_inj in E as [-> ->]. done.
Qed.

Lemma eqb_refl_true s : String.eqb s s = true.
Proof. apply String.eqb_refl. Qed.

Lemma allowed_refl o s : allowed o s s = true.
Proof. unfold allowed. by rewrite eqb_refl_true. Qed.

Lemma allowed_reset pairs phase self p tp :
  allowed (Reset pairs phase) (state_of self p tp)
    (state_of (reset_pairs self pairs phase) p tp) = true.
Proof.
  unfold state_of. rewrite reset_pairs_lookup.
  case_decide as Hin; [|apply allowed_refl].
  assert (Hpend : forall s o, is_reset_to_pending o = true ->
            allowed o s "pending" = true).
  { intros s o Ho. unfold allowed. rewrite Ho. simpl.
    by rewrite !orb_true_r. }
  destruct phase as [ph|]; [|by apply Hpend].
  destruct (String.eqb ph "filter") eqn:Hf; [by apply Hpend; simpl|].
  destruct (String.eqb ph "score") eqn:Hs; [|apply allowed_refl].
  destruct (_status self !! _make_key p tp) as [e|]; simpl;
    [|apply allowed_refl].
  unfold demote.
  destruct (String.eqb_spec (status e) "score_complete") as [He|He];
    [|apply allowed_refl].
  simpl. unfold allowed. simpl. rewrite Hs, He. reflexivity.
Qed.

Lemma allowed_guarded o self p tp :
  guarded o self = true ->
  allowed o (state_of self p tp) (state_of (apply o self) p tp) = true.
Proof.
  destruct o as [now q tq ids | now q tq ids | pairs phase]; simpl; intros G.
  - rewrite state_of_mark_filter. case_decide as H; [|apply allowed_refl].
    injection H as -> ->.
    apply orb_true_iff in G as [G|G]; apply String.eqb_eq in G; rewrite G;
      reflexivity.
  - rewrite state_of_mark_score. case_decide as H; [|apply allowed_refl].
    injection H as -> ->.
    apply orb_true_iff in G as [G|G]; apply String.eqb_eq in G; rewrite G;
      reflexivity.
  - apply allowed_reset.
Qed.

(** C3 (amended). Phase progression: the store does not look at the current
    state when a phase is marked complete, so marking filter gives
    filter_complete and marking score gives score_complete from any state;
    in a run where each mark is applied to a pair that is pending for that
    phase or already marked for it, every operation leaves each item where
    it is, moves it one step forward (pending, filter_complete,
    score_complete), or is a reset that moves it back by its rule. *)
Theorem phase_progression (self : t) :
  (forall now p tp ids,
      state_of (mark_filter_complete now self p tp ids) p tp
      = "filter_complete")
  /\ (forall now p tp ids,
        state_of (mark_score_complete now self p tp ids) p tp
        = "score_complete")
  /\ forall ops, guarded_run ops self = true ->
       forall p tp, monotonic p tp ops self = true.
Proof.
  split; [|split].
  - intros. rewrite state_of_mark_filter. by rewrite decide_True.
  - intros. rewrite state_of_mark_score. by rewrite decide_True.
  - intros ops. revert self.
    induction ops as [|o ops IH]; intros self G p tp; [done|].
    simpl in *. apply andb_true_iff in G as [G1 G2].
    rewrite (allowed_guarded o self p tp G1). simpl. by apply IH.
Qed.

(** C3, as stated, fails: marking the score phase complete for a pair the
    store has never seen takes it from pending to score_complete in one
    operation, and marking the filter phase complete for a pair that is
    score_complete takes it back without a reset. *)
Lemma phase_progression_counterexample :
  monotonic 42 "topicA" [MarkScore "t1" 42 "topicA" ["job1"]] empty = false
  /\ state_of empty 42 "topicA" = "pending"
  /\ state_of (apply (MarkScore "t1" 42 "topicA" ["job1"]) empty) 42 "topicA"
     = "score_complete"
  /\ monotonic 42 "topicA"
       [MarkScore "t1" 42 "topicA" ["job1"];
        MarkFilter "t2" 42 "topicA" ["job2"]] empty = false
  /\ state_of (apply (MarkFilter "t2" 42 "topicA" ["job2"])
                 (apply (MarkScore "t1" 42 "topicA" ["job1"]) empty))
       42 "topicA" = "filter_complete".
Proof. repeat split; vm_compute; reflexivity. Qed.

(** C9. Filter completion: the entry of the pair becomes filter_complete
    with the given batch ids and the time of the call; the score batch ids
    it stored before are kept, and are the empty list where there were
    none; no other pair's entry changes, and the file holds the new status
    dict. *)
Theorem mark_filter_complete_frame (now : string) (self : t) (person_id : Z)
    (topic : string) (batch_job_ids : list string) :
  let self' := mark_filter_complete now self person_id topic batch_job_ids in
  let key := _make_key person_id topic in
  (exists e', _status self' !! key = Some e'
     /\ status e' = "filter_complete"
     /\ filter_batch_job_ids e' = Some batch_job_ids
     /\ filter_completed_at e' = Some now
     /\ (forall e ids, _status self !! key = Some e ->
           score_batch_job_ids e = Some ids ->
           score_batch_job_ids e' = Some ids)
     /\ ((_status self !! key = None
          \/ exists e, _status self !! key = Some e
                       /\ score_batch_job_ids e = None) ->
         score_batch_job_ids e' = Some []))
  /\ (forall p tp, (p, tp) <> (person_id, topic) ->
        _status self' !! _make_key p tp = _status self !! _make_key p tp)
  /\ status_file self' = _status self'.
Proof.
  intros self' key. split; [|split].
  - eexists. split; [apply lookup_insert_eq|]. simpl.
    repeat split.
    + intros e ids He Hi. fold key. by rewrite He; simpl; rewrite Hi.
    + fold key. intros [H | (e & He & Hi)].
      * by rewrite H.
      * rewrite He. simpl. by rewrite Hi.
  - intros p tp Hne. unfold self', mark_filter_complete. simpl.
    rewrite lookup_insert_ne; [done|].
    intros E. apply _make_key_inj in E as [-> ->]. done.
  - reflexivity.
Qed.

End JobTrackerFacts.

Module BatchManagerFacts.
Import Py Env BatchManager BatchFile.

Lemma remove_elem x l :
  x ∈ l -> exists l', remove x l = Ok l' /\ l ≡ₚ x :: l'.
Proof.
  induction l as [|y l IH]; intros H.
  - by apply elem_of_nil in H.
  - simpl. destruct (String.eqb_spec x y) as [->|Hne].
    + eauto.
    + apply elem_of_cons in H as [H|H]; [done|].
      destruct (IH H) as (l' & -> & Hp). eexists. split; [reflexivity|].
      rewrite Hp. apply Permutation_swap.
Qed.

Lemma tick_set_job_field batch_id k v m :
  tick (set_job_field batch_id k v m) = tick m.
Proof. unfold set_job_field. by destruct (_batch_jobs m !! batch_id). Qed.

Lemma tick_track_cost E m batch_id b :
  tick (_track_batch_cost E m batch_id b) = S (tick m).
Proof. reflexivity. Qed.

(** What one pass of the loop body does to the variables of the loop. *)
Lemma poll_one_spec E ps batch_id :
  batch_id ∈ remaining ps ->
  exists ps', poll_one E ps batch_id = Ok ps'
    /\ S (tick (mgr ps)) <= tick (mgr ps')
    /\ ((settles E (tick (mgr ps)) batch_id = true
         /\ (exists st, completed ps' = <[batch_id := st]> (completed ps)
                        /\ is_final st = true)
         /\ remaining ps ≡ₚ batch_id :: remaining ps')
        \/ (settles E (tick (mgr ps)) batch_id = false
            /\ completed ps' = completed ps
            /\ remaining ps' = remaining ps)).
Proof.
  intros Hin. destruct (remove_elem _ _ Hin) as (r' & Hr & Hp).
  unfold poll_one, settles, on_exception.
  destruct (batches_retrieve E (tick (mgr ps)) batch_id) as [b|e]; simpl.
  - destruct (is_terminal (status b)) eqn:Ht.
    + rewrite Hr. eexists. split; [reflexivity|]. simpl. split.
      * destruct (_batch_jobs _ !! batch_id);
          destruct (String.eqb (status b) "completed");
          rewrite ?tick_track_cost, ?tick_set_job_field; simpl;
          rewrite ?tick_set_job_field; simpl; lia.
      * left. split; [done|]. split; [|done].
        eexists. split; [reflexivity|]. unfold is_final. by rewrite Ht.
    + eexists. split; [reflexivity|]. simpl.
      rewrite tick_set_job_field. simpl. split; [lia|]. right. done.
  - rewrite Hr. simpl. eexists. split; [reflexivity|]. simpl.
    split; [lia|]. left. split; [done|]. split; [|done].
    eexists. split; reflexivity.
Qed.


Lemma poll_inv_settled B ps ps' batch_id st :
  poll_inv B ps ->
  completed ps' = <[batch_id := st]> (completed ps) ->
  is_final st = true ->
  remaining ps ≡ₚ batch_id :: remaining ps' ->
  poll_inv B ps'.
Proof.
  intros [Hdom Hval] Hc Hst Hp. split.
  - intros id. rewrite Hdom, Hc, Hp, elem_of_cons.
    destruct (decide (id = batch_id)) as [->|Hne].
    + rewrite lookup_insert_eq. split; intros _; [right|left; left]; eauto.
    + rewrite lookup_insert_ne by done. tauto.
  - intros id s. rewrite Hc.
    destruct (decide (id = batch_id)) as [->|Hne].
    + rewrite lookup_insert_eq. by intros [= <-].
    + rewrite lookup_insert_ne by done. apply Hval.
Qed.

Lemma poll_inv_kept B ps ps' :
  poll_inv B ps -> completed ps' = completed ps ->
  remaining ps' = remaining ps -> poll_inv B ps'.
Proof. unfold poll_inv. by intros H -> ->. Qed.

Lemma poll_round_spec E ids :
  forall ps, ids ⊆+ remaining ps ->
  exists ps', poll_round E ps ids = Ok ps'
    /\ tick (mgr ps) + length ids <= tick (mgr ps')
    /\ (forall B, poll_inv B ps -> poll_inv B ps')
    /\ ((forall t id, tick (mgr ps) <= t -> settles E t id = true) ->
        remaining ps ≡ₚ ids ++ remaining ps').
Proof.
  induction ids as [|x ids IH]; intros ps Hsub.
  - exists ps. simpl. split; [done|]. split; [lia|]. split; [done|]. done.
  - assert (Hx : x ∈ remaining ps).
    { eapply elem_of_submseteq; [apply list_elem_of_here|done]. }
    destruct (poll_one_spec E ps x Hx) as (ps1 & H1 & Ht & Hcase).
    assert (Hsub1 : ids ⊆+ remaining ps1).
    { destruct Hcase as [(_ & _ & Hp) | (_ & _ & Hr)].
      - rewrite Hp in Hsub.
        apply (submseteq_app_inv_l ids (remaining ps1) [x]). exact Hsub.
      - rewrite Hr. transitivity (x :: ids); [by apply submseteq_cons|exact Hsub]. }
    destruct (IH ps1 Hsub1) as (ps' & H2 & Ht2 & Hinv & Hclear).
    exists ps'. simpl. rewrite H1. simpl. split; [done|].
    split; [lia|]. split.
    + intros B HB. apply Hinv.
      destruct Hcase as [(_ & (st & Hc & Hst) & Hp) | (_ & Hc & Hr)].
      * by eapply poll_inv_settled.
      * by eapply poll_inv_kept.
    + intros Hall.
      destruct Hcase as [(_ & _ & Hp) | (Hn & _ & _)].
      * rewrite Hp. f_equiv. apply Hclear.
        intros t id Hle. apply Hall. lia.
      * rewrite Hall in Hn by lia. done.
Qed.

Lemma poll_loop_nil fuel E interval last ps :
  remaining ps = [] ->
  poll_loop fuel E interval last ps = Some (Ok (completed ps, mgr ps)).
Proof. intros H. destruct fuel; simpl; by rewrite H. Qed.

Lemma poll_loop_0 E interval last ps :
  remaining ps <> [] -> poll_loop 0 E interval last ps = None.
Proof. intros H. simpl. by destruct (remaining ps). Qed.

(** One round of the loop: the variables after the round and the save, and
    the sleep where a batch is left. *)
Lemma poll_loop_S fuel E interval last ps :
  remaining ps <> [] ->
  poll_loop (S fuel) E interval last ps
  = let current_time := time E (tick (mgr ps)) in
    let due :=
      float_ge_int (SFsub prec emax current_time last) interval in
    match poll_round E {| completed := completed ps; remaining := remaining ps;
                          mgr := called (mgr ps) |} (remaining ps) with
    | Raise e => Some (Raise e)
    | Ok ps' =>
        let ps'' :=
          if due
          then {| completed := completed ps'; remaining := remaining ps';
                  mgr := _save_batch_jobs (mgr ps') |}
          else ps' in
        match remaining ps'' with
        | [] =>
            poll_loop fuel E interval (if due then current_time else last)
              ps''
        | _ :: _ =>
            match sleep (update_interval interval) with
            | Raise e => Some (Raise e)
            | Ok _ =>
                poll_loop fuel E interval
                  (if due then current_time else last) ps''
            end
        end
    end.
Proof. intros H. simpl. by destruct (remaining ps). Qed.

Lemma sleep_update_interval interval :
  sleep (update_interval interval)
  = if (interval <? 0)%Z then Raise (ValueError sleep_msg) else Ok ().
Proof.
  unfold sleep, update_interval.
  destruct (Z.ltb_spec interval 0), (Z.ltb_spec (Z.min 5 interval) 0);
    try done; lia.
Qed.

(** With an interval that is not negative the sleep returns. *)
Lemma poll_loop_S_sleeps fuel E interval last ps :
  (0 <= interval)%Z ->
  remaining ps <> [] ->
  poll_loop (S fuel) E interval last ps
  = let current_time := time E (tick (mgr ps)) in
    let due :=
      float_ge_int (SFsub prec emax current_time last) interval in
    match poll_round E {| completed := completed ps; remaining := remaining ps;
                          mgr := called (mgr ps) |} (remaining ps) with
    | Raise e => Some (Raise e)
    | Ok ps' =>
        poll_loop fuel E interval (if due then current_time else last)
          (if due
           then {| completed := completed ps'; remaining := remaining ps';
                   mgr := _save_batch_jobs (mgr ps') |}
           else ps')
    end.
Proof.
  intros Hi H. rewrite poll_loop_S by done. cbv zeta.
  destruct (poll_round _ _ _) as [ps'|e]; [|done].
  rewrite sleep_update_interval.
  destruct (Z.ltb_spec interval 0) as [Hneg|_]; [lia|].
  destruct (float_ge_int _ _); cbn [remaining]; by destruct (remaining ps').
Qed.

(** A round of a call that returns: the round returns and the loop goes on
    from the variables it leaves. *)
Lemma poll_loop_S_returns fuel E interval last ps res :
  remaining ps <> [] ->
  poll_loop (S fuel) E interval last ps = Some (Ok res) ->
  exists ps' last',
    poll_round E {| completed := completed ps; remaining := remaining ps;
                    mgr := called (mgr ps) |} (remaining ps) = Ok ps'
    /\ (poll_loop fuel E interval last' ps' = Some (Ok res)
        \/ poll_loop fuel E interval last'
             {| completed := completed ps'; remaining := remaining ps';
                mgr := _save_batch_jobs (mgr ps') |} = Some (Ok res)).
Proof.
  intros H Hr. rewrite poll_loop_S in Hr by done. cbv zeta in Hr.
  destruct (poll_round _ _ _) as [ps'|e]; [|done].
  exists ps'. destruct (float_ge_int _ _); cbn [remaining] in Hr.
  - eexists. split; [done|]. right.
    destruct (remaining ps'); [exact Hr|].
    destruct (sleep _); [exact Hr|done].
  - eexists. split; [done|]. left.
    destruct (remaining ps'); [exact Hr|].
    destruct (sleep _); [exact Hr|done].
Qed.

(** The three ways through the body of the polling loop. *)
Lemma poll_one_cases E ps batch_id ps' :
  batch_id ∈ remaining ps ->
  poll_one E ps batch_id = Ok ps' ->
  (exists e,
      batches_retrieve E (tick (mgr ps)) batch_id = Raise e
      /\ completed ps' = <[batch_id := "error"]> (completed ps)
      /\ mgr ps' = called (mgr ps))
  \/ (exists b,
        batches_retrieve E (tick (mgr ps)) batch_id = Ok b
        /\ is_terminal (status b) = false
        /\ completed ps' = completed ps
        /\ mgr ps'
           = set_job_field batch_id "status" (MStr (status b))
               (called (mgr ps)))
  \/ (exists b m1 m2,
        batches_retrieve E (tick (mgr ps)) batch_id = Ok b
        /\ is_terminal (status b) = true
        /\ completed ps' = <[batch_id := status b]> (completed ps)
        /\ m1 = set_job_field batch_id "status" (MStr (status b))
                  (called (mgr ps))
        /\ (m2 = m1
            \/ exists ts, m2 = set_job_field batch_id "completed_at" (MStr ts)
                                 (called m1))
        /\ mgr ps' = (if String.eqb (status b) "completed"
                      then _track_batch_cost E m2 batch_id b else m2)).
Proof.
  intros Hin. destruct (remove_elem _ _ Hin) as (r' & Hr & Hp).
  unfold poll_one, on_exception.
  destruct (batches_retrieve E (tick (mgr ps)) batch_id) as [b|e]; simpl.
  - destruct (is_terminal (status b)) eqn:Ht.
    + rewrite Hr. intros [= <-]. right. right. simpl.
      set (m1 := set_job_field batch_id "status" (MStr (status b))
                   (called (mgr ps))).
      exists b, m1,
        (match _batch_jobs m1 !! batch_id with
         | Some _ =>
             set_job_field batch_id "completed_at" (MStr (now E (tick m1)))
               (called m1)
         | None => m1
         end).
      split; [done|]. split; [done|]. split; [done|]. split; [done|].
      split; [|done].
      destruct (_batch_jobs m1 !! batch_id); [right; eauto|by left].
    + intros [= <-]. right. left. exists b. done.
  - rewrite Hr. simpl. intros [= <-]. left. exists e. done.
Qed.

(** A property of the variables of the loop that every pass of the body
    keeps is kept by a round and by the loop. *)
Lemma poll_round_keeps E (P : poll_state -> Prop) :
  (forall ps id ps', id ∈ remaining ps -> P ps ->
     poll_one E ps id = Ok ps' -> P ps') ->
  forall ids ps ps', ids ⊆+ remaining ps -> P ps ->
    poll_round E ps ids = Ok ps' -> P ps'.
Proof.
  intros Hone. induction ids as [|x ids IH]; intros ps ps' Hsub HP Hr.
  - simpl in Hr. by injection Hr as <-.
  - assert (Hx : x ∈ remaining ps).
    { eapply elem_of_submseteq; [apply list_elem_of_here|done]. }
    destruct (poll_one_spec E ps x Hx) as (ps1 & H1 & _ & Hcase).
    simpl in Hr. rewrite H1 in Hr. simpl in Hr.
    apply (IH ps1 ps'); [|by eapply Hone|done].
    destruct Hcase as [(_ & _ & Hp) | (_ & _ & Hrem)].
    + rewrite Hp in Hsub.
      apply (submseteq_app_inv_l ids (remaining ps1) [x]). exact Hsub.
    + rewrite Hrem. transitivity (x :: ids); [by apply submseteq_cons|done].
Qed.

Lemma poll_loop_keeps E interval (P : poll_state -> Prop) :
  (forall ps id ps', id ∈ remaining ps -> P ps ->
     poll_one E ps id = Ok ps' -> P ps') ->
  (forall ps m, P ps ->
     (m = called (mgr ps) \/ m = _save_batch_jobs (mgr ps)) ->
     P {| completed := completed ps; remaining := remaining ps; mgr := m |}) ->
  forall fuel last ps done s',
    P ps ->
    poll_loop fuel E interval last ps = Some (Ok (done, s')) ->
    P {| completed := done; remaining := []; mgr := s' |}.
Proof.
  intros Hone Hm. induction fuel as [|fuel IH]; intros last ps done s' HP Hr;
    destruct (decide (remaining ps = [])) as [Hrem|Hrem].
  1, 3: rewrite poll_loop_nil in Hr by done; injection Hr as <- <-;
    rewrite <- Hrem; by destruct ps.
  - by rewrite poll_loop_0 in Hr.
  - apply poll_loop_S_returns in Hr as (ps2 & last' & H2 & Hr); [|done].
    set (ps1 := {| completed := completed ps; remaining := remaining ps;
                   mgr := called (mgr ps) |}) in *.
    assert (HP1 : P ps1) by (apply Hm; auto).
    assert (HP2 : P ps2) by (by eapply (poll_round_keeps E P Hone)).
    destruct Hr as [Hr|Hr]; apply IH in Hr; [done|done|done|].
    apply Hm; auto.
Qed.

Lemma reported_mgr E done m m' :
  reported E done m ->
  (forall id, _costs m' !! id = _costs m !! id) ->
  (forall id, costs_file m' !! id = costs_file m !! id) ->
  reported E done m'.
Proof.
  intros H Hc Hf id st Hst. specialize (H id st Hst).
  destruct (String.eqb st "error"); [done|].
  destruct H as (call & b & H1 & H2 & H3 & H4).
  exists call, b. repeat split; try done.
  intros Hcomp. destruct (H4 Hcomp) as (c & ? & ? & ?).
  exists c. by rewrite Hc, Hf.
Qed.

Lemma costs_set_job_field id k v m :
  _costs (set_job_field id k v m) = _costs m
  /\ costs_file (set_job_field id k v m) = costs_file m.
Proof. unfold set_job_field. by destruct (_batch_jobs m !! id). Qed.

Lemma is_terminal_not_error st : is_terminal st = true -> st <> "error".
Proof. by intros H ->. Qed.

Lemma reported_poll_one E ps id ps' :
  id ∈ remaining ps -> reported E (completed ps) (mgr ps) ->
  poll_one E ps id = Ok ps' -> reported E (completed ps') (mgr ps').
Proof.
  intros Hin HR H.
  destruct (poll_one_cases E ps id ps' Hin H)
    as [(e & He & -> & ->)
       |[(b & _ & _ & -> & ->)
        |(b & m1 & m2 & Hb & Ht & -> & -> & Hm2 & ->)]].
  - intros x st. destruct (decide (x = id)) as [->|N].
    + rewrite lookup_insert_eq. intros [= <-]. simpl. eauto.
    + rewrite lookup_insert_ne by done. intros Hx.
      exact (reported_mgr E _ (mgr ps) (called (mgr ps)) HR
               (fun _ => eq_refl) (fun _ => eq_refl) x st Hx).
  - eapply reported_mgr; [exact HR|..]; intros x;
      by rewrite (proj1 (costs_set_job_field _ _ _ _))
      || by rewrite (proj2 (costs_set_job_field _ _ _ _)).
  - set (m1 := set_job_field id "status" (MStr (status b)) (called (mgr ps)))
      in *.
    assert (Hc2 : _costs m2 = _costs (mgr ps)
                  /\ costs_file m2 = costs_file (mgr ps)).
    { pose proof (costs_set_job_field id "status" (MStr (status b))
                    (called (mgr ps))) as H1.
      destruct Hm2 as [->|[ts ->]]; [exact H1|].
      destruct (costs_set_job_field id "completed_at" (MStr ts) (called m1))
        as [-> ->].
      exact H1. }
    destruct Hc2 as [Hc Hf].
    intros x st. destruct (decide (x = id)) as [->|N].
    + rewrite lookup_insert_eq. intros [= <-].
      rewrite (proj2 (String.eqb_neq _ _) (is_terminal_not_error _ Ht)).
      exists (tick (mgr ps)), b. repeat split; try done.
      intros ->. simpl. eexists. rewrite lookup_insert_eq.
      split; [reflexivity|]. done.
    + rewrite lookup_insert_ne by done. intros Hx.
      specialize (HR x st Hx).
      destruct (String.eqb st "error"); [done|].
      destruct HR as (call & b' & H1 & H2 & H3 & H4).
      exists call, b'. repeat split; try done.
      intros Hcomp. destruct (H4 Hcomp) as (c & Hc1 & Hc2 & Hc3).
      exists c. destruct (String.eqb (status b) "completed"); simpl.
      * rewrite lookup_insert_ne by done. by rewrite Hc.
      * by rewrite Hc, Hf.
Qed.



Lemma poll_round_unsettled E ids : forall ps,
  ids ⊆+ remaining ps ->
  (forall t id, settles E t id = false) ->
  exists ps', poll_round E ps ids = Ok ps' /\ remaining ps' = remaining ps.
Proof.
  induction ids as [|x ids IH]; intros ps Hsub Hno; [by exists ps|].
  assert (Hx : x ∈ remaining ps).
  { eapply elem_of_submseteq; [apply list_elem_of_here|done]. }
  destruct (poll_one_spec E ps x Hx) as (ps1 & H1 & _ & Hcase).
  destruct Hcase as [(Hs & _) | (_ & _ & Hr)]; [by rewrite Hno in Hs|].
  destruct (IH ps1) as (ps' & H2 & Hr'); [|done|].
  - rewrite Hr. transitivity (x :: ids); [by apply submseteq_cons|done].
  - exists ps'. simpl. rewrite H1. simpl. split; [done|congruence].
Qed.

(** The loop runs for as long as a batch stays in a status that is not
    terminal: with a client that never answers with a terminal status and
    never raises, no amount of fuel makes the loop return. *)
Lemma poll_loop_stuck E interval fuel :
  (0 <= interval)%Z ->
  (forall t id, settles E t id = false) ->
  forall last ps, remaining ps <> [] ->
    poll_loop fuel E interval last ps = None.
Proof.
  intros Hi Hno. induction fuel as [|fuel IH]; intros last ps Hrem.
  - by apply poll_loop_0.
  - rewrite poll_loop_S_sleeps by done. cbv zeta.
    set (ps1 := {| completed := completed ps; remaining := remaining ps;
                   mgr := called (mgr ps) |}).
    destruct (poll_round_unsettled E (remaining ps1) ps1) as (ps' & H & Hr);
      [done|done|].
    change (remaining ps) with (remaining ps1). rewrite H.
    apply IH. destruct (float_ge_int _ _); simpl; by rewrite Hr.
Qed.

(** A negative interval is a negative length of sleep: the call raises at
    the end of the first round that leaves a batch outstanding, and returns
    only where the first round leaves none. *)
Lemma poll_loop_negative E interval fuel last ps :
  (interval < 0)%Z ->
  remaining ps <> [] ->
  exists ps',
    poll_round E {| completed := completed ps; remaining := remaining ps;
                    mgr := called (mgr ps) |} (remaining ps) = Ok ps'
    /\ (remaining ps' <> [] ->
        poll_loop (S fuel) E interval last ps
        = Some (Raise (ValueError sleep_msg)))
    /\ (remaining ps' = [] ->
        exists s', poll_loop (S fuel) E interval last ps
                   = Some (Ok (completed ps', s'))).
Proof.
  intros Hi Hrem.
  set (ps1 := {| completed := completed ps; remaining := remaining ps;
                 mgr := called (mgr ps) |}).
  destruct (poll_round_spec E (remaining ps1) ps1) as (ps' & H & _); [done|].
  exists ps'. split; [exact H|].
  rewrite poll_loop_S by done. cbv zeta.
  change (poll_round E ps1 (remaining ps) = Ok ps') in H. unfold ps1 in H.
  rewrite H, sleep_update_interval.
  destruct (Z.ltb_spec interval 0) as [_|Hpos]; [|lia].
  split; intros Hr.
  - destruct (float_ge_int _ _); simpl; by destruct (remaining ps').
  - destruct (float_ge_int _ _); simpl; rewrite Hr;
      rewrite poll_loop_nil by done; eauto.
Qed.



Lemma parse_lines_spec E lines : forall acc,
  match parse_lines E lines acc with
  | Ok results =>
      exists rs, results = acc ++ rs
        /\ Forall2 (fun line r => json_loads E line = Some r)
             (List.filter nonempty lines) rs
  | Raise e =>
      e = JSONDecodeError
      /\ exists line, line ∈ List.filter nonempty lines
                      /\ json_loads E line = None
  end.
Proof.
  induction lines as [|line lines IH]; intros acc;
    cbn [parse_lines List.filter].
  - exists []. by rewrite app_nil_r.
  - assert (Hne : nonempty line = negb (String.eqb line "")) by done.
    rewrite Hne. clear Hne. destruct (String.eqb line ""); cbn [negb].
    + apply IH.
    + unfold loads. destruct (json_loads E line) as [r|] eqn:Hl; simpl.
      * specialize (IH (acc ++ [r])).
        destruct (parse_lines E lines (acc ++ [r])) as [results|e].
        -- destruct IH as (rs & -> & HF). exists (r :: rs).
           rewrite <- app_assoc. split; [done|]. by constructor.
        -- destruct IH as (-> & l & Hin & Hnone). split; [done|].
           exists l. split; [by apply list_elem_of_further|done].
      * split; [done|]. exists line. split; [apply list_elem_of_here|done].
Qed.

Lemma messages_differ batch_id status :
  not_completed_msg batch_id status <> no_output_msg batch_id.
Proof.
  unfold not_completed_msg, no_output_msg. intros H.
  apply (inj (String.app "Batch ")) in H.
  apply (inj (String.app batch_id)) in H. discriminate.
Qed.

(** C7. Fetching results: where the job's status is not completed the call
    raises the not-completed error; where the completed job has no output
    file id it raises the no-output error, which is a different one;
    otherwise the stripped content is cut at the newlines and the call
    returns one parsed record for each line that is not empty, in order, or
    raises the parser's error where a line does not parse. *)
Theorem retrieve_results_errors (E : Env.t) (self : t) (batch_id : string)
    (b : batch) :
  batches_retrieve E (tick self) batch_id = Ok b ->
  (status b <> "completed" ->
     (retrieve_results E self batch_id).1
     = Raise (ValueError (not_completed_msg batch_id (status b))))
  /\ (status b = "completed" ->
      output_file_id b = None \/ output_file_id b = Some "" ->
      (retrieve_results E self batch_id).1
      = Raise (ValueError (no_output_msg batch_id)))
  /\ not_completed_msg batch_id (status b) <> no_output_msg batch_id
  /\ (forall file_id content,
        status b = "completed" ->
        output_file_id b = Some file_id -> file_id <> "" ->
        files_content E (S (tick self)) file_id = Ok content ->
        let lines :=
          List.filter nonempty (split newline (strip content)) in
        match (retrieve_results E self batch_id).1 with
        | Ok results =>
            Forall2 (fun line r => json_loads E line = Some r) lines results
            /\ length results = length lines
        | Raise e =>
            e = JSONDecodeError
            /\ exists line, line ∈ lines /\ json_loads E line = None
        end).
Proof.
  intros Hb. unfold retrieve_results. rewrite Hb.
  split; [|split; [|split]].
  - intros Hs. by destruct (String.eqb_spec (status b) "completed").
  - intros Hs Ho. rewrite Hs. simpl. by destruct Ho as [-> | ->].
  - apply messages_differ.
  - intros file_id content Hs Ho Hne Hc. cbv zeta. rewrite Hs, Ho. simpl.
    destruct file_id as [|c f]; [done|]. rewrite Hc. simpl.
    pose proof (parse_lines_spec E (split newline (strip content)) []) as H.
    destruct (parse_lines E _ []) as [results|e].
    + destruct H as (rs & -> & HF). simpl. split; [done|].
      symmetry. by eapply Forall2_length.
    + done.
Qed.

End BatchManagerFacts.

Module RetryFacts.
Import Py Env BatchManager.

Lemma log_failed_spec E failed_requests metadata : forall self,
  exists logged,
    _failed_speeches (log_failed E self failed_requests metadata)
    = _failed_speeches self ++ logged
    /\ map request logged = failed_requests
    /\ Forall (fun r => BatchManager.metadata r = metadata) logged.
Proof.
  induction failed_requests as [|req reqs IH]; intros self.
  - exists []. simpl. by rewrite app_nil_r.
  - cbn [log_failed].
    match goal with
    | |- context [log_failed E ?s reqs metadata] =>
        destruct (IH s) as (logged & Heq & Hm & HF)
    end.
    eexists (_ :: logged). rewrite Heq. simpl. rewrite <- app_assoc.
    split; [done|]. split; [by rewrite Hm|]. by constructor.
Qed.

Lemma create_batch_accepted E self requests metadata :
  accepts E ->
  exists batch_id self',
    create_batch E self requests metadata = (Ok batch_id, self')
    /\ _failed_speeches self' = _failed_speeches self
    /\ failed_speeches_file self' = failed_speeches_file self
    /\ is_Some (batch_jobs_file self' !! batch_id).
Proof.
  intros [Hf Hb]. unfold create_batch.
  specialize (Hf (tick self) requests).
  destruct (files_create E (tick self) requests) as [file_id|]; [|done].
  specialize (Hb (tick (called self)) file_id metadata).
  destruct (batches_create E _ file_id metadata) as [batch_id|]; [|done].
  eexists _, _. split; [reflexivity|]. simpl. repeat split.
  rewrite lookup_insert_eq. eauto.
Qed.

(** Below the limit the requests are submitted again and the counter grows. *)
Lemma retry_resubmits E self failed_requests metadata max_attempts a :
  accepts E -> attempt_is metadata a -> (a < max_attempts)%Z ->
  exists batch_id metadata' self',
    retry_failed_requests E self failed_requests metadata max_attempts
    = (Ok (Some batch_id), metadata', self')
    /\ attempt_is metadata' (a + 1)
    /\ _failed_speeches self' = _failed_speeches self
    /\ failed_speeches_file self' = failed_speeches_file self
    /\ is_Some (batch_jobs_file self' !! batch_id).
Proof.
  intros HE Ha Hlt. unfold retry_failed_requests. rewrite Ha.
  destruct (Z.leb_spec max_attempts a); [lia|].
  destruct (create_batch_accepted E self failed_requests
              (<["retry_attempt" := MInt (a + 1)]> metadata) HE)
    as (batch_id & self' & -> & H1 & H2 & H3).
  eexists _, _, _. split; [reflexivity|]. repeat split; try done.
  unfold attempt_is. by rewrite lookup_insert_eq.
Qed.

(** At the limit the requests go to the dead-letter ledger. *)
Lemma retry_gives_up E self failed_requests metadata max_attempts a :
  attempt_is metadata a -> (max_attempts <= a)%Z ->
  exists self' logged,
    retry_failed_requests E self failed_requests metadata max_attempts
    = (Ok None, metadata, self')
    /\ _failed_speeches self' = _failed_speeches self ++ logged
    /\ map request logged = failed_requests
    /\ Forall (fun r => BatchManager.metadata r = metadata) logged
    /\ failed_speeches_file self' = _failed_speeches self'.
Proof.
  intros Ha Hle. unfold retry_failed_requests. rewrite Ha.
  destruct (Z.leb_spec max_attempts a); [|lia].
  destruct (log_failed_spec E failed_requests metadata self)
    as (logged & H1 & H2 & H3).
  eexists _, logged. split; [reflexivity|]. simpl. done.
Qed.

(** C1 (amended). Retry termination: with [max_attempts = 3], a client that
    accepts every batch and a dict whose [retry_attempt] is absent or 0,
    four calls in a row, each with the dict the call before it left, return a
    batch id the first three times and [None] the fourth time; the ledger
    of failed requests is untouched by the first three calls, and the
    fourth appends one record for every failed request, in order, and
    saves the ledger. *)
Theorem retry_termination (E : Env.t) (self : t) (failed_requests : list json)
    (metadata : gmap string meta_value) :
  accepts E ->
  attempt_is metadata 0 ->
  exists id1 id2 id3 metadata3 self3 self4 logged,
    retry_times 3 E self failed_requests metadata 3
    = ([Ok (Some id1); Ok (Some id2); Ok (Some id3)], metadata3, self3)
    /\ _failed_speeches self3 = _failed_speeches self
    /\ retry_times 4 E self failed_requests metadata 3
       = ([Ok (Some id1); Ok (Some id2); Ok (Some id3); Ok None],
          metadata3, self4)
    /\ _failed_speeches self4 = _failed_speeches self ++ logged
    /\ map request logged = failed_requests
    /\ Forall (fun r => BatchManager.metadata r = metadata3) logged
    /\ failed_speeches_file self4 = _failed_speeches self4.
Proof.
  intros HE A0.
  destruct (retry_resubmits E self failed_requests metadata 3 0 HE A0)
    as (id1 & m1 & s1 & R1 & A1 & F1 & _); [lia|].
  destruct (retry_resubmits E s1 failed_requests m1 3 1 HE A1)
    as (id2 & m2 & s2 & R2 & A2 & F2 & _); [lia|].
  destruct (retry_resubmits E s2 failed_requests m2 3 2 HE A2)
    as (id3 & m3 & s3 & R3 & A3 & F3 & _); [lia|].
  destruct (retry_gives_up E s3 failed_requests m3 3 3 A3)
    as (s4 & logged & R4 & F4 & Hreq & Hmeta & Hfile); [lia|].
  exists id1, id2, id3, m3, s3, s4, logged.
  cbn [retry_times]. rewrite R1, R2, R3, R4.
  repeat split; try done; congruence.
Qed.

End RetryFacts.

Module FilterPipelineFacts.
Import Py FilterPipeline.

Lemma save_lookup dir person_id topic speeches :
  _save_filtered_speeches dir person_id topic speeches
    !! csv_name person_id topic
  = Some (default [] (dir !! csv_name person_id topic) ++ speeches).
Proof.
  unfold _save_filtered_speeches.
  destruct (dir !! csv_name person_id topic); by rewrite lookup_insert_eq.
Qed.

Lemma save_lookup_ne dir person_id topic speeches path :
  path <> csv_name person_id topic ->
  _save_filtered_speeches dir person_id topic speeches !! path = dir !! path.
Proof.
  intros H. unfold _save_filtered_speeches.
  destruct (dir !! csv_name person_id topic); by rewrite lookup_insert_ne.
Qed.

(** C4 (amended). The intermediate artifact is appended to and nothing is
    removed: saving a chunk puts its rows after the rows the file already
    holds, and saving the same chunk again puts them there once more, so
    the file then holds the chunk's rows twice; no other file changes. *)
Theorem save_filtered_appends
    (dir : gmap string (list filtered_speech)) (person_id : Z)
    (topic : string) (speeches : list filtered_speech) :
  let path := csv_name person_id topic in
  let before := default [] (dir !! path) in
  let once := _save_filtered_speeches dir person_id topic speeches in
  let twice := _save_filtered_speeches once person_id topic speeches in
  once !! path = Some (before ++ speeches)
  /\ twice !! path = Some (before ++ speeches ++ speeches)
  /\ forall other, other <> path ->
       once !! other = dir !! other /\ twice !! other = dir !! other.
Proof.
  intros path before once twice. subst once twice path before.
  split; [apply save_lookup|]. split.
  - rewrite save_lookup, save_lookup. simpl. by rewrite <- app_assoc.
  - intros other H. by rewrite !save_lookup_ne.
Qed.

End FilterPipelineFacts.

Module OutputManagerFacts.
Import Py Env OutputManager.

Lemma set_topic_again topics topic n avg topics' :
  set_topic topics topic n avg = Some topics' ->
  set_topic topics' topic n avg = Some topics'.
Proof.
  revert topics'. induction topics as [|td rest IH]; intros topics'; simpl.
  - done.
  - destruct (String.eqb (topicName td) topic) eqn:E.
    + intros [= <-]. simpl. by rewrite E.
    + destruct (set_topic rest topic n avg) as [rest'|]; [|done].
      intros [= <-]. simpl. rewrite E. by rewrite (IH rest').
Qed.

Lemma set_topic_appended topics topic n avg :
  set_topic topics topic n avg = None ->
  set_topic (topics ++ [{| topicName := topic; count := n; average := avg |}])
    topic n avg
  = Some (topics ++ [{| topicName := topic; count := n; average := avg |}]).
Proof.
  induction topics as [|td rest IH]; simpl.
  - intros _. by rewrite String.eqb_refl.
  - destruct (String.eqb (topicName td) topic); [done|].
    destruct (set_topic rest topic n avg); [done|].
    intros _. by rewrite IH.
Qed.

Lemma update_topics_again topics topic n avg :
  update_topics (update_topics topics topic n avg) topic n avg
  = update_topics topics topic n avg.
Proof.
  unfold update_topics.
  destruct (set_topic topics topic n avg) as [topics'|] eqn:E.
  - by rewrite (set_topic_again _ _ _ _ _ E).
  - by rewrite (set_topic_appended _ _ _ _ E).
Qed.

Lemma find_set_topic topics topic n avg topics' :
  set_topic topics topic n avg = Some topics' ->
  exists td, List.find (fun td => String.eqb (topicName td) topic) topics'
             = Some td
             /\ count td = n /\ average td = avg.
Proof.
  revert topics'. induction topics as [|td rest IH]; intros topics'; simpl.
  - done.
  - destruct (String.eqb (topicName td) topic) eqn:E.
    + intros [= <-]. simpl. rewrite E. eauto.
    + destruct (set_topic rest topic n avg) as [rest'|]; [|done].
      intros [= <-]. simpl. rewrite E. by apply IH.
Qed.

Lemma find_update_topics topics topic n avg :
  exists td,
    List.find (fun td => String.eqb (topicName td) topic)
      (update_topics topics topic n avg) = Some td
    /\ count td = n /\ average td = avg.
Proof.
  unfold update_topics.
  destruct (set_topic topics topic n avg) as [topics'|] eqn:E.
  - by eapply find_set_topic.
  - eapply find_set_topic. by apply set_topic_appended.
Qed.

Lemma _update_mk_json_again E self person_id topic n avg :
  _update_mk_json E (_update_mk_json E self person_id topic n avg)
    person_id topic n avg
  = _update_mk_json E self person_id topic n avg.
Proof.
  unfold _update_mk_json.
  destruct (mk_files self !! str person_id) as [data|] eqn:Hf; simpl.
  - rewrite lookup_insert_eq. simpl.
    by rewrite update_topics_again, insert_insert_eq.
  - destruct (get_person_metadata E person_id) as [md|] eqn:Hm; simpl.
    + rewrite lookup_insert_eq. simpl.
      by rewrite update_topics_again, insert_insert_eq.
    + by rewrite ?Hf, ?Hm.
Qed.

Lemma _update_topic_json_again E self person_id topic n avg :
  _update_topic_json E (_update_topic_json E self topic person_id n avg)
    topic person_id n avg
  = _update_topic_json E self topic person_id n avg.
Proof.
  unfold _update_topic_json. simpl. rewrite lookup_insert_eq. simpl.
  by rewrite !insert_insert_eq.
Qed.

Lemma mk_topic_commute E self person_id topic n avg p' t' n' avg' :
  _update_mk_json E (_update_topic_json E self topic person_id n avg)
    p' t' n' avg'
  = _update_topic_json E (_update_mk_json E self p' t' n' avg')
      topic person_id n avg.
Proof.
  unfold _update_mk_json, _update_topic_json. simpl.
  destruct (mk_files self !! str p'); simpl; [done|].
  by destruct (get_person_metadata E p').
Qed.

Lemma update_aggregations_nonempty E self person_id topic scored_speeches :
  scored_speeches <> [] ->
  update_aggregations E self person_id topic scored_speeches
  = (avg ← mean E (map Scored.Rank scored_speeches);
     Ok (_update_topic_json E
           (_update_mk_json E self person_id topic
              (Z.of_nat (length scored_speeches)) avg)
           topic person_id (Z.of_nat (length scored_speeches)) avg)).
Proof. by destruct scored_speeches. Qed.

(** C5. Idempotent aggregation: two calls in a row with the same results
    leave both documents as one call leaves them, and raise where one call
    raises; after a call that returns for a list that is not empty, the
    topic's document holds for the MK the number of results and the rounded
    mean of their ranks, whatever it held before, and the MK's document,
    where it exists, holds the same two numbers for the topic. *)
Theorem aggregation_idempotent (E : Env.t) (self : t) (person_id : Z)
    (topic : string) (scored_speeches : list Scored.speech) :
  update_twice E self person_id topic scored_speeches
  = update_aggregations E self person_id topic scored_speeches
  /\ forall self', scored_speeches <> [] ->
       update_aggregations E self person_id topic scored_speeches = Ok self' ->
       exists avg,
         mean E (map Scored.Rank scored_speeches) = Ok avg
         /\ topic_stat self' person_id topic
            = Some (Z.of_nat (length scored_speeches), round2 E avg)
         /\ (is_Some (mk_files self' !! str person_id) ->
             mk_stat self' person_id topic
             = Some (Z.of_nat (length scored_speeches), round2 E avg)).
Proof.
  destruct (decide (scored_speeches = [])) as [->|Hne]; [by split|].
  unfold update_twice. rewrite (update_aggregations_nonempty _ self) by done.
  set (n := Z.of_nat (length scored_speeches)).
  destruct (mean E (map Scored.Rank scored_speeches)) as [avg|e] eqn:Hmean;
    [|by split].
  cbn [mbind result_bind]. split.
  - rewrite update_aggregations_nonempty by done. rewrite Hmean.
    cbn [mbind result_bind]. fold n. f_equal.
    by rewrite mk_topic_commute, _update_mk_json_again,
      _update_topic_json_again.
  - intros self' _ [= <-]. exists avg. split; [done|]. split.
    + unfold topic_stat, _update_topic_json. simpl.
      rewrite lookup_insert_eq. simpl. by rewrite lookup_insert_eq.
    + unfold mk_stat, _update_topic_json, _update_mk_json. simpl.
      destruct (mk_files self !! str person_id) as [data|] eqn:Hf; simpl.
      * intros _. rewrite lookup_insert_eq. simpl.
        destruct (find_update_topics (Topics data) topic n (round2 E avg))
          as (td & -> & <- & <-). done.
      * destruct (get_person_metadata E person_id) as [md|]; simpl.
        -- intros _. rewrite lookup_insert_eq. simpl.
           by rewrite String.eqb_refl.
        -- rewrite Hf. by intros [? ?].
Qed.

End OutputManagerFacts.

Module ScorePipelineFacts.
Import Py PyFacts Env ScorePipeline.

Lemma custom_id_parts speech_id include_reasoning :
  split "_" (custom_id speech_id include_reasoning)
  = ["score"; str speech_id; str (int_of_bool include_reasoning)].
Proof.
  unfold custom_id.
  change (split "_" ("score_" +:+ str speech_id +:+ "_"
                     +:+ str (int_of_bool include_reasoning)))
    with ("score" :: split "_" (str speech_id
            +:+ String "_" (str (int_of_bool include_reasoning)))).
  rewrite split_numeral by apply str_numeral.
  by destruct include_reasoning.
Qed.

Lemma prefix_append p s : String.prefix p (p +:+ s) = true.
Proof.
  induction p as [|c p IH]; [by destruct s|].
  rewrite append_cons. simpl. by destruct (ascii_dec c c).
Qed.

Lemma custom_id_prefix speech_id include_reasoning :
  startswith (custom_id speech_id include_reasoning) "score_" = true.
Proof. apply prefix_append. Qed.

Lemma bind_Ok {A B} (m : result A) (f : A -> result B) b :
  (x ← m; f x) = Ok b -> exists a, m = Ok a /\ f a = Ok b.
Proof. destruct m; simpl; [eauto|done]. Qed.




End ScorePipelineFacts.

(** * Part III: the theorems on an example *)

Module RetryExamples.
Import Py Env BatchManager RetryFacts.

Lemma retry_termination_witness :
  accepts Examples.env
  /\ attempt_is ∅ 0
  /\ exists id1 id2 id3 metadata3 self3 self4 logged,
      retry_times 3 Examples.env empty [Examples.request] ∅ 3
      = ([Ok (Some id1); Ok (Some id2); Ok (Some id3)], metadata3, self3)
      /\ _failed_speeches self3 = _failed_speeches empty
      /\ retry_times 4 Examples.env empty [Examples.request] ∅ 3
         = ([Ok (Some id1); Ok (Some id2); Ok (Some id3); Ok None],
            metadata3, self4)
      /\ _failed_speeches self4 = _failed_speeches empty ++ logged
      /\ map request logged = [Examples.request]
      /\ Forall (fun r => BatchManager.metadata r = metadata3) logged
      /\ failed_speeches_file self4 = _failed_speeches self4.
Proof.
  assert (HE : accepts Examples.env) by (split; intros; reflexivity).
  split; [exact HE|]. split; [reflexivity|].
  apply (retry_termination Examples.env empty [Examples.request] ∅ HE).
  reflexivity.
Defined.

(** C1, as stated, fails: with [max_attempts = 3] the third call in a row
    still returns a batch id, and the ledger of failed requests is still
    empty after it. *)
Lemma retry_termination_counterexample :
  (retry_times 3 Examples.env empty [Examples.request] ∅ 3).1.1
  = [Ok (Some "batch_1"); Ok (Some "batch_4"); Ok (Some "batch_7")]
  /\ (retry_times 3 Examples.env empty [Examples.request] ∅ 3).1.1 !! 2
     <> Some (Ok None)
  /\ _failed_speeches
       (retry_times 3 Examples.env empty [Examples.request] ∅ 3).2 = [].
Proof. vm_compute. repeat split. discriminate. Qed.

End RetryExamples.

Module JobTrackerExamples.
Import Py JobTracker JobTrackerFacts Examples.

Lemma pending_set_witness :
  stored_status tracker A = Some "pending"
  /\ stored_status tracker B = Some "filter_complete"
  /\ stored_status tracker C = Some "score_complete"
  /\ get_pending_pairs tracker "filter" [A; B; C] = [A]
  /\ get_pending_pairs tracker "score" [A; B; C] = [B].
Proof.
  assert (HA : stored_status tracker A = Some "pending")
    by (vm_compute; reflexivity).
  assert (HB : stored_status tracker B = Some "filter_complete")
    by (vm_compute; reflexivity).
  assert (HC : stored_status tracker C = Some "score_complete")
    by (vm_compute; reflexivity).
  repeat (split; [assumption|]).
  exact (proj2 (proj2 (pending_set_correct tracker [])) A B C HA HB HC).
Defined.

Lemma phase_progression_witness :
  guarded_run ops empty = true
  /\ monotonic 1 "economy" ops empty = true
  /\ monotonic 2 "economy" ops empty = true.
Proof.
  assert (G : guarded_run ops empty = true) by (vm_compute; reflexivity).
  split; [exact G|].
  split; apply (proj2 (proj2 (phase_progression empty)) ops G).
Defined.

Lemma reset_semantics_witness :
  C ∈ [A; C]
  /\ _status tracker !! _make_key 3 "health_care" = Some entry_C
  /\ status entry_C = "score_complete"
  /\ _status (reset_pairs tracker [A; C] (Some "score"))
       !! _make_key 3 "health_care"
     = Some (with_status "filter_complete" entry_C)
  /\ _status (reset_pairs tracker [A; C] None) !! _make_key 3 "health_care"
     = Some pending_entry.
Proof.
  assert (Hin : C ∈ [A; C])
    by (apply list_elem_of_further, list_elem_of_here).
  assert (He : _status tracker !! _make_key 3 "health_care" = Some entry_C)
    by (vm_compute; reflexivity).
  split; [exact Hin|]. split; [exact He|]. split; [reflexivity|].
  destruct (reset_semantics tracker [A; C] 3 "health_care")
    as (Hpend & Hdem & _).
  split.
  - exact (Hdem entry_C Hin He eq_refl).
  - rewrite (Hpend None (or_introl eq_refl)).
    apply decide_True. exact Hin.
Defined.

Lemma mark_filter_complete_witness :
  _status tracker !! _make_key 3 "health_care" = Some entry_C
  /\ score_batch_job_ids entry_C = Some ["job3"]
  /\ exists e',
      _status (mark_filter_complete "t9" tracker 3 "health_care" ["job9"])
        !! _make_key 3 "health_care" = Some e'
      /\ status e' = "filter_complete"
      /\ filter_batch_job_ids e' = Some ["job9"]
      /\ filter_completed_at e' = Some "t9"
      /\ score_batch_job_ids e' = Some ["job3"].
Proof.
  assert (He : _status tracker !! _make_key 3 "health_care" = Some entry_C)
    by (vm_compute; reflexivity).
  split; [exact He|]. split; [reflexivity|].
  destruct (mark_filter_complete_frame "t9" tracker 3 "health_care" ["job9"])
    as ((e' & H1 & H2 & H3 & H4 & H5 & _) & _).
  exists e'. repeat (split; [assumption|]).
  exact (H5 entry_C ["job3"] He eq_refl).
Defined.

End JobTrackerExamples.

Module FilterPipelineExamples.
Import Py FilterPipeline FilterPipelineFacts Examples.

Lemma save_filtered_witness :
  "other.csv" <> csv_name 5 "education"
  /\ intermediate !! csv_name 5 "education" = Some [filtered_row]
  /\ _save_filtered_speeches intermediate 5 "education" [filtered_row]
       !! csv_name 5 "education" = Some [filtered_row; filtered_row]
  /\ _save_filtered_speeches intermediate 5 "education" [filtered_row]
       !! "other.csv" = None.
Proof.
  assert (Hne : "other.csv" <> csv_name 5 "education")
    by (vm_compute; discriminate).
  split; [exact Hne|].
  destruct (save_filtered_appends ∅ 5 "education" [filtered_row])
    as (H1 & H2 & H3).
  split; [exact H1|]. split; [exact H2|].
  exact (proj2 (H3 "other.csv" Hne)).
Defined.

(** C4, as stated, fails: a chunk of one row saved twice leaves the row in
    the artifact twice, where saving it once leaves it there once. *)
Lemma save_filtered_counterexample :
  intermediate !! csv_name 5 "education" = Some [filtered_row]
  /\ _save_filtered_speeches intermediate 5 "education" [filtered_row]
       !! csv_name 5 "education" = Some [filtered_row; filtered_row]
  /\ _save_filtered_speeches intermediate 5 "education" [filtered_row]
     <> intermediate.
Proof.
  split; [by vm_compute|]. split; [by vm_compute|].
  intros H.
  apply (f_equal (fun d => d !! csv_name 5 "education")) in H.
  vm_compute in H. discriminate.
Qed.

End FilterPipelineExamples.

Module OutputManagerExamples.
Import Py Env OutputManager OutputManagerFacts Examples.

Lemma aggregation_idempotent_witness :
  [scored_row] <> []
  /\ update_aggregations env OutputManager.empty 5 "education" [scored_row]
     = Ok after_once
  /\ update_twice env OutputManager.empty 5 "education" [scored_row]
     = Ok after_once
  /\ topic_stat after_once 5 "education" = Some (1%Z, JInt 7)
  /\ mk_stat after_once 5 "education" = Some (1%Z, JInt 7).
Proof.
  assert (Hne : [scored_row] <> []) by discriminate.
  assert (Hup : update_aggregations env OutputManager.empty 5 "education"
                  [scored_row] = Ok after_once) by reflexivity.
  split; [exact Hne|]. split; [exact Hup|].
  destruct (aggregation_idempotent env OutputManager.empty 5 "education"
              [scored_row]) as [Htwice Hstat].
  split; [rewrite Htwice; exact Hup|].
  destruct (Hstat after_once Hne Hup) as (avg & Hmean & Ht & Hm).
  assert (Havg : avg = JInt 7) by (vm_compute in Hmean; congruence).
  subst avg. split; [exact Ht|].
  apply Hm. vm_compute. eauto.
Defined.

End OutputManagerExamples.

Module BatchManagerExamples.
Import Py Env BatchManager BatchManagerFacts Examples.



Lemma poll_batches_stuck fuel batch_id batch_ids interval :
  (0 <= interval)%Z ->
  poll_batches fuel stuck_env empty (batch_id :: batch_ids) interval = None.
Proof. intros Hi. by apply poll_loop_stuck. Qed.

(** With the interval -1 the call raises at the end of its first round, in
    which the batch is still in progress. *)
Lemma poll_batches_negative_interval :
  poll_batches 4 env empty ["batch_a"] (-1)
  = Some (Raise (ValueError sleep_msg)).
Proof. vm_compute. reflexivity. Qed.

Lemma retrieve_results_witness :
  batches_retrieve env (tick submitted) "batch_1" = Ok completed_batch
  /\ files_content env (S (tick submitted)) "file-out" = Ok output
  /\ batches_retrieve env (tick empty) "batch_1" = Ok running_batch
  /\ status running_batch <> "completed"
  /\ (retrieve_results env submitted "batch_1").1
     = Ok [scored_result; JObj []]
  /\ match (retrieve_results env submitted "batch_1").1 with
     | Ok results =>
         Forall2 (fun line r => json_loads env line = Some r)
           (List.filter nonempty (split newline (strip output))) results
         /\ length results
            = length (List.filter nonempty (split newline (strip output)))
     | Raise e =>
         e = JSONDecodeError
         /\ exists line,
             line ∈ List.filter nonempty (split newline (strip output))
             /\ json_loads env line = None
     end
  /\ (retrieve_results env empty "batch_1").1
     = Raise (ValueError (not_completed_msg "batch_1" "in_progress")).
Proof.
  assert (Hb : batches_retrieve env (tick submitted) "batch_1"
               = Ok completed_batch) by reflexivity.
  assert (Hc : files_content env (S (tick submitted)) "file-out" = Ok output)
    by reflexivity.
  assert (Hr : batches_retrieve env (tick empty) "batch_1" = Ok running_batch)
    by reflexivity.
  assert (Hn : status running_batch <> "completed") by discriminate.
  split; [exact Hb|]. split; [exact Hc|]. split; [exact Hr|].
  split; [exact Hn|]. split; [by vm_compute|]. split.
  - destruct (retrieve_results_errors env submitted "batch_1"
                completed_batch Hb) as (_ & _ & _ & H).
    refine (H "file-out" output eq_refl eq_refl _ Hc). discriminate.
  - exact (proj1 (retrieve_results_errors env empty "batch_1" running_batch
                    Hr) Hn).
Defined.

End BatchManagerExamples.

Module ScorePipelineExamples.
Import Py Env ScorePipeline ScorePipelineFacts Examples.


(** Processing the batch of the example writes the final artifact, marks
    the pair score_complete and updates the two documents. *)
Example process_batch_example :
  client_data (_process_batch_results env pipeline "batch_1")
    !! scored_csv_name 5 "education" = Some [scored_row]
  /\ JobTracker.state_of
       (job_tracker (_process_batch_results env pipeline "batch_1"))
       5 "education" = "score_complete"
  /\ OutputManager.topic_stat
       (output_manager (_process_batch_results env pipeline "batch_1"))
       5 "education" = Some (1%Z, JInt 7).
Proof. vm_compute. repeat split. Qed.

(** A rationale returned for a request that did not ask for one is not
    stored. *)
Example unrequested_reasoning_dropped :
  process_result env intermediate 5 "education" unrequested_result
  = Ok (Some unrequested_row).
Proof. vm_compute. reflexivity. Qed.

End ScorePipelineExamples.

(** * Part IV: more of the code

    Properties of the functions that Part II does not reach: the statistics
    and the pending lists of the tracker, the ledgers of the batch manager
    under submission, polling and retry, the two stages from the database to
    the artifacts, and the commands of [cli] that drive them. *)

Module StringFacts.
Import Py PyFacts PyList.

Lemma append_assoc s1 s2 s3 : (s1 +:+ s2) +:+ s3 = s1 +:+ (s2 +:+ s3).
Proof.
  induction s1 as [|c s1 IH]; [done|]. rewrite !append_cons. by rewrite IH.
Qed.

Lemma append_empty_r s : s +:+ "" = s.
Proof. induction s as [|c s IH]; [done|]. rewrite append_cons. by rewrite IH. Qed.

Lemma length_append s1 s2 :
  String.length (s1 +:+ s2) = String.length s1 + String.length s2.
Proof.
  induction s1 as [|c s1 IH]; [done|]. rewrite append_cons. simpl.
  by rewrite IH.
Qed.

Lemma append_inj_l p s1 s2 : p +:+ s1 = p +:+ s2 -> s1 = s2.
Proof.
  induction p as [|c p IH]; [done|]. rewrite !append_cons.
  intros [= H]. by apply IH.
Qed.

Lemma append_inj_r s1 s2 t : s1 +:+ t = s2 +:+ t -> s1 = s2.
Proof.
  revert s2. induction s1 as [|c s1 IH]; intros [|c' s2] H.
  - done.
  - apply (f_equal String.length) in H.
    rewrite append_nil, append_cons in H. simpl in H.
    rewrite length_append in H. lia.
  - apply (f_equal String.length) in H.
    rewrite append_nil, append_cons in H. simpl in H.
    rewrite length_append in H. lia.
  - rewrite !append_cons in H. injection H as -> H. by rewrite (IH s2 H).
Qed.

Lemma list_of_append s1 s2 :
  list_ascii_of_string (s1 +:+ s2)
  = list_ascii_of_string s1 ++ list_ascii_of_string s2.
Proof.
  induction s1 as [|c s1 IH]; [done|]. rewrite append_cons. simpl.
  by rewrite IH.
Qed.

Lemma string_of_app l1 l2 :
  string_of_list_ascii (l1 ++ l2)
  = string_of_list_ascii l1 +:+ string_of_list_ascii l2.
Proof.
  induction l1 as [|c l1 IH]; [done|]. simpl. rewrite append_cons.
  by rewrite IH.
Qed.

Lemma reverse_append s1 s2 :
  reverse (s1 +:+ s2) = reverse s2 +:+ reverse s1.
Proof.
  unfold reverse. by rewrite list_of_append, rev_app_distr, string_of_app.
Qed.

Lemma reverse_cons c s : reverse (String c s) = reverse s +:+ String c "".
Proof.
  change (String c s) with (String c "" +:+ s). by rewrite reverse_append.
Qed.

(** *** Stripping *)

(** [skip_space] returns a suffix of its argument on which it does nothing
    more. *)
Lemma skip_space_spec back : forall n s,
  String.length s <= n ->
  (exists w, s = w +:+ skip_space back s)
  /\ skip_space back (skip_space back s) = skip_space back s.
Proof.
  induction n as [|n IH]; intros s Hn.
  { destruct s; [|simpl in Hn; lia]. split; [by exists ""|done]. }
  destruct s as [|c1 r1]; [split; [by exists ""|done]|].
  simpl in Hn. cbn [skip_space].
  destruct (is_space c1) eqn:E1.
  { destruct (IH r1) as [[w Hw] Hi]; [lia|]. split; [|done].
    exists (String c1 w). rewrite append_cons. by rewrite <- Hw. }
  destruct r1 as [|c2 r2].
  { split; [by exists ""|]. cbn [skip_space]. by rewrite E1. }
  simpl in Hn.
  destruct (if back then is_space2 c2 c1 else is_space2 c1 c2) eqn:E2.
  { destruct (IH r2) as [[w Hw] Hi]; [lia|]. split; [|done].
    exists (String c1 (String c2 w)). rewrite !append_cons. by rewrite <- Hw. }
  destruct r2 as [|c3 r3].
  { split; [by exists ""|]. cbn [skip_space]. by rewrite E1, E2. }
  simpl in Hn.
  destruct (if back then is_space3 c3 c2 c1 else is_space3 c1 c2 c3) eqn:E3.
  { destruct (IH r3) as [[w Hw] Hi]; [lia|]. split; [|done].
    exists (String c1 (String c2 (String c3 w))). rewrite !append_cons.
    by rewrite <- Hw. }
  split; [by exists ""|]. cbn [skip_space]. by rewrite E1, E2, E3.
Qed.

Lemma skip_space_suffix back s : exists w, s = w +:+ skip_space back s.
Proof. by apply (skip_space_spec back (String.length s)). Qed.

Lemma skip_space_idem back s :
  skip_space back (skip_space back s) = skip_space back s.
Proof. by apply (skip_space_spec back (String.length s)). Qed.

Lemma skip_space_length back s :
  String.length (skip_space back s) <= String.length s.
Proof.
  destruct (skip_space_suffix back s) as [w Hw].
  rewrite Hw at 2. rewrite length_append. lia.
Qed.

Lemma skip_space_fixed_head back c r :
  skip_space back (String c r) = String c r -> is_space c = false.
Proof.
  intros H. destruct (is_space c) eqn:E; [|done]. cbn [skip_space] in H.
  rewrite E in H. pose proof (skip_space_length back r) as Hl.
  rewrite H in Hl. simpl in Hl. lia.
Qed.

(** A text that [lstrip] leaves alone has no prefix that [lstrip] changes. *)
Lemma lstrip_prefix u w :
  skip_space false (u +:+ w) = u +:+ w -> skip_space false u = u.
Proof.
  destruct u as [|c1 u1]; [done|]. rewrite append_cons. intros H.
  pose proof (skip_space_fixed_head _ _ _ H) as E1.
  cbn [skip_space] in H |- *. rewrite E1 in H |- *.
  destruct u1 as [|c2 u2]; [done|]. rewrite append_cons in H.
  destruct (is_space2 c1 c2) eqn:E2.
  { pose proof (skip_space_length false (u2 +:+ w)) as Hl.
    rewrite H in Hl. simpl in Hl. lia. }
  destruct u2 as [|c3 u3]; [done|]. rewrite append_cons in H.
  destruct (is_space3 c1 c2 c3) eqn:E3; [|done].
  pose proof (skip_space_length false (u3 +:+ w)) as Hl.
  rewrite H in Hl. simpl in Hl. lia.
Qed.

Lemma lstrip_idem s : lstrip (lstrip s) = lstrip s.
Proof. apply skip_space_idem. Qed.

Lemma rstrip_prefix t : exists w, t = rstrip t +:+ w.
Proof.
  unfold rstrip. destruct (skip_space_suffix true (reverse t)) as [w Hw].
  exists (reverse w). apply (f_equal reverse) in Hw.
  rewrite reverse_reverse, reverse_append in Hw. exact Hw.
Qed.

Lemma rstrip_idem t : rstrip (rstrip t) = rstrip t.
Proof. unfold rstrip. by rewrite reverse_reverse, skip_space_idem. Qed.

Lemma strip_idem s : strip (strip s) = strip s.
Proof.
  unfold strip.
  assert (H : lstrip (rstrip (lstrip s)) = rstrip (lstrip s)).
  { destruct (rstrip_prefix (lstrip s)) as [w Hw].
    apply (lstrip_prefix _ w). rewrite <- Hw. apply lstrip_idem. }
  by rewrite H, rstrip_idem.
Qed.

(** *** Splitting and joining *)

Lemma split_no_sep sep s :
  all_chars (fun c => negb (Ascii.eqb c sep)) s = true -> split sep s = [s].
Proof.
  induction s as [|c s IH]; [done|]. simpl.
  intros [Hc Hs]%andb_prop. apply negb_true_iff in Hc. rewrite Hc.
  by rewrite (IH Hs).
Qed.

Lemma split_append sep s t :
  all_chars (fun c => negb (Ascii.eqb c sep)) s = true ->
  split sep (s +:+ String sep t) = s :: split sep t.
Proof.
  induction s as [|c s IH].
  - intros _. rewrite append_nil. simpl. by rewrite Ascii.eqb_refl.
  - cbn [all_chars]. intros [Hc Hs]%andb_prop. apply negb_true_iff in Hc.
    rewrite append_cons. cbn [split]. rewrite Hc. by rewrite (IH Hs).
Qed.

Lemma split_join sep (l : list string) :
  l <> [] ->
  Forall (fun s => all_chars (fun c => negb (Ascii.eqb c sep)) s = true) l ->
  split sep (join (String sep "") l) = l.
Proof.
  intros Hne HF. induction HF as [|s l Hs HF IH]; [done|].
  cbn [join]. destruct l as [|s' l].
  - by apply split_no_sep.
  - change (s +:+ String sep "" +:+ join (String sep "") (s' :: l))
      with (s +:+ String sep (join (String sep "") (s' :: l))).
    rewrite split_append by done. by rewrite IH.
Qed.

Lemma split1_spec sep s :
  match split1 sep s with
  | [a] => a = s /\ all_chars (fun c => negb (Ascii.eqb c sep)) s = true
  | [a; b] =>
      s = a +:+ String sep b
      /\ all_chars (fun c => negb (Ascii.eqb c sep)) a = true
  | _ => False
  end.
Proof.
  induction s as [|c s IH]; [done|]. simpl.
  destruct (Ascii.eqb_spec c sep) as [->|Hc]; [done|].
  assert (Hn : negb (Ascii.eqb c sep) = true).
  { apply negb_true_iff. by apply Ascii.eqb_neq. }
  destruct (split1 sep s) as [|a [|b [|? ?]]]; try done.
  - destruct IH as [-> H]. simpl. by rewrite ?Hn.
  - destruct IH as [-> H]. simpl. by rewrite ?Hn.
Qed.

Lemma split1_append sep a b :
  all_chars (fun c => negb (Ascii.eqb c sep)) a = true ->
  split1 sep (a +:+ String sep b) = [a; b].
Proof.
  induction a as [|c a IH].
  - intros _. rewrite append_nil. simpl. by rewrite Ascii.eqb_refl.
  - cbn [all_chars]. intros [Hc Ha]%andb_prop. apply negb_true_iff in Hc.
    rewrite append_cons. cbn [split1]. rewrite Hc. by rewrite (IH Ha).
Qed.

Lemma app_sep_inj sep s1 s2 t1 t2 :
  all_chars (fun c => negb (Ascii.eqb c sep)) s1 = true ->
  all_chars (fun c => negb (Ascii.eqb c sep)) s2 = true ->
  s1 +:+ String sep t1 = s2 +:+ String sep t2 -> s1 = s2 /\ t1 = t2.
Proof.
  intros H1 H2 E. apply (f_equal (split1 sep)) in E.
  rewrite !split1_append in E by done. by injection E.
Qed.

Lemma numeral_no_underscore s :
  all_chars numeral_char s = true ->
  all_chars (fun c => negb (Ascii.eqb c "_")) s = true.
Proof.
  apply all_chars_impl. intros c Hc.
  by destruct (numeral_char_plain c Hc) as (_ & -> & _).
Qed.

End StringFacts.

Module JobTrackerFlow.
Import Py PyFacts JobTracker JobTrackerFacts JobTrackerReport.

Lemma pending_filter self pairs :
  get_pending_pairs self "filter" pairs
  = List.filter (filter_candidate self) pairs.
Proof.
  unfold get_pending_pairs.
  by rewrite (fold_pending _ _ (pending_step_filter self)).
Qed.

Lemma pending_score self pairs :
  get_pending_pairs self "score" pairs
  = List.filter (score_candidate self) pairs.
Proof.
  unfold get_pending_pairs.
  by rewrite (fold_pending _ _ (pending_step_score self)).
Qed.

Lemma stored_status_mark_filter now self p tp ids q :
  stored_status (mark_filter_complete now self p tp ids) q
  = if decide (q = (p, tp)) then Some "filter_complete"
    else stored_status self q.
Proof.
  destruct q as [p' tp']. unfold stored_status, mark_filter_complete. simpl.
  case_decide as H.
  - injection H as -> ->. by rewrite lookup_insert_eq.
  - rewrite lookup_insert_ne; [done|].
    intros E. apply _make_key_inj in E as [-> ->]. done.
Qed.

Lemma stored_status_mark_score now self p tp ids q :
  stored_status (mark_score_complete now self p tp ids) q
  = if decide (q = (p, tp)) then Some "score_complete"
    else stored_status self q.
Proof.
  destruct q as [p' tp']. unfold stored_status, mark_score_complete. simpl.
  case_decide as H.
  - injection H as -> ->. by rewrite lookup_insert_eq.
  - rewrite lookup_insert_ne; [done|].
    intros E. apply _make_key_inj in E as [-> ->]. done.
Qed.

(** X1. Marking a phase complete moves the pair, and only the pair, between the
    pending lists: after the filter phase is marked the pair is no longer
    pending for filter and is pending for score whenever it is a candidate;
    after the score phase is marked it is pending for neither.  Every other
    candidate is pending exactly as before. *)
Theorem pending_after_mark (now : string) (self : t) (p : Z) (tp : string)
    (ids : list string) (pairs : list (Z * string)) :
  let marked_filter := mark_filter_complete now self p tp ids in
  let marked_score := mark_score_complete now self p tp ids in
  get_pending_pairs marked_filter "filter" pairs
  = List.filter (fun q => negb (bool_decide (q = (p, tp)))
                          && filter_candidate self q) pairs
  /\ get_pending_pairs marked_filter "score" pairs
     = List.filter (fun q => bool_decide (q = (p, tp))
                             || score_candidate self q) pairs
  /\ get_pending_pairs marked_score "filter" pairs
     = List.filter (fun q => negb (bool_decide (q = (p, tp)))
                             && filter_candidate self q) pairs
  /\ get_pending_pairs marked_score "score" pairs
     = List.filter (fun q => negb (bool_decide (q = (p, tp)))
                             && score_candidate self q) pairs.
Proof.
  cbv zeta. rewrite !pending_filter, !pending_score.
  repeat split; apply filter_ext; intros q;
    unfold filter_candidate, score_candidate;
    rewrite ?stored_status_mark_filter, ?stored_status_mark_score;
    case_bool_decide; case_decide; try done.
Qed.

Lemma demote_status e :
  status (demote e)
  = if String.eqb (status e) "score_complete" then "filter_complete"
    else status e.
Proof. unfold demote. by destruct (String.eqb (status e) "score_complete"). Qed.

Lemma filter_true {A} (P : A -> bool) l :
  (forall x, x ∈ l -> P x = true) -> List.filter P l = l.
Proof.
  induction l as [|x l IH]; intros H; simpl; [done|].
  rewrite (H x) by apply list_elem_of_here.
  f_equal. apply IH. intros y Hy. apply H. by apply list_elem_of_further.
Qed.

Lemma filter_ext_elem {A} (P Q : A -> bool) l :
  (forall x, x ∈ l -> P x = Q x) -> List.filter P l = List.filter Q l.
Proof.
  induction l as [|x l IH]; intros H; simpl; [done|].
  rewrite (H x) by apply list_elem_of_here.
  rewrite IH; [done|]. intros y Hy. apply H. by apply list_elem_of_further.
Qed.

(** X2. The pending pairs of the commands [filter] and [score].  Without the
    option the tracker is left alone.  With it, the command [filter] takes
    up every pair it is given, and the command [score] takes up the pairs
    whose filter phase is complete, scored or not: a pair that was never
    filtered is not scored, forced or not. *)
Theorem force_reprocess_pending (job_tracker : t)
    (all_pairs : list (Z * string)) :
  Cli.filter_pending job_tracker all_pairs false
  = (List.filter (filter_candidate job_tracker) all_pairs, job_tracker)
  /\ Cli.score_pending job_tracker all_pairs false
     = (List.filter (score_candidate job_tracker) all_pairs, job_tracker)
  /\ (Cli.filter_pending job_tracker all_pairs true).1 = all_pairs
  /\ (Cli.score_pending job_tracker all_pairs true).1
     = List.filter (fun q => is_pair_complete job_tracker q.1 q.2 "filter")
         all_pairs.
Proof.
  unfold Cli.filter_pending, Cli.score_pending. cbn [fst snd].
  rewrite !pending_filter, !pending_score. repeat split.
  - apply filter_true. intros [p tp] Hin.
    unfold filter_candidate, stored_status. cbn [fst snd].
    rewrite reset_pairs_lookup. by rewrite decide_True.
  - apply filter_ext_elem. intros [p tp] Hin.
    unfold score_candidate, stored_status, is_pair_complete. cbn [fst snd].
    rewrite reset_pairs_lookup. rewrite decide_True by done. simpl.
    destruct (_status job_tracker !! _make_key p tp) as [e|]; simpl; [|done].
    rewrite demote_status.
    destruct (String.eqb_spec (status e) "score_complete") as [->|N];
      simpl; [done|].
    by rewrite orb_false_r.
Qed.

(** X3. [is_pair_complete] against the pending lists: a pair whose score phase
    is complete has its filter phase complete; a pair whose filter phase
    is complete is never pending for filter; a pair is pending for score
    exactly when it is a candidate whose filter phase is complete and whose
    score phase is not; and for a phase that is neither filter nor score
    no pair is complete and none is pending. *)
Theorem is_pair_complete_pending (self : t) (p : Z) (tp : string)
    (pairs : list (Z * string)) :
  (is_pair_complete self p tp "score" = true ->
   is_pair_complete self p tp "filter" = true)
  /\ (is_pair_complete self p tp "filter" = true ->
      (p, tp) ∉ get_pending_pairs self "filter" pairs)
  /\ ((p, tp) ∈ get_pending_pairs self "score" pairs <->
      (p, tp) ∈ pairs
      /\ is_pair_complete self p tp "filter" = true
      /\ is_pair_complete self p tp "score" = false)
  /\ forall phase, phase <> "filter" -> phase <> "score" ->
       is_pair_complete self p tp phase = false
       /\ get_pending_pairs self phase pairs = [].
Proof.
  rewrite pending_filter, pending_score.
  assert (Hscore : (p, tp) ∈ List.filter (score_candidate self) pairs <->
                   (p, tp) ∈ pairs /\ score_candidate self (p, tp) = true).
  { by rewrite list_elem_of_In, filter_In, <- list_elem_of_In. }
  assert (Hfilter : (p, tp) ∈ List.filter (filter_candidate self) pairs <->
                    (p, tp) ∈ pairs /\ filter_candidate self (p, tp) = true).
  { by rewrite list_elem_of_In, filter_In, <- list_elem_of_In. }
  rewrite Hscore, Hfilter.
  unfold is_pair_complete, score_candidate, filter_candidate, stored_status.
  cbn [fst snd].
  destruct (_status self !! _make_key p tp) as [e|]; simpl.
  - split; [|split; [|split]].
    + intros ->. apply orb_true_r.
    + intros H [_ Hc]. apply String.eqb_eq in Hc. by rewrite Hc in H.
    + split.
      * intros [Hin Hc]. apply String.eqb_eq in Hc. by rewrite Hc.
      * intros (Hin & Hf & Hs). by rewrite Hs, orb_false_r in Hf.
    + intros phase Hf%String.eqb_neq Hs%String.eqb_neq.
      rewrite Hf, Hs. split; [done|].
      unfold get_pending_pairs.
      assert (Hstep : forall pair, pending_step self phase [] pair = []).
      { intros [p' tp']. unfold pending_step. rewrite Hf, Hs. simpl.
        by destruct (_status self !! _make_key p' tp'). }
      clear Hscore Hfilter.
      induction pairs as [|pair pairs IH]; simpl; [done|]. by rewrite Hstep.
  - split; [done|split; [done|split]].
    + split; [by intros [_ ?]|by intros (_ & ? & _)].
    + intros phase Hf%String.eqb_neq Hs%String.eqb_neq. split; [done|].
      unfold get_pending_pairs.
      assert (Hstep : forall pair, pending_step self phase [] pair = []).
      { intros [p' tp']. unfold pending_step. rewrite Hf, Hs. simpl.
        by destruct (_status self !! _make_key p' tp'). }
      clear Hscore Hfilter.
      induction pairs as [|pair pairs IH]; simpl; [done|]. by rewrite Hstep.
Qed.

(** *** Statistics *)

Lemma stats_step_lookup stats item k :
  stats_step stats item !! k
  = if String.eqb (status item.2) k then (fun n => (n + 1)%Z) <$> stats !! k
    else stats !! k.
Proof.
  unfold stats_step.
  destruct (String.eqb_spec (status item.2) k) as [->|N].
  - destruct (stats !! k) as [n|] eqn:E; simpl.
    + by rewrite lookup_insert_eq.
    + by rewrite E.
  - destruct (stats !! status item.2); [|done].
    by rewrite lookup_insert_ne.
Qed.

Lemma stats_fold_lookup items : forall stats k,
  foldl stats_step stats items !! k
  = (fun n => (n + Z.of_nat (length (List.filter
         (fun item : string * entry => String.eqb (status item.2) k)
         items)))%Z)
    <$> stats !! k.
Proof.
  induction items as [|item items IH]; intros stats k; simpl.
  - destruct (stats !! k); simpl; [f_equal; lia|done].
  - rewrite IH, stats_step_lookup.
    destruct (String.eqb (status item.2) k); simpl;
      destruct (stats !! k); simpl; [f_equal; lia|done|done|done].
Qed.

Lemma count_known (items : list (string * entry)) :
  Forall (fun item => known_status (status item.2) = true) items ->
  length (List.filter (fun item : string * entry =>
                         String.eqb (status item.2) "pending") items)
  + length (List.filter (fun item : string * entry =>
                           String.eqb (status item.2) "filter_complete") items)
  + length (List.filter (fun item : string * entry =>
                           String.eqb (status item.2) "score_complete") items)
  = length items
  /\ List.filter (fun item : string * entry =>
                    String.eqb (status item.2) "total") items = [].
Proof.
  induction 1 as [|item items Hk _ [IH1 IH2]]; simpl; [done|].
  unfold known_status in Hk.
  destruct (String.eqb_spec (status item.2) "pending") as [->|_];
    [simpl; split; [lia|done]|].
  destruct (String.eqb_spec (status item.2) "filter_complete") as [->|_];
    [simpl; split; [lia|done]|].
  destruct (String.eqb_spec (status item.2) "score_complete") as [->|_];
    [simpl; split; [lia|done]|].
  done.
Qed.

(** X4. The counts of [get_statistics]: each of the three statuses has the
    number of entries with that status, the dict has no other key but
    total, and total is the number of entries plus the number of entries
    whose status is the word total, which the loop counts under that key. *)
Theorem statistics_counts (self : t) :
  let stats := get_statistics self in
  stats !! "pending" = Some (count_status "pending" self)
  /\ stats !! "filter_complete" = Some (count_status "filter_complete" self)
  /\ stats !! "score_complete" = Some (count_status "score_complete" self)
  /\ stats !! "total"
     = Some (Z.of_nat (size (_status self)) + count_status "total" self)%Z
  /\ forall k, k <> "pending" -> k <> "filter_complete" ->
       k <> "score_complete" -> k <> "total" -> stats !! k = None.
Proof.
  cbv zeta. unfold get_statistics, count_status.
  repeat split; try (rewrite stats_fold_lookup; reflexivity).
  intros k H1 H2 H3 H4. rewrite stats_fold_lookup.
  rewrite !lookup_insert_ne by done. by rewrite lookup_singleton_ne.
Qed.

Lemma known_insert (st : gmap string entry) k e :
  map_Forall (fun _ e => known_status (status e) = true) st ->
  known_status (status e) = true ->
  map_Forall (fun _ e => known_status (status e) = true) (<[k := e]> st).
Proof. intros H He. by apply map_Forall_insert_2. Qed.

Lemma known_reset_step phase st pair :
  map_Forall (fun _ e => known_status (status e) = true) st ->
  map_Forall (fun _ e => known_status (status e) = true)
    (reset_step phase st pair).
Proof.
  intros H. destruct pair as [p tp]. unfold reset_step.
  destruct phase as [ph|]; [|by apply known_insert].
  destruct (String.eqb ph "filter"); [by apply known_insert|].
  destruct (String.eqb ph "score"); [|done].
  destruct (st !! _make_key p tp) as [e|]; [|done].
  destruct (String.eqb (status e) "score_complete"); [|done].
  by apply known_insert.
Qed.

Lemma known_apply o self : known self -> known (apply o self).
Proof.
  unfold known. intros H. destruct o as [now p tp ids|now p tp ids|pairs phase].
  - by apply known_insert.
  - by apply known_insert.
  - simpl. generalize dependent (_status self).
    induction pairs as [|pair pairs IH]; intros st H; simpl; [done|].
    apply IH. by apply known_reset_step.
Qed.

(** X5. The tracker writes no status but pending, filter_complete and
    score_complete: a store that holds only these holds only these after
    any run of marks and resets, and then the three counts of
    [get_statistics] add up to its total, which is the number of tracked
    pairs. *)
Theorem statistics_partition (ops : list op) (self : t) :
  known self ->
  let self' := run ops self in
  known self'
  /\ (count_status "pending" self' + count_status "filter_complete" self'
      + count_status "score_complete" self')%Z
     = Z.of_nat (size (_status self'))
  /\ get_statistics self' !! "total" = Some (Z.of_nat (size (_status self'))).
Proof.
  intros H. cbv zeta.
  assert (Hk : known (run ops self)).
  { unfold run. revert self H.
    induction ops as [|o ops IH]; intros self H; simpl; [done|].
    apply IH. by apply known_apply. }
  split; [done|].
  assert (HF : Forall (fun item : string * entry =>
                         known_status (status item.2) = true)
                 (map_to_list (_status (run ops self)))).
  { apply Forall_forall. intros [k e] Hin.
    apply elem_of_map_to_list in Hin. by apply (Hk k e). }
  destruct (count_known _ HF) as [Hsum Htotal].
  rewrite length_map_to_list in Hsum.
  split.
  - unfold count_status. lia.
  - unfold get_statistics. rewrite stats_fold_lookup, Htotal.
    rewrite !lookup_insert_ne by done. rewrite lookup_singleton_eq. simpl.
    f_equal. lia.
Qed.

End JobTrackerFlow.

Module LedgerFacts.
Import Py Env BatchManager BatchManagerFacts RetryFacts BatchFile.

(** X6. [create_batch]: where the client accepts the upload and the batch, the
    job is in the ledger under the id the client gave, with the status
    submitted, the number of requests and the id of the uploaded file
    (these four keys win over keys of the same name in the metadata, every
    other key of the metadata is kept), every other job is untouched and
    the file holds the ledger.  Where the client raises, the exception is
    the client's and the ledger and its file are as before: an upload whose
    batch is refused is not recorded.  The other ledgers are untouched. *)
Theorem create_batch_ledger (E : Env.t) (self : t) (requests : list json)
    (metadata : gmap string meta_value) :
  let r := (create_batch E self requests metadata).1 in
  let self' := (create_batch E self requests metadata).2 in
  _costs self' = _costs self /\ costs_file self' = costs_file self
  /\ _failed_speeches self' = _failed_speeches self
  /\ failed_speeches_file self' = failed_speeches_file self
  /\ match r with
     | Ok batch_id =>
         exists file_id job,
           files_create E (tick self) requests = Ok file_id
           /\ batches_create E (S (tick self)) file_id metadata = Ok batch_id
           /\ _batch_jobs self' !! batch_id = Some job
           /\ job !! "status" = Some (MStr "submitted")
           /\ job !! "request_count"
              = Some (MInt (Z.of_nat (length requests)))
           /\ job !! "file_id" = Some (MStr file_id)
           /\ job !! "submitted_at" = Some (MStr (now E (S (S (tick self)))))
           /\ (forall k, k <> "status" -> k <> "request_count" ->
                 k <> "file_id" -> k <> "submitted_at" ->
                 job !! k = metadata !! k)
           /\ (forall id, id <> batch_id ->
                 _batch_jobs self' !! id = _batch_jobs self !! id)
           /\ batch_jobs_file self' = _batch_jobs self'
     | Raise e =>
         _batch_jobs self' = _batch_jobs self
         /\ batch_jobs_file self' = batch_jobs_file self
         /\ (files_create E (tick self) requests = Raise e
             \/ exists file_id,
                 files_create E (tick self) requests = Ok file_id
                 /\ batches_create E (S (tick self)) file_id metadata
                    = Raise e)
     end.
Proof.
  cbv zeta. unfold create_batch.
  destruct (files_create E (tick self) requests) as [file_id|e]; simpl;
    [|repeat split; by left].
  destruct (batches_create E (S (tick self)) file_id metadata)
    as [batch_id|e] eqn:Hb; simpl; [|repeat split; right; by exists file_id].
  repeat split. eexists file_id, _. rewrite lookup_insert_eq.
  unfold job_entry. repeat split; try reflexivity; try done.
  - by rewrite !lookup_insert_ne by done; rewrite lookup_insert_eq.
  - by rewrite !lookup_insert_ne by done; rewrite lookup_insert_eq.
  - by rewrite lookup_insert_eq.
  - by rewrite !lookup_insert_ne by done; rewrite lookup_insert_eq.
  - intros k H1 H2 H3 H4. by rewrite !lookup_insert_ne.
  - intros id Hne. by rewrite lookup_insert_ne.
Qed.

(** *** The retry budget *)

Lemma retry_budget_from E failed_requests max_attempts :
  accepts E ->
  forall n self metadata a,
    attempt_is metadata a -> n = Z.to_nat (max_attempts - a) ->
    exists ids metadata' self' logged,
      retry_times (S n) E self failed_requests metadata max_attempts
      = (map (fun id => Ok (Some id)) ids ++ [Ok None], metadata', self')
      /\ length ids = n
      /\ attempt_is metadata' (Z.max a max_attempts)
      /\ _failed_speeches self' = _failed_speeches self ++ logged
      /\ map request logged = failed_requests
      /\ Forall (fun r => BatchManager.metadata r = metadata') logged
      /\ failed_speeches_file self' = _failed_speeches self'.
Proof.
  intros HE. induction n as [|n IH]; intros self metadata a Ha Hn.
  - destruct (retry_gives_up E self failed_requests metadata max_attempts a
                Ha) as (self' & logged & Hr & H1 & H2 & H3 & H4); [lia|].
    exists [], metadata, self', logged. cbn [retry_times]. rewrite Hr.
    repeat split; try done. by replace (Z.max a max_attempts) with a by lia.
  - destruct (retry_resubmits E self failed_requests metadata max_attempts a
                HE Ha) as (id & md1 & s1 & Hr & Ha1 & Hf1 & _ & _); [lia|].
    destruct (IH s1 md1 (a + 1)%Z Ha1) as
      (ids & md' & s' & logged & Hrs & Hlen & Ha' & Hl & Hm & HF & Hsave);
      [lia|].
    exists (id :: ids), md', s', logged.
    change (retry_times (S (S n)) E self failed_requests metadata
              max_attempts)
      with (let '(r, md, s) :=
              retry_failed_requests E self failed_requests metadata
                max_attempts in
            let '(rs, md, s) :=
              retry_times (S n) E s failed_requests md max_attempts in
            (r :: rs, md, s)).
    rewrite Hr, Hrs. simpl. repeat split; try done.
    + by rewrite Hlen.
    + by replace (Z.max a max_attempts) with (Z.max (a + 1) max_attempts)
        by lia.
    + by rewrite Hl, Hf1.
Qed.

(** X7. The budget of [retry_failed_requests] for any limit: with a client that
    accepts every batch and a counter that stands at [a], calls in a row
    (each with the dict the call before it left) return a batch id exactly
    [max_attempts - a] times, none where the limit is at or below the
    counter, and the next call returns [None], logs every failed request
    with the dict it was given and saves the ledger. *)
Theorem retry_budget (E : Env.t) (self : t) (failed_requests : list json)
    (metadata : gmap string meta_value) (a max_attempts : Z) :
  accepts E ->
  attempt_is metadata a ->
  let n := Z.to_nat (max_attempts - a) in
  exists ids metadata' self' logged,
    retry_times (S n) E self failed_requests metadata max_attempts
    = (map (fun id => Ok (Some id)) ids ++ [Ok None], metadata', self')
    /\ length ids = n
    /\ attempt_is metadata' (Z.max a max_attempts)
    /\ _failed_speeches self' = _failed_speeches self ++ logged
    /\ map request logged = failed_requests
    /\ Forall (fun r => BatchManager.metadata r = metadata') logged
    /\ failed_speeches_file self' = _failed_speeches self'.
Proof.
  intros HE Ha n.
  exact (retry_budget_from E failed_requests max_attempts HE n self metadata a
           Ha eq_refl).
Qed.

Lemma create_batch_refused E self requests metadata e :
  refuses E e ->
  create_batch E self requests metadata = (Raise e, called self).
Proof. intros H. unfold create_batch. by rewrite H. Qed.

(** X8. A submission that the client refuses uses up an attempt all the same:
    the counter is written into the caller's dict before the batch is
    created.  With a client that refuses every upload, the calls in a row
    raise the client's exception [max_attempts - a] times and the next call
    gives up and logs the requests, none of which was ever resubmitted; the
    ledger of jobs is untouched throughout. *)
Theorem retry_refused (E : Env.t) (e : exn) (failed_requests : list json)
    (max_attempts : Z) :
  refuses E e ->
  forall (n : nat) (self : t) (metadata : gmap string meta_value) (a : Z),
    attempt_is metadata a -> n = Z.to_nat (max_attempts - a) ->
    exists metadata' self' logged,
      retry_times (S n) E self failed_requests metadata max_attempts
      = (replicate n (Raise e) ++ [Ok None], metadata', self')
      /\ attempt_is metadata' (Z.max a max_attempts)
      /\ _batch_jobs self' = _batch_jobs self
      /\ batch_jobs_file self' = batch_jobs_file self
      /\ _failed_speeches self' = _failed_speeches self ++ logged
      /\ map request logged = failed_requests.
Proof.
  intros HE. induction n as [|n IH]; intros self metadata a Ha Hn.
  - unfold retry_times, retry_failed_requests. rewrite Ha.
    destruct (Z.leb_spec max_attempts a); [|lia].
    destruct (log_failed_spec E failed_requests metadata self)
      as (logged & H1 & H2 & _).
    eexists _, _, logged. split; [reflexivity|]. simpl.
    replace (Z.max a max_attempts) with a by lia.
    repeat split; try done.
    + clear. revert self.
      induction failed_requests as [|r rs IH]; intros self; [done|].
      cbn [log_failed]. by rewrite IH.
    + clear. revert self.
      induction failed_requests as [|r rs IH]; intros self; [done|].
      cbn [log_failed]. by rewrite IH.
  - assert (Ha1 : attempt_is (<["retry_attempt" := MInt (a + 1)]> metadata)
                    (a + 1)).
    { unfold attempt_is. by rewrite lookup_insert_eq. }
    destruct (IH (called self) _ (a + 1)%Z Ha1) as
      (md' & s' & logged & Hrs & Ha' & Hj & Hjf & Hl & Hm); [lia|].
    exists md', s', logged.
    change (retry_times (S (S n)) E self failed_requests metadata
              max_attempts)
      with (let '(r, md, s) :=
              retry_failed_requests E self failed_requests metadata
                max_attempts in
            let '(rs, md, s) :=
              retry_times (S n) E s failed_requests md max_attempts in
            (r :: rs, md, s)).
    unfold retry_failed_requests at 1. rewrite Ha.
    destruct (Z.leb_spec max_attempts a); [lia|].
    rewrite (create_batch_refused _ _ _ _ e HE). cbn [fmap result_fmap].
    rewrite Hrs. simpl. repeat split; try done.
    by replace (Z.max a max_attempts) with (Z.max (a + 1) max_attempts)
      by lia.
Qed.

End LedgerFacts.

Module PollFacts.
Import Py Env BatchManager BatchManagerFacts BatchFile.

(** *** What polling leaves of the ledgers *)

Lemma ledger_kept_refl B m : ledger_kept B m m.
Proof. by repeat split. Qed.

Lemma ledger_kept_trans B m1 m2 m3 :
  ledger_kept B m1 m2 -> ledger_kept B m2 m3 -> ledger_kept B m1 m3.
Proof.
  intros (A1 & A2 & A3 & A4 & A5 & A6 & A7) (B1 & B2 & B3 & B4 & B5 & B6 & B7).
  repeat split.
  - intros H. by apply A1, B1.
  - intros H. by apply B1, A1.
  - intros id. by rewrite B2, A2.
  - intros id Hid. by rewrite B3, A3.
  - intros id Hid. by rewrite B4, A4.
  - intros id H. by apply B5, A5.
  - by rewrite B6, A6.
  - by rewrite B7, A7.
Qed.

Lemma ledger_kept_called B m : ledger_kept B m (called m).
Proof. by repeat split. Qed.

Lemma ledger_kept_save B m : ledger_kept B m (_save_batch_jobs m).
Proof. by repeat split. Qed.

Lemma submitted_fields_insert k v job :
  k = "status" \/ k = "completed_at" ->
  submitted_fields (<[k := v]> job) = submitted_fields job.
Proof.
  intros Hk. unfold submitted_fields. apply map_eq. intros i.
  destruct (decide (i = "status")) as [->|N1];
    [by rewrite !lookup_delete_eq|].
  rewrite !(lookup_delete_ne _ "status") by done.
  destruct (decide (i = "completed_at")) as [->|N2];
    [by rewrite !lookup_delete_eq|].
  rewrite !(lookup_delete_ne _ "completed_at") by done.
  rewrite lookup_insert_ne; [done|]. by destruct Hk as [-> | ->].
Qed.

Lemma ledger_kept_set_job_field B id k v m :
  id ∈ B -> k = "status" \/ k = "completed_at" ->
  ledger_kept B m (set_job_field id k v m).
Proof.
  intros Hin Hk. unfold set_job_field.
  destruct (_batch_jobs m !! id) as [job|] eqn:Hj;
    [|apply ledger_kept_refl].
  repeat split; simpl; try done.
  - destruct (decide (id0 = id)) as [->|N].
    + by rewrite Hj.
    + by rewrite lookup_insert_ne.
  - destruct (decide (id0 = id)) as [->|N].
    + by rewrite lookup_insert_eq.
    + by rewrite lookup_insert_ne.
  - intros id'. destruct (decide (id' = id)) as [->|N].
    + rewrite lookup_insert_eq, Hj. simpl.
      by rewrite submitted_fields_insert.
    + by rewrite lookup_insert_ne.
  - intros id' Hid. rewrite lookup_insert_ne; [done|]. by intros ->.
Qed.

Lemma ledger_kept_track_cost B E id b m :
  id ∈ B -> ledger_kept B m (_track_batch_cost E m id b).
Proof.
  intros Hin. repeat split; simpl; try done.
  - intros id' Hid. rewrite lookup_insert_ne; [done|]. by intros ->.
  - intros id' H. destruct (decide (id' = id)) as [->|N].
    + by rewrite lookup_insert_eq.
    + by rewrite lookup_insert_ne.
Qed.

Lemma ledger_kept_poll_one B E ps id ps' :
  id ∈ B -> id ∈ remaining ps ->
  poll_one E ps id = Ok ps' -> ledger_kept B (mgr ps) (mgr ps').
Proof.
  intros HB Hin H.
  destruct (poll_one_cases E ps id ps' Hin H)
    as [(e & _ & _ & ->)
       |[(b & _ & _ & _ & ->)
        |(b & m1 & m2 & _ & _ & _ & -> & Hm2 & ->)]].
  - apply ledger_kept_called.
  - eapply ledger_kept_trans; [apply ledger_kept_called|].
    apply ledger_kept_set_job_field; auto.
  - set (m1 := set_job_field id "status" (MStr (status b)) (called (mgr ps)))
      in *.
    assert (H1 : ledger_kept B (mgr ps) m1).
    { eapply ledger_kept_trans; [apply ledger_kept_called|].
      apply ledger_kept_set_job_field; auto. }
    assert (H2 : ledger_kept B (mgr ps) m2).
    { destruct Hm2 as [->|[ts ->]]; [done|].
      eapply ledger_kept_trans; [exact H1|].
      eapply ledger_kept_trans; [apply ledger_kept_called|].
      apply ledger_kept_set_job_field; auto. }
    destruct (String.eqb (status b) "completed"); [|done].
    eapply ledger_kept_trans; [exact H2|]. by apply ledger_kept_track_cost.
Qed.

Lemma remaining_poll_one E ps id ps' x :
  id ∈ remaining ps -> poll_one E ps id = Ok ps' ->
  x ∈ remaining ps' -> x ∈ remaining ps.
Proof.
  intros Hin H Hx.
  destruct (poll_one_spec E ps id Hin) as (ps1 & H1 & _ & Hcase).
  rewrite H in H1. injection H1 as <-.
  destruct Hcase as [(_ & _ & Hp) | (_ & _ & Hrem)].
  - rewrite Hp. by apply list_elem_of_further.
  - by rewrite <- Hrem.
Qed.

Lemma poll_loop_ledger E interval B fuel last ps done s' :
  (forall id, id ∈ remaining ps -> id ∈ B) ->
  poll_loop fuel E interval last ps = Some (Ok (done, s')) ->
  ledger_kept B (mgr ps) s'.
Proof.
  intros Hsub0 H.
  set (P := fun ps' : poll_state =>
              (forall id, id ∈ remaining ps' -> id ∈ B)
              /\ ledger_kept B (mgr ps) (mgr ps')).
  assert (HP : P {| completed := done; remaining := []; mgr := s' |}).
  { apply (poll_loop_keeps E interval P) with (4 := H).
    - intros ps1 id ps' Hin [Hsub Hk] Hone. split.
      + intros x Hx. apply Hsub. by eapply remaining_poll_one.
      + eapply ledger_kept_trans; [exact Hk|].
        eapply ledger_kept_poll_one; [|exact Hin|exact Hone]. by apply Hsub.
    - intros ps1 m [Hsub Hk] Hm. split; [done|]. simpl.
      eapply ledger_kept_trans; [exact Hk|].
      destruct Hm as [-> | ->];
        [apply ledger_kept_called|apply ledger_kept_save].
    - split; [done|apply ledger_kept_refl]. }
  exact (proj2 HP).
Qed.

(** X9. Polling changes nothing of the ledgers but the status and the
    completion time of the jobs it polls and the cost entries of these
    jobs: the ledger of jobs has the same ids before and after, every job
    keeps every other field, the jobs and cost entries of the batches not
    polled are untouched, no cost entry goes away, and the ledger of
    failed requests is untouched in memory and on disk. *)
Theorem poll_batches_keeps_ledger (E : Env.t) (self : t)
    (batch_ids : list string) (interval : Z) (fuel : nat)
    (done : gmap string string) (self' : t) :
  poll_batches fuel E self batch_ids interval = Some (Ok (done, self')) ->
  ledger_kept batch_ids self self'.
Proof.
  intros H.
  apply (poll_loop_ledger E interval batch_ids fuel (S754_zero false)
           {| completed := ∅; remaining := batch_ids; mgr := self |}
           done self'); [|exact H].
  by intros id.
Qed.

(** *** What the dict of [poll_batches] says *)

(** X10. What the dict that [poll_batches] returns says of a batch is what the
    client said of it: the status error stands for a call on the batch that
    raised; any other status is the terminal status of an answer of the
    client for the batch, and where it is completed the cost ledger holds
    the request counts of that answer for the batch, in memory and on
    disk. *)
Theorem poll_batches_reports (E : Env.t) (self : t) (batch_ids : list string)
    (interval : Z) (fuel : nat) (done : gmap string string) (self' : t) :
  poll_batches fuel E self batch_ids interval = Some (Ok (done, self')) ->
  reported E done self'.
Proof.
  intros H.
  apply (poll_loop_keeps E interval
           (fun ps => reported E (completed ps) (mgr ps))) with (4 := H).
  - intros ps id ps'. apply reported_poll_one.
  - intros ps m HR Hm. simpl.
    eapply reported_mgr; [exact HR|..]; by destruct Hm as [-> | ->].
  - intros id st. simpl. by rewrite lookup_empty.
Qed.

End PollFacts.

Module BatchFileFacts.
Import Py PyFacts PyList StringFacts Env BatchManager BatchFile.

Lemma graphic_plain c :
  graphic c = true ->
  is_space c = false
  /\ (forall a b, is_space2 c a = false /\ is_space2 a c = false
                  /\ is_space3 c a b = false /\ is_space3 a b c = false).
Proof.
  unfold graphic, is_space, is_space2, is_space3, in_range.
  intros [H1 H2]%andb_prop. apply Nat.leb_le in H1, H2.
  split.
  - destruct (Nat.leb_spec 9 (nat_of_ascii c)),
      (Nat.leb_spec (nat_of_ascii c) 13),
      (Nat.leb_spec 28 (nat_of_ascii c)),
      (Nat.leb_spec (nat_of_ascii c) 32); simpl; try reflexivity; lia.
  - intros a b.
    assert (E1 : (nat_of_ascii c =? 194)%nat = false) by (apply Nat.eqb_neq; lia).
    assert (E2 : (nat_of_ascii c =? 225)%nat = false) by (apply Nat.eqb_neq; lia).
    assert (E3 : (nat_of_ascii c =? 226)%nat = false) by (apply Nat.eqb_neq; lia).
    assert (E4 : (nat_of_ascii c =? 227)%nat = false) by (apply Nat.eqb_neq; lia).
    assert (E5 : (nat_of_ascii c =? 133)%nat = false) by (apply Nat.eqb_neq; lia).
    assert (E6 : (nat_of_ascii c =? 160)%nat = false) by (apply Nat.eqb_neq; lia).
    assert (E7 : (nat_of_ascii c =? 128)%nat = false) by (apply Nat.eqb_neq; lia).
    assert (E8 : (nat_of_ascii c =? 159)%nat = false) by (apply Nat.eqb_neq; lia).
    assert (E9 : (nat_of_ascii c =? 175)%nat = false) by (apply Nat.eqb_neq; lia).
    assert (E10 : (128 <=? nat_of_ascii c)%nat = false) by (apply Nat.leb_gt; lia).
    assert (E11 : (168 <=? nat_of_ascii c)%nat = false) by (apply Nat.leb_gt; lia).
    rewrite E1, E2, E3, E4, E5, E6, E7, E8, E9, E10, E11. simpl.
    rewrite ?andb_false_r. simpl. rewrite ?andb_false_r. done.
Qed.

Lemma skip_space_graphic back s :
  first_char graphic s = true -> skip_space back s = s.
Proof.
  destruct s as [|c1 r1]; [done|]. simpl. intros H.
  destruct (graphic_plain c1 H) as (-> & Hc).
  destruct r1 as [|c2 r2]; [done|].
  destruct (Hc c2 c2) as (-> & -> & _ & _).
  destruct back; destruct r2 as [|c3 r3]; try done.
  - destruct (Hc c3 c2) as (_ & _ & _ & ->). done.
  - destruct (Hc c2 c3) as (_ & _ & -> & _). done.
Qed.

Lemma first_char_append P s t :
  first_char P s = true -> first_char P (s +:+ t) = true.
Proof. destruct s; [done|]. by rewrite append_cons. Qed.

Lemma last_char_append P s t :
  last_char P t = true -> last_char P (s +:+ t) = true.
Proof.
  unfold last_char. rewrite reverse_append. apply first_char_append.
Qed.

Lemma jsonl_join dumps (requests : list json) :
  requests <> [] ->
  jsonl dumps requests = join ScorePipeline.nl (map dumps requests) +:+ ScorePipeline.nl.
Proof.
  induction requests as [|r rs IH]; [done|]. intros _.
  cbn [jsonl map join]. destruct rs as [|r' rs].
  - cbn [jsonl map]. apply append_empty_r.
  - rewrite IH by done. fold ScorePipeline.nl. cbn [map]. by rewrite !append_assoc.
Qed.

Lemma join_first P sep (l : list string) :
  l <> [] -> Forall (fun s => first_char P s = true) l ->
  first_char P (join sep l) = true.
Proof.
  intros Hne HF. destruct HF as [|s l Hs HF]; [done|]. cbn [join].
  destruct l; [done|]. by apply first_char_append.
Qed.

Lemma join_last P sep (l : list string) :
  l <> [] -> Forall (fun s => last_char P s = true) l ->
  last_char P (join sep l) = true.
Proof.
  intros Hne HF. induction HF as [|s l Hs HF IH]; [done|]. cbn [join].
  destruct l as [|s' l]; [done|].
  rewrite <- append_assoc. apply last_char_append. by apply IH.
Qed.

Lemma strip_lines body :
  first_char graphic body = true -> last_char graphic body = true ->
  strip (body +:+ ScorePipeline.nl) = body.
Proof.
  intros Hf Hl. unfold strip, lstrip, rstrip.
  rewrite (skip_space_graphic false (body +:+ ScorePipeline.nl))
    by (by apply first_char_append).
  rewrite reverse_append.
  change (reverse ScorePipeline.nl) with ScorePipeline.nl.
  unfold ScorePipeline.nl. rewrite append_cons, append_nil.
  cbn [skip_space]. change (is_space newline) with true. cbv iota.
  rewrite (skip_space_graphic true (reverse body)) by done.
  apply reverse_reverse.
Qed.

Lemma parse_printed E dumps (requests : list json) : forall acc,
  Forall (prints E dumps) requests ->
  parse_lines E (map dumps requests) acc = Ok (acc ++ requests).
Proof.
  induction requests as [|r rs IH]; intros acc HF.
  - simpl. by rewrite app_nil_r.
  - apply Forall_cons in HF as [(Hl & Hf & _ & _) HF]. cbn [map parse_lines].
    destruct (dumps r) as [|c d]; [done|]. cbn [String.eqb].
    unfold loads. rewrite Hl. cbn [mbind result_bind].
    rewrite IH by done. by rewrite <- app_assoc.
Qed.

(** X11. The results are read back in the format the requests are written in:
    where the output file of a completed batch holds one printed value per
    line, each followed by a newline, as [create_batch] writes the requests
    of a batch, [retrieve_results] returns these values, each once and in
    the order of the lines. *)
Theorem jsonl_round_trip (E : Env.t) (dumps : json -> string) (self : t)
    (batch_id : string) (b : batch) (file_id : string)
    (records : list json) :
  batches_retrieve E (tick self) batch_id = Ok b ->
  status b = "completed" ->
  output_file_id b = Some file_id -> file_id <> "" ->
  files_content E (S (tick self)) file_id = Ok (jsonl dumps records) ->
  Forall (prints E dumps) records ->
  (retrieve_results E self batch_id).1 = Ok records.
Proof.
  intros Hb Hs Ho Hne Hc HF. unfold retrieve_results.
  rewrite Hb, Hs. cbn [String.eqb Ascii.eqb Bool.eqb negb]. rewrite Ho.
  destruct file_id as [|c f]; [done|]. cbn [called tick]. rewrite Hc.
  cbn [fst].
  destruct (decide (records = [])) as [->|Hrec]; [done|].
  rewrite jsonl_join by done.
  assert (H1 : Forall (fun s => first_char graphic s = true)
                 (map dumps records)).
  { apply Forall_fmap. eapply Forall_impl; [exact HF|]. by intros r (_ & ? & _). }
  assert (H2 : Forall (fun s => last_char graphic s = true)
                 (map dumps records)).
  { apply Forall_fmap. eapply Forall_impl; [exact HF|].
    by intros r (_ & _ & ? & _). }
  assert (H3 : Forall (fun s => all_chars
                          (fun c => negb (Ascii.eqb c newline)) s = true)
                 (map dumps records)).
  { apply Forall_fmap. eapply Forall_impl; [exact HF|].
    by intros r (_ & _ & _ & ?). }
  assert (Hm : map dumps records <> []) by (by destruct records).
  rewrite strip_lines by (by apply join_first || by apply join_last).
  unfold ScorePipeline.nl. rewrite split_join by done.
  by rewrite parse_printed.
Qed.

End BatchFileFacts.

Module OutputDocsFacts.
Import Py PyFacts Env OutputManager OutputManagerFacts OutputDocs.

Lemma find_set_topic_ne topics topic n avg topics' other :
  other <> topic ->
  set_topic topics topic n avg = Some topics' ->
  List.find (fun td => String.eqb (topicName td) other) topics'
  = List.find (fun td => String.eqb (topicName td) other) topics.
Proof.
  intros Hne. revert topics'.
  induction topics as [|td rest IH]; intros topics'; simpl; [done|].
  destruct (String.eqb_spec (topicName td) topic) as [Et|Et].
  - intros [= <-]. simpl. rewrite Et.
    by rewrite (proj2 (String.eqb_neq topic other)).
  - destruct (set_topic rest topic n avg) as [rest'|]; [|done].
    intros [= <-]. simpl. by rewrite (IH rest').
Qed.

Lemma find_update_topics_ne topics topic n avg other :
  other <> topic ->
  List.find (fun td => String.eqb (topicName td) other)
    (update_topics topics topic n avg)
  = List.find (fun td => String.eqb (topicName td) other) topics.
Proof.
  intros Hne. unfold update_topics.
  destruct (set_topic topics topic n avg) as [topics'|] eqn:E.
  - by eapply find_set_topic_ne.
  - clear E. induction topics as [|td rest IH]; simpl.
    + by rewrite (proj2 (String.eqb_neq topic other)).
    + by destruct (String.eqb (topicName td) other).
Qed.

Lemma mk_stat_update_mk E self person_id topic n avg p' t' :
  (p', t') <> (person_id, topic) ->
  mk_stat (_update_mk_json E self person_id topic n avg) p' t'
  = mk_stat self p' t'.
Proof.
  intros Hne. unfold mk_stat, _update_mk_json.
  destruct (decide (p' = person_id)) as [->|Hp].
  - assert (Ht : t' <> topic) by congruence.
    destruct (mk_files self !! str person_id) as [data|] eqn:Hf; simpl.
    + rewrite lookup_insert_eq. simpl. rewrite ?Hf. simpl.
      by rewrite find_update_topics_ne.
    + destruct (get_person_metadata E person_id) as [md|]; simpl.
      * rewrite lookup_insert_eq. simpl. rewrite ?Hf. simpl.
        by rewrite (proj2 (String.eqb_neq topic t')).
      * by rewrite ?Hf.
  - assert (Hs : str person_id <> str p') by (by intros ?%str_inj).
    destruct (mk_files self !! str person_id) as [data|]; simpl.
    + by rewrite lookup_insert_ne.
    + destruct (get_person_metadata E person_id) as [md|]; simpl; [|done].
      by rewrite lookup_insert_ne.
Qed.

Lemma topic_stat_update_topic E self person_id topic n avg p' t' :
  (p', t') <> (person_id, topic) ->
  topic_stat (_update_topic_json E self topic person_id n avg) p' t'
  = topic_stat self p' t'.
Proof.
  intros Hne. unfold topic_stat, _update_topic_json. simpl.
  destruct (decide (t' = topic)) as [->|Ht].
  - rewrite lookup_insert_eq. simpl.
    assert (Hs : str person_id <> str p').
    { intros ?%str_inj. congruence. }
    rewrite lookup_insert_ne by done.
    by destruct (topic_files self !! topic).
  - by rewrite lookup_insert_ne.
Qed.

(** X12. An update for a pair changes the numbers of no other pair: what the
    MK's document and the topic's document hold for any other person or
    topic is what they held before. *)
Theorem update_aggregations_frame (E : Env.t) (self self' : t)
    (person_id : Z) (topic : string) (scored_speeches : list Scored.speech)
    (p' : Z) (t' : string) :
  update_aggregations E self person_id topic scored_speeches = Ok self' ->
  (p', t') <> (person_id, topic) ->
  mk_stat self' p' t' = mk_stat self p' t'
  /\ topic_stat self' p' t' = topic_stat self p' t'.
Proof.
  intros H Hne.
  destruct (decide (scored_speeches = [])) as [->|Hrows].
  - by injection H as <-.
  - rewrite update_aggregations_nonempty in H by done.
    destruct (mean E (map Scored.Rank scored_speeches)) as [avg|]; [|done].
    injection H as <-. split.
    + unfold mk_stat at 1. cbn [_update_topic_json mk_files].
      by apply mk_stat_update_mk.
    + rewrite topic_stat_update_topic by done.
      unfold topic_stat, _update_mk_json.
      destruct (mk_files self !! str person_id); simpl; [done|].
      by destruct (get_person_metadata E person_id).
Qed.

Lemma names_set_topic topics topic n avg topics' :
  set_topic topics topic n avg = Some topics' ->
  map topicName topics' = map topicName topics.
Proof.
  revert topics'. induction topics as [|td rest IH]; intros topics'; simpl.
  - done.
  - destruct (String.eqb (topicName td) topic).
    + by intros [= <-].
    + destruct (set_topic rest topic n avg) as [rest'|]; [|done].
      intros [= <-]. simpl. by rewrite (IH rest').
Qed.

Lemma set_topic_None topics topic n avg :
  set_topic topics topic n avg = None -> topic ∉ map topicName topics.
Proof.
  induction topics as [|td rest IH]; simpl.
  - intros _. apply not_elem_of_nil.
  - destruct (String.eqb_spec (topicName td) topic) as [Et|Et]; [done|].
    destruct (set_topic rest topic n avg); [done|].
    intros _. apply not_elem_of_cons. split; [congruence|by apply IH].
Qed.

Lemma names_update_topics topics topic n avg :
  map topicName (update_topics topics topic n avg)
  = if decide (topic ∈ map topicName topics) then map topicName topics
    else map topicName topics ++ [topic].
Proof.
  unfold update_topics.
  destruct (set_topic topics topic n avg) as [topics'|] eqn:E.
  - rewrite (names_set_topic _ _ _ _ _ E). case_decide as H; [done|].
    exfalso. apply H. clear H. revert topics' E.
    induction topics as [|td rest IH]; intros topics'; simpl; [done|].
    destruct (String.eqb_spec (topicName td) topic) as [Et|Et].
    + intros _. rewrite Et. apply list_elem_of_here.
    + destruct (set_topic rest topic n avg) as [rest'|]; [|done].
      intros _. apply list_elem_of_further. by eapply IH.
  - rewrite decide_False by (by apply set_topic_None in E).
    by rewrite map_app.
Qed.

(** X13. An MK document never comes to list a topic twice: if no document does
    before an update, none does after it, and the topics of the MK's
    document are the ones it had, with the updated topic added at the end
    where it was not among them. *)
Theorem update_keeps_topics_distinct (E : Env.t) (self self' : t)
    (person_id : Z) (topic : string) (scored_speeches : list Scored.speech) :
  distinct_topics self ->
  update_aggregations E self person_id topic scored_speeches = Ok self' ->
  distinct_topics self'
  /\ forall data data',
       mk_files self !! str person_id = Some data ->
       mk_files self' !! str person_id = Some data' ->
       map topicName (Topics data')
       = if decide (topic ∈ map topicName (Topics data)
                    \/ scored_speeches = [])
         then map topicName (Topics data)
         else map topicName (Topics data) ++ [topic].
Proof.
  intros Hd H.
  destruct (decide (scored_speeches = [])) as [->|Hrows].
  - injection H as <-. split; [done|]. intros data data' -> [= <-].
    rewrite decide_True; auto.
  - rewrite update_aggregations_nonempty in H by done.
    destruct (mean E (map Scored.Rank scored_speeches)) as [avg|]; [|done].
    injection H as <-. unfold distinct_topics.
    cbn [_update_topic_json mk_files]. unfold _update_mk_json.
    destruct (mk_files self !! str person_id) as [data|] eqn:Hf; simpl.
    + split.
      * apply map_Forall_insert_2; [|done]. simpl.
        rewrite names_update_topics. case_decide as Hin.
        -- by apply (Hd _ _ Hf).
        -- apply NoDup_app. split; [by apply (Hd _ _ Hf)|].
           split; [|apply NoDup_singleton].
           intros x Hx ->%list_elem_of_singleton. done.
      * intros ? data' [= <-]. rewrite lookup_insert_eq. intros [= <-]. simpl.
        rewrite names_update_topics.
        repeat case_decide; try done; tauto.
    + destruct (get_person_metadata E person_id) as [md|]; simpl.
      * split; [|done]. apply map_Forall_insert_2; [|done]. simpl.
        apply NoDup_singleton.
      * split; [done|]. by rewrite Hf.
Qed.

End OutputDocsFacts.

Module ScoreStageFacts.
Import Py PyFacts Env ScorePipeline ScorePipelineFacts ScoreStage.
Import JobTrackerFacts StringFacts.

(** What [_process_batch_results] does, by the three things it reads: the
    results, the pair in the ledger and the rows it collects. *)
Lemma process_batch_results_eq E self batch_id :
  _process_batch_results E self batch_id
  = let r := (BatchManager.retrieve_results E (batch_manager self) batch_id).1 in
    let bm := (BatchManager.retrieve_results E (batch_manager self) batch_id).2 in
    let self1 := with_batch_manager bm self in
    match r, pair_of bm batch_id with
    | Ok results, Some (person_id, topic) =>
        match collect E (intermediate_dir self) person_id topic results []
        with
        | Raise _ => self1
        | Ok scored_speeches =>
            {| batch_manager := BatchManager.called bm;
               job_tracker :=
                 JobTracker.mark_score_complete (now E (BatchManager.tick bm))
                   (job_tracker self) person_id topic [batch_id];
               output_manager :=
                 match OutputManager.update_aggregations E
                         (output_manager self) person_id topic
                         scored_speeches with
                 | Ok out => out
                 | Raise _ => output_manager self
                 end;
               intermediate_dir := intermediate_dir self;
               client_data :=
                 match scored_speeches with
                 | [] => client_data self
                 | _ :: _ =>
                     _save_scored_speeches (client_data self) person_id topic
                       scored_speeches
                 end |}
        end
    | _, _ => self1
    end.
Proof.
  unfold _process_batch_results, pair_of. cbv zeta.
  destruct (BatchManager.retrieve_results E (batch_manager self) batch_id)
    as [[results|e] bm]; cbn [fst snd]; [|done].
  destruct (default ∅ (BatchManager._batch_jobs bm !! batch_id)
              !! "person_id") as [p|]; [|done].
  destruct (default ∅ (BatchManager._batch_jobs bm !! batch_id) !! "topic")
    as [tp|]; [|done].
  destruct (meta_truthy (Some p)); cbn [andb]; [|done].
  destruct (meta_int p) as [person_id|];
    [|by destruct (meta_truthy (Some tp))].
  destruct (meta_truthy (Some tp)); cbn [negb];
    [|by rewrite orb_true_r].
  rewrite orb_false_r.
  destruct (person_id =? 0)%Z; [done|].
  change (intermediate_dir (with_batch_manager bm self))
    with (intermediate_dir self).
  by destruct (collect E (intermediate_dir self) person_id (meta_text tp)
                 results []).
Qed.

(** X14. A batch that cannot be processed changes nothing but the call counter:
    where the results cannot be retrieved, the ledger names no pair for the
    batch, or one result raises what the inner handler lets through (a
    custom id whose number cannot be read, for one), the tracker, the final
    artifacts, the documents and the intermediate artifacts are as before,
    so the pair is still pending for the score phase. *)
Theorem score_batch_unprocessed (E : Env.t) (self : t) (batch_id : string) :
  let r := (BatchManager.retrieve_results E (batch_manager self) batch_id).1 in
  let bm := (BatchManager.retrieve_results E (batch_manager self) batch_id).2 in
  (is_ok r = false
   \/ pair_of bm batch_id = None
   \/ exists results person_id topic,
        r = Ok results /\ pair_of bm batch_id = Some (person_id, topic)
        /\ is_ok (collect E (intermediate_dir self) person_id topic results [])
           = false) ->
  let self' := _process_batch_results E self batch_id in
  job_tracker self' = job_tracker self
  /\ client_data self' = client_data self
  /\ output_manager self' = output_manager self
  /\ intermediate_dir self' = intermediate_dir self.
Proof.
  cbv zeta. rewrite process_batch_results_eq. cbv zeta. intros H.
  destruct (BatchManager.retrieve_results E (batch_manager self) batch_id).1
    as [results|e]; [|done].
  destruct (pair_of _ batch_id) as [[p tp]|]; [|done].
  destruct H as [H|[H|(rs & p' & tp' & [= <-] & [= <- <-] & H)]]; try done.
  by destruct (collect E (intermediate_dir self) p tp results []).
Qed.

(** X15. A batch that can be processed marks its pair score_complete whatever
    it yields, and marks no other pair.  With no row (every result was
    skipped) nothing is written and the documents are not updated; with
    rows the final artifact of the pair is these rows, whatever it held
    before, and no other artifact is written.  The pair is marked before
    the aggregation: where the mean raises, the artifact is written, the
    pair is complete and the documents are as before. *)
Theorem score_batch_processed (E : Env.t) (self : t) (batch_id : string)
    (results : list json) (person_id : Z) (topic : string)
    (rows : list Scored.speech) :
  (BatchManager.retrieve_results E (batch_manager self) batch_id).1
  = Ok results ->
  pair_of (BatchManager.retrieve_results E (batch_manager self) batch_id).2
    batch_id = Some (person_id, topic) ->
  collect E (intermediate_dir self) person_id topic results [] = Ok rows ->
  let self' := _process_batch_results E self batch_id in
  JobTracker.state_of (job_tracker self') person_id topic = "score_complete"
  /\ (forall p tp, (p, tp) <> (person_id, topic) ->
        JobTracker.state_of (job_tracker self') p tp
        = JobTracker.state_of (job_tracker self) p tp)
  /\ (rows = [] ->
      client_data self' = client_data self
      /\ output_manager self' = output_manager self)
  /\ (rows <> [] ->
      client_data self' !! scored_csv_name person_id topic = Some rows)
  /\ (forall path, path <> scored_csv_name person_id topic ->
        client_data self' !! path = client_data self !! path)
  /\ (forall e, mean E (map Scored.Rank rows) = Raise e ->
        output_manager self' = output_manager self).
Proof.
  intros Hr Hp Hc. cbv zeta. rewrite process_batch_results_eq. cbv zeta.
  rewrite Hr, Hp, Hc. cbn [job_tracker client_data output_manager].
  split; [|split; [|split; [|split; [|split]]]].
  - rewrite state_of_mark_score. by rewrite decide_True.
  - intros p tp Hne. rewrite state_of_mark_score. by rewrite decide_False.
  - by intros ->.
  - intros Hne. destruct rows; [done|].
    unfold _save_scored_speeches. by rewrite lookup_insert_eq.
  - intros path Hne. destruct rows; [done|].
    unfold _save_scored_speeches. by rewrite lookup_insert_ne.
  - intros e He. destruct rows as [|row rows]; [done|].
    rewrite OutputManagerFacts.update_aggregations_nonempty by done.
    by rewrite He.
Qed.

(** *** The custom ids *)

Lemma filter_custom_id_parts speech_id :
  split "_" (FilterStage.custom_id speech_id) = ["speech"; str speech_id].
Proof.
  unfold FilterStage.custom_id.
  change (split "_" ("speech_" +:+ str speech_id))
    with ("speech" :: split "_" (str speech_id)).
  f_equal. generalize (str_numeral speech_id).
  generalize (str speech_id). intros s. induction s as [|c s IH]; [done|].
  simpl. intros [Hc Hs]%andb_prop.
  destruct (numeral_char_plain c Hc) as (_ & -> & _).
  by rewrite (IH Hs).
Qed.

(** X16. The custom id of a request names its speech: the number that the
    stages read back from the second part of the id is the id of the
    speech, for the score stage the third part is the reasoning flag, each
    id has the prefix its stage looks for, and two requests of a stage with
    the same custom id are for the same speech (and the same flag). *)
Theorem custom_ids_decode (speech_id : Z) (include_reasoning : bool) :
  (startswith (FilterStage.custom_id speech_id) "speech_" = true
   /\ (p1 ← part (split "_" (FilterStage.custom_id speech_id)) 1; int p1)
      = Ok speech_id
   /\ forall other, FilterStage.custom_id other
                    = FilterStage.custom_id speech_id -> other = speech_id)
  /\ startswith (custom_id speech_id include_reasoning) "score_" = true
  /\ (p1 ← part (split "_" (custom_id speech_id include_reasoning)) 1; int p1)
     = Ok speech_id
  /\ (p2 ← part (split "_" (custom_id speech_id include_reasoning)) 2; int p2)
     = Ok (int_of_bool include_reasoning)
  /\ forall other flag,
       custom_id other flag = custom_id speech_id include_reasoning ->
       other = speech_id /\ flag = include_reasoning.
Proof.
  split; [split; [|split]|split; [|split; [|split]]].
  - apply prefix_append.
  - rewrite filter_custom_id_parts. simpl. apply int_str.
  - intros other H. unfold FilterStage.custom_id in H.
    apply append_inj_l in H. by apply str_inj.
  - apply custom_id_prefix.
  - rewrite custom_id_parts. simpl. apply int_str.
  - rewrite custom_id_parts. simpl. apply int_str.
  - intros other flag H. unfold custom_id in H. apply append_inj_l in H.
    change ("_" +:+ ?s) with (String "_" s) in H.
    apply app_underscore_inj in H as [H1 H2]; try apply str_numeral.
    split; [by apply str_inj|].
    apply str_inj in H2. by destruct flag, include_reasoning.
Qed.

(** *** The text of a speech in the intermediate artifact *)

Lemma universal_newlines_plain s :
  all_chars (fun c => negb (Ascii.eqb c CR)) s = true ->
  universal_newlines s = s.
Proof.
  induction s as [|c s IH]; [done|]. cbn [all_chars].
  intros [Hc Hs]%andb_true_iff. cbn [universal_newlines].
  apply negb_true_iff in Hc. rewrite Hc. by rewrite IH.
Qed.

Lemma universal_newlines_str n : universal_newlines (str n) = str n.
Proof.
  apply universal_newlines_plain.
  eapply all_chars_impl; [|apply str_numeral].
  intros c Hc. apply negb_true_iff. apply Ascii.eqb_neq. intros ->.
  by vm_compute in Hc.
Qed.

Lemma read_cell_fits written :
  FilterPipeline.read_cell written
  = if FilterPipeline.fits written then Ok (universal_newlines written)
    else Raise (CsvError FilterPipeline.field_limit_msg).
Proof.
  unfold FilterPipeline.read_cell, FilterPipeline.fits. cbv zeta.
  destruct (Z.ltb_spec FilterPipeline.field_limit
              (len (universal_newlines written))),
    (Z.leb_spec (len (universal_newlines written))
       FilterPipeline.field_limit); try done; lia.
Qed.

(** A row is read with its line ends as LF, or not at all. *)
Lemma read_row_readable E r :
  FilterPipeline.read_row E r
  = if FilterPipeline.readable E r
    then Ok (str (FilterPipeline.Id r),
             universal_newlines (FilterPipeline.Text r))
    else Raise (CsvError FilterPipeline.field_limit_msg).
Proof.
  unfold FilterPipeline.read_row, FilterPipeline.readable.
  rewrite !read_cell_fits, universal_newlines_str.
  destruct (FilterPipeline.fits (str (FilterPipeline.Id r))); [|done].
  destruct (FilterPipeline.fits (FilterPipeline.Text r)); [|done].
  by destruct (FilterPipeline.fits _).
Qed.

(** [list(reader)] *)
Lemma list_of_DictReader E rows :
  list_of (FilterPipeline.DictReader E rows)
  = if forallb (FilterPipeline.readable E) rows
    then Ok (map (fun r => (str (FilterPipeline.Id r),
                           universal_newlines (FilterPipeline.Text r)))
               rows)
    else Raise (CsvError FilterPipeline.field_limit_msg).
Proof.
  induction rows as [|r rows IH]; [done|].
  cbn [FilterPipeline.DictReader map list_of forallb].
  fold (FilterPipeline.DictReader E rows).
  rewrite read_row_readable, IH.
  destruct (FilterPipeline.readable E r); [|done]. cbn [andb].
  by destruct (forallb _ rows).
Qed.

Lemma find_text_rows E rows speech_id :
  find_text (FilterPipeline.DictReader E rows) speech_id
  = match List.find (fun r => negb (FilterPipeline.readable E r)
                              || (FilterPipeline.Id r =? speech_id)%Z)
            rows with
    | None => Ok ""
    | Some r =>
        if FilterPipeline.readable E r
        then Ok (universal_newlines (FilterPipeline.Text r))
        else Raise (CsvError FilterPipeline.field_limit_msg)
    end.
Proof.
  induction rows as [|r rows IH]; [done|].
  cbn [FilterPipeline.DictReader map find_text List.find].
  fold (FilterPipeline.DictReader E rows).
  rewrite read_row_readable.
  destruct (FilterPipeline.readable E r) eqn:Hr;
    cbn [negb orb mbind result_bind fst snd]; [|by rewrite Hr].
  rewrite int_str. cbn [mbind result_bind].
  destruct (FilterPipeline.Id r =? speech_id)%Z; [by rewrite Hr|exact IH].
Qed.

(** X17. Looking a speech up in an intermediate artifact: an artifact that
    is missing raises.  Else the rows are read in order until one cannot be
    read (a cell of more characters than the limit of the reader) or is a
    row of the speech, whose Id reads back as the number that was written:
    the first such row decides.  Where it cannot be read the call raises
    the reader's error; where it is read the call returns its text with
    the line ends CR LF and CR read as LF, so of the rows of a speech that
    was appended more than once the first counts, and a row after it is
    never read.  Where there is no such row the call returns the empty
    string. *)
Theorem speech_text_lookup (E : Env.t)
    (dir : gmap string (list FilterPipeline.filtered_speech))
    (csv_path : string) (speech_id : Z) :
  _get_speech_text_from_csv E dir csv_path speech_id
  = match dir !! csv_path with
    | None => Raise FileNotFoundError
    | Some rows =>
        match List.find
                (fun r => negb (FilterPipeline.readable E r)
                          || (FilterPipeline.Id r =? speech_id)%Z) rows with
        | None => Ok ""
        | Some r =>
            if FilterPipeline.readable E r
            then Ok (universal_newlines (FilterPipeline.Text r))
            else Raise (CsvError FilterPipeline.field_limit_msg)
        end
    end.
Proof.
  unfold _get_speech_text_from_csv.
  destruct (dir !! csv_path) as [rows|]; [|done]. apply find_text_rows.
Qed.

End ScoreStageFacts.

Module SubmitFacts.
Import Py PyFacts PyList StringFacts Env BatchManager BatchFile.

Lemma slices_concat {A} (k : nat) : forall (m : nat) (l : list A),
  length l <= m * k ->
  concat (map (fun j => slice l (j * k) k) (seq 0 m)) = l.
Proof.
  induction m as [|m IH]; intros l Hl.
  - simpl in *. by destruct l; [|simpl in Hl; lia].
  - cbn [seq map concat]. rewrite <- seq_shift, map_map.
    transitivity (take k l ++ drop k l); [|apply take_drop].
    f_equal.
    etransitivity; [|apply (IH (drop k l))].
    + f_equal. apply map_ext. intros j. unfold slice.
      by rewrite drop_drop.
    + rewrite length_drop. simpl in Hl. lia.
Qed.

Lemma ceil_bound n k : 0 < k -> n <= (n + k - 1) / k * k.
Proof.
  intros Hk. pose proof (Nat.div_mod_eq (n + k - 1) k) as E.
  pose proof (Nat.mod_upper_bound (n + k - 1) k) as B. nia.
Qed.

Lemma ceil_last n k j : 0 < k -> j < (n + k - 1) / k -> j * k < n.
Proof.
  intros Hk Hj. pose proof (Nat.div_mod_eq (n + k - 1) k) as E.
  pose proof (Nat.mod_upper_bound (n + k - 1) k) as B. nia.
Qed.

(** X18. The loop [for i in range(0, len(requests), batch_size)] with the slice
    [requests[i : i + batch_size]].  For a positive batch size the slices
    are the list cut into pieces: in order they make up the list, none is
    empty, none is longer than the batch size, and the slice number [j],
    from 0, is the one whose [i // batch_size] is [j].  There are no slices
    for a negative batch size, whatever the list holds, and the batch size
    0 raises. *)
Theorem range_slices {A : Type} (l : list A) (batch_size : Z) :
  (batch_size = 0%Z ->
   range (length l) batch_size
   = Raise (ValueError "range() arg 3 must not be zero"))
  /\ ((batch_size < 0)%Z -> range (length l) batch_size = Ok [])
  /\ ((0 < batch_size)%Z ->
      exists starts,
        range (length l) batch_size = Ok starts
        /\ concat (map (fun i => slice l i (Z.to_nat batch_size)) starts) = l
        /\ Forall (fun i => slice l i (Z.to_nat batch_size) <> []
                            /\ (Z.of_nat (length (slice l i
                                   (Z.to_nat batch_size))) <= batch_size)%Z)
             starts
        /\ forall j i, starts !! j = Some i ->
             (Z.of_nat i / batch_size)%Z = Z.of_nat j).
Proof.
  unfold range. split; [by intros ->|]. split.
  - intros H. destruct (Z.eqb_spec batch_size 0); [lia|].
    by destruct (Z.ltb_spec batch_size 0); [|lia].
  - intros H. destruct (Z.eqb_spec batch_size 0); [lia|].
    destruct (Z.ltb_spec batch_size 0); [lia|].
    set (k := Z.to_nat batch_size). assert (Hk : 0 < k) by lia.
    eexists. split; [reflexivity|]. split; [|split].
    + rewrite map_map. apply slices_concat. by apply ceil_bound.
    + apply Forall_forall. intros i (j & -> & Hj)%list_elem_of_fmap.
      apply list_elem_of_In, in_seq in Hj.
      pose proof (ceil_last (length l) k j Hk ltac:(lia)) as Hlt.
      unfold slice. split.
      * intros E. apply (f_equal length) in E.
        rewrite length_take, length_drop in E. simpl in E. lia.
      * rewrite length_take. lia.
    + intros j i Hi. rewrite list_lookup_fmap in Hi.
      destruct (seq 0 _ !! j) as [j'|] eqn:Hj; [|done].
      injection Hi as <-. apply lookup_seq in Hj as [-> _]. simpl.
      rewrite Nat2Z.inj_mul. replace (Z.of_nat k) with batch_size by lia.
      apply Z.div_mul. lia.
Qed.

(** *** The loop that submits the slices *)

Lemma create_batch_cases E self requests metadata :
  (exists e self',
      create_batch E self requests metadata = (Raise e, self')
      /\ _batch_jobs self' = _batch_jobs self
      /\ batch_jobs_file self' = batch_jobs_file self)
  \/ (exists batch_id self',
        create_batch E self requests metadata = (Ok batch_id, self')
        /\ submitted_as E requests metadata batch_id
        /\ (exists ts n f,
              _batch_jobs self'
              = <[batch_id := job_entry metadata ts n f]> (_batch_jobs self))
        /\ saved self').
Proof.
  unfold create_batch, submitted_as.
  destruct (files_create E (tick self) requests) as [file_id|e] eqn:Hf;
    [|left; by eexists _, _].
  destruct (batches_create E (tick (called self)) file_id metadata)
    as [batch_id|e] eqn:Hb; [|left; by eexists _, _].
  right. eexists _, _. split; [reflexivity|]. split; [by eauto|].
  split; [|done]. by eexists _, _, _.
Qed.

(** What the loop has done when it ends, with a result or an exception:
    the batches it created, in order, one for each slice it came to. *)
Lemma submit_spec E requests batch_size metadata : forall starts self acc,
  exists created,
    Forall2 (fun batch_id i =>
               submitted_as E (slice requests i (Z.to_nat batch_size))
                 (metadata (Z.of_nat i / batch_size)%Z) batch_id)
      created (take (length created) starts)
    /\ (let '(r, self') :=
          FilterStage.submit E self requests batch_size metadata starts acc in
        (forall batch_id, batch_id ∈ created ->
           exists k ts n f,
             _batch_jobs self' !! batch_id
             = Some (job_entry (metadata k) ts n f))
        /\ (forall id, id ∉ created ->
              _batch_jobs self' !! id = _batch_jobs self !! id)
        /\ (saved self -> saved self')
        /\ match r with
           | Ok batch_ids =>
               batch_ids = acc ++ created /\ length created = length starts
           | Raise _ => length created < length starts
           end).
Proof.
  induction starts as [|i starts IH]; intros self acc.
  - exists []. split; [constructor|]. simpl. split; [|split; [done|]].
    + by intros ? ?%elem_of_nil.
    + split; [done|]. by rewrite app_nil_r.
  - cbn [FilterStage.submit].
    destruct (create_batch_cases E self
                (slice requests i (Z.to_nat batch_size))
                (metadata (Z.of_nat i / batch_size)%Z))
      as [(e & self1 & -> & Hj & Hf)
         |(batch_id & self1 & -> & Hs & (ts & n & f & Hj) & Hsaved)].
    + exists []. split; [constructor|]. split; [|split; [|split]].
      * by intros ? ?%elem_of_nil.
      * intros id _. by rewrite Hj.
      * unfold saved. by rewrite Hj, Hf.
      * simpl. lia.
    + destruct (IH self1 (acc ++ [batch_id])) as (created & HF & Hrest).
      exists (batch_id :: created). split; [by constructor|].
      destruct (FilterStage.submit E self1 requests batch_size metadata
                  starts (acc ++ [batch_id])) as [r self'].
      destruct Hrest as (Hin & Hout & Hsv & Hr).
      split; [|split; [|split]].
      * intros id Hid.
        destruct (decide (id ∈ created)) as [Hc|Hc]; [by apply Hin|].
        apply elem_of_cons in Hid as [->|Hid]; [|done].
        rewrite (Hout batch_id Hc), Hj, lookup_insert_eq. eauto.
      * intros id Hid. apply not_elem_of_cons in Hid as [Hne Hid].
        rewrite (Hout id Hid), Hj. by rewrite lookup_insert_ne.
      * intros _. by apply Hsv.
      * destruct r as [batch_ids|e].
        -- destruct Hr as [-> Hl]. rewrite <- app_assoc. simpl.
           by rewrite Hl.
        -- simpl. lia.
Qed.

End SubmitFacts.

Module StageFacts.
Import Py PyFacts PyList StringFacts Env BatchManager BatchFile.
Import PollFacts SubmitFacts.

Lemma str_nonempty z : str z <> "".
Proof.
  destruct z as [|p|p]; [done| |by rewrite str_neg].
  rewrite str_pos. apply string_of_uint_nonempty.
  intros H. pose proof (of_uint_pos p) as E. rewrite H in E. done.
Qed.

Lemma range_starts {A} (l : list A) batch_size starts :
  range (length l) batch_size = Ok starts ->
  concat (map (fun i => slice l i (Z.to_nat batch_size)) starts) = l
  \/ ((batch_size < 0)%Z /\ starts = []).
Proof.
  unfold range. destruct (Z.eqb_spec batch_size 0); [done|].
  destruct (Z.ltb_spec batch_size 0); [intros [= <-]; by right|].
  intros [= <-]. left. rewrite map_map. apply slices_concat.
  apply ceil_bound. lia.
Qed.

(** *** The filter stage *)

(** X19. [_process_person]: a person with no speech, a prompt that is missing
    and a batch size of 0 end the call before anything is submitted.  Else
    the requests are those of the person's speeches that are not blank, in
    order, and when the call ends (with the ids or with an exception of
    the client) it has created one batch for each slice it came to, with
    the person, the topics and the index of the slice as metadata; for a
    positive batch size the slices make up the requests.  Every batch
    created is in the ledger with that metadata, and the ledger that was
    saved before is saved after. *)
Theorem process_person_submits (C : Config.t) (D : Database.t) (E : Env.t)
    (self : t) (person_id : Z) (topics : list string) :
  let speeches := Database.get_all_speeches_by_person_id D person_id in
  let batch_size := Config.BATCH_SIZE C in
  let r := (FilterStage._process_person C D E self person_id topics).1 in
  let self' := (FilterStage._process_person C D E self person_id topics).2 in
  (speeches = [] -> r = Ok [] /\ self' = self)
  /\ (speeches <> [] ->
      match Config.get_filter_prompt C topics with
      | Raise e => r = Raise e /\ self' = self
      | Ok filter_prompt =>
          let requests :=
            map (fun speech =>
                   FilterStage._build_filter_request speech topics
                     filter_prompt)
              (List.filter FilterStage.nonblank speeches) in
          match range (length requests) batch_size with
          | Raise e => r = Raise e /\ self' = self
          | Ok starts =>
              ((0 < batch_size)%Z ->
               concat (map (fun i => slice requests i (Z.to_nat batch_size))
                         starts) = requests)
              /\ exists created,
                  Forall2
                    (fun batch_id i =>
                       submitted_as E
                         (slice requests i (Z.to_nat batch_size))
                         (FilterStage.filter_metadata person_id topics
                            (Z.of_nat i / batch_size)%Z) batch_id)
                    created (take (length created) starts)
                  /\ (forall batch_id, batch_id ∈ created ->
                        exists k ts n f,
                          _batch_jobs self' !! batch_id
                          = Some (job_entry
                                    (FilterStage.filter_metadata person_id
                                       topics k) ts n f))
                  /\ (saved self -> saved self')
                  /\ match r with
                     | Ok batch_ids =>
                         batch_ids = created
                         /\ length created = length starts
                     | Raise _ => length created < length starts
                     end
          end
      end).
Proof.
  cbv zeta. unfold FilterStage._process_person.
  destruct (Database.get_all_speeches_by_person_id D person_id)
    as [|speech speeches] eqn:Hsp; [by split|].
  split; [done|]. intros _.
  destruct (Config.get_filter_prompt C topics) as [filter_prompt|e];
    [|done].
  set (requests := map _ (List.filter FilterStage.nonblank (speech :: speeches))).
  destruct (range (length requests) (Config.BATCH_SIZE C))
    as [starts|e] eqn:Hr; [|done].
  split.
  - intros Hpos. by destruct (range_starts _ _ _ Hr) as [?|[? _]]; [|lia].
  - destruct (submit_spec E requests (Config.BATCH_SIZE C)
                (FilterStage.filter_metadata person_id topics) starts self [])
      as (created & HF & Hrest).
    exists created. split; [done|].
    destruct (FilterStage.submit E self requests (Config.BATCH_SIZE C)
                (FilterStage.filter_metadata person_id topics) starts [])
      as [r self']. cbn [fst snd].
    destruct Hrest as (Hin & _ & Hsv & Hres). by repeat split.
Qed.

Lemma process_person_jobs C D E self person_id topics batch_ids self1 :
  FilterStage._process_person C D E self person_id topics
  = (Ok batch_ids, self1) ->
  forall batch_id, batch_id ∈ batch_ids ->
    exists k ts n f,
      _batch_jobs self1 !! batch_id
      = Some (job_entry (FilterStage.filter_metadata person_id topics k)
                ts n f).
Proof.
  unfold FilterStage._process_person.
  destruct (Database.get_all_speeches_by_person_id D person_id)
    as [|speech speeches].
  { intros [= <- <-] id Hin. by apply elem_of_nil in Hin. }
  destruct (Config.get_filter_prompt C topics) as [filter_prompt|e];
    [|done].
  set (requests := map _ (List.filter FilterStage.nonblank (speech :: speeches))).
  destruct (range (length requests) (Config.BATCH_SIZE C))
    as [starts|e]; [|done].
  destruct (submit_spec E requests (Config.BATCH_SIZE C)
              (FilterStage.filter_metadata person_id topics) starts self [])
    as (created & _ & Hrest).
  intros Hs. rewrite Hs in Hrest.
  by destruct Hrest as (Hin & _ & _ & -> & _).
Qed.

Lemma filter_job_topics person_id topics k ts n f :
  job_entry (FilterStage.filter_metadata person_id topics k) ts n f
    !! "person_id" = Some (MStr (str person_id))
  /\ job_entry (FilterStage.filter_metadata person_id topics k) ts n f
       !! "topics" = Some (MStr (join "," topics)).
Proof. by split. Qed.

Lemma join_nonempty sep (l : list string) :
  l <> [] -> Forall (fun s => s <> "") l -> join sep l <> "".
Proof.
  intros Hne HF. destruct HF as [|s l Hs HF]; [done|]. cbn [join].
  destruct l; [done|]. destruct s; [done|]. by rewrite append_cons.
Qed.

Lemma topics_of_kept B m m' batch_id :
  ledger_kept B m m' ->
  FilterStage.topics_of m' batch_id = FilterStage.topics_of m batch_id.
Proof.
  intros (_ & Hf & _). specialize (Hf batch_id).
  unfold FilterStage.topics_of. cbv zeta.
  assert (Hk : forall k, k <> "status" -> k <> "completed_at" ->
            default ∅ (_batch_jobs m' !! batch_id) !! k
            = default ∅ (_batch_jobs m !! batch_id) !! k).
  { intros k H1 H2.
    destruct (_batch_jobs m' !! batch_id) as [j'|],
      (_batch_jobs m !! batch_id) as [j|]; try done.
    simpl in *. injection Hf as Hf.
    apply (f_equal (fun x => x !! k)) in Hf. unfold submitted_fields in Hf.
    by rewrite !lookup_delete_ne in Hf. }
  by rewrite !Hk.
Qed.

(** X20. The metadata of the filter stage is read back as it was written: a
    batch that [_process_person] returned for a person and topics names,
    after any polling, that person and these topics to
    [_process_batch_results], provided the person's id is not 0 and the
    topics are not empty and hold no comma; the join with commas is then
    undone by the split. *)
Theorem filter_metadata_round_trip (C : Config.t) (D : Database.t)
    (E : Env.t) (self : t) (person_id : Z) (topics : list string)
    (batch_ids polled : list string) (self1 self2 : t) (interval : Z)
    (fuel : nat) (done : gmap string string) :
  FilterStage._process_person C D E self person_id topics
  = (Ok batch_ids, self1) ->
  poll_batches fuel E self1 polled interval = Some (Ok (done, self2)) ->
  person_id <> 0%Z ->
  topics <> [] ->
  Forall (fun topic => topic <> "" /\ FilterStage.comma_free topic = true)
    topics ->
  split "," (join "," topics) = topics
  /\ forall batch_id, batch_id ∈ batch_ids ->
       FilterStage.topics_of self1 batch_id = Some (person_id, topics)
       /\ FilterStage.topics_of self2 batch_id = Some (person_id, topics).
Proof.
  intros Hp Hpoll Hid Hne HF.
  assert (Hsplit : split "," (join "," topics) = topics).
  { apply split_join; [done|]. eapply Forall_impl; [exact HF|].
    by intros t [_ ?]. }
  split; [done|]. intros batch_id Hin.
  assert (H1 : FilterStage.topics_of self1 batch_id
               = Some (person_id, topics)).
  { pose proof (process_person_jobs C D E self person_id topics batch_ids
                  self1 Hp) as Hjob.
    destruct (Hjob batch_id Hin) as (k & ts & n & f & Hj).
    unfold FilterStage.topics_of. cbv zeta. rewrite Hj.
    cbn [default from_option id].
    destruct (filter_job_topics person_id topics k ts n f) as [-> ->].
    cbn [ScorePipeline.meta_truthy ScorePipeline.meta_int].
    rewrite (proj2 (String.eqb_neq _ _) (str_nonempty person_id)).
    assert (Hj' : join "," topics <> "").
    { apply join_nonempty; [done|]. eapply Forall_impl; [exact HF|].
      by intros t [? _]. }
    rewrite (proj2 (String.eqb_neq _ _) Hj'). cbn [negb andb].
    rewrite int_str. rewrite (proj2 (Z.eqb_neq _ _) Hid).
    by rewrite Hsplit. }
  split; [done|]. rewrite <- H1.
  apply (topics_of_kept polled).
  apply (poll_loop_ledger E interval polled fuel (S754_zero false)
           {| completed := ∅; remaining := polled; mgr := self1 |}
           done self2); [by intros id|exact Hpoll].
Qed.

End StageFacts.

Module ScoreSubmitFacts.
Import Py PyFacts PyList StringFacts Env BatchManager BatchFile.
Import PollFacts SubmitFacts StageFacts ScoreStage.

Lemma build_requests_spec random reasoning_rate topic scoring_prompt
    (rows : list FilterPipeline.filtered_speech) : forall draws requests,
  build_requests random draws reasoning_rate topic scoring_prompt
    (map (fun r => (str (FilterPipeline.Id r),
                    universal_newlines (FilterPipeline.Text r))) rows)
    requests
  = (Ok (requests
         ++ imap (fun k row =>
                    ScorePipeline._build_scoring_request
                      (FilterPipeline.Id row)
                      (universal_newlines (FilterPipeline.Text row)) topic
                      scoring_prompt
                      (SFltb (random (draws + k)) reasoning_rate)) rows),
     draws + length rows).
Proof.
  induction rows as [|row rows IH]; intros draws requests.
  - simpl. by rewrite app_nil_r, Nat.add_0_r.
  - cbn [map build_requests]. rewrite int_str. rewrite IH.
    cbn [imap length]. rewrite <- app_assoc. cbn [app].
    rewrite Nat.add_0_r.
    replace (S draws + length rows) with (draws + S (length rows)) by lia.
    do 4 f_equal.
    apply imap_ext. intros k row' _. cbn [compose].
    by replace (S draws + k) with (draws + S k) by lia.
Qed.

(** X21. [_process_pair]: an artifact that is missing or has no row, an
    artifact with a row that cannot be read (a cell of more characters than
    the limit of the reader, which raises the reader's error) and a prompt
    that is missing end the call before anything is drawn or submitted.
    Else there is one request for each row of the artifact, in order, for
    the speech of the row and its text with the line ends CR LF and CR read
    as LF (a row that is there twice is requested twice), with reasoning
    asked for where the draw of the row is below the rate; one draw is made
    per row.  When the call ends it has created one batch for each slice it
    came to, with the pair and the index of the slice as metadata, and
    every batch created is in the ledger with that metadata. *)
Theorem process_pair_submits (C : Config.t) (E : Env.t)
    (random : nat -> spec_float) (draws : nat)
    (dir : gmap string (list FilterPipeline.filtered_speech)) (self : t)
    (person_id : Z) (topic : string) (reasoning_rate : spec_float) :
  let batch_size := Config.BATCH_SIZE C in
  let out :=
    _process_pair C E random draws dir self person_id topic reasoning_rate in
  let r := out.1.1 in
  let self' := out.1.2 in
  let draws' := out.2 in
  match dir !! FilterPipeline.csv_name person_id topic with
  | None => r = Ok [] /\ self' = self /\ draws' = draws
  | Some rows =>
      if negb (forallb (FilterPipeline.readable E) rows)
      then r = Raise (CsvError FilterPipeline.field_limit_msg)
           /\ self' = self /\ draws' = draws
      else
      (rows = [] -> r = Ok [] /\ self' = self /\ draws' = draws)
      /\ (rows <> [] ->
          match Config.load_scoring_prompt C topic with
          | Raise e => r = Raise e /\ self' = self /\ draws' = draws
          | Ok scoring_prompt =>
              let requests :=
                imap (fun k row =>
                        ScorePipeline._build_scoring_request
                          (FilterPipeline.Id row)
                          (universal_newlines (FilterPipeline.Text row))
                          topic scoring_prompt
                          (SFltb (random (draws + k)) reasoning_rate))
                  rows in
              draws' = draws + length rows
              /\ match range (length requests) batch_size with
                 | Raise e => r = Raise e /\ self' = self
                 | Ok starts =>
                     ((0 < batch_size)%Z ->
                      concat (map (fun i => slice requests i
                                              (Z.to_nat batch_size)) starts)
                      = requests)
                     /\ exists created,
                         Forall2
                           (fun batch_id i =>
                              submitted_as E
                                (slice requests i (Z.to_nat batch_size))
                                (score_metadata person_id topic
                                   (Z.of_nat i / batch_size)%Z) batch_id)
                           created (take (length created) starts)
                         /\ (forall batch_id, batch_id ∈ created ->
                               exists k ts n f,
                                 _batch_jobs self' !! batch_id
                                 = Some (job_entry
                                           (score_metadata person_id topic k)
                                           ts n f))
                         /\ (saved self -> saved self')
                         /\ match r with
                            | Ok batch_ids =>
                                batch_ids = created
                                /\ length created = length starts
                            | Raise _ => length created < length starts
                            end
                 end
          end)
  end.
Proof.
  cbv zeta. unfold _process_pair.
  destruct (dir !! FilterPipeline.csv_name person_id topic) as [rows|];
    [|done].
  rewrite ScoreStageFacts.list_of_DictReader.
  destruct (forallb (FilterPipeline.readable E) rows); [|done]. cbn [negb].
  destruct rows as [|row rows]; [by split|].
  split; [done|]. intros _.
  set (read := fun r => (str (FilterPipeline.Id r),
                         universal_newlines (FilterPipeline.Text r))).
  change (map read (row :: rows)) with (read row :: map read rows) at 1.
  cbv iota beta.
  change (read row :: map read rows) with (map read (row :: rows)).
  destruct (Config.load_scoring_prompt C topic) as [scoring_prompt|e];
    [|done].
  unfold read. rewrite build_requests_spec. cbn [app].
  set (requests := imap _ (row :: rows)).
  destruct (range (length requests) (Config.BATCH_SIZE C))
    as [starts|e] eqn:Hr; [|done].
  destruct (submit_spec E requests (Config.BATCH_SIZE C)
              (score_metadata person_id topic) starts self [])
    as (created & HF & Hrest).
  destruct (FilterStage.submit E self requests (Config.BATCH_SIZE C)
              (score_metadata person_id topic) starts [])
    as [r self']. cbn [fst snd].
  split; [done|]. split.
  - intros Hpos. by destruct (range_starts _ _ _ Hr) as [?|[? _]]; [|lia].
  - exists created. split; [done|].
    destruct Hrest as (Hin & _ & Hsv & Hres). by repeat split.
Qed.

Lemma process_pair_jobs C E random draws dir self person_id topic
    reasoning_rate batch_ids self1 draws1 :
  _process_pair C E random draws dir self person_id topic reasoning_rate
  = (Ok batch_ids, self1, draws1) ->
  forall batch_id, batch_id ∈ batch_ids ->
    exists k ts n f,
      _batch_jobs self1 !! batch_id
      = Some (job_entry (score_metadata person_id topic k) ts n f).
Proof.
  unfold _process_pair.
  destruct (dir !! FilterPipeline.csv_name person_id topic) as [rows|].
  2: { intros [= <- <- <-] id Hin. by apply elem_of_nil in Hin. }
  rewrite ScoreStageFacts.list_of_DictReader.
  destruct (forallb (FilterPipeline.readable E) rows); [|done].
  destruct rows as [|row rows].
  { intros [= <- <- <-] id Hin. by apply elem_of_nil in Hin. }
  set (read := fun r => (str (FilterPipeline.Id r),
                         universal_newlines (FilterPipeline.Text r))).
  change (map read (row :: rows)) with (read row :: map read rows) at 1.
  cbv iota beta.
  change (read row :: map read rows) with (map read (row :: rows)).
  destruct (Config.load_scoring_prompt C topic) as [scoring_prompt|e];
    [|done].
  unfold read. rewrite build_requests_spec. cbn [app].
  set (requests := imap _ (row :: rows)).
  destruct (range (length requests) (Config.BATCH_SIZE C))
    as [starts|e]; [|done].
  destruct (submit_spec E requests (Config.BATCH_SIZE C)
              (score_metadata person_id topic) starts self [])
    as (created & _ & Hrest).
  destruct (FilterStage.submit E self requests (Config.BATCH_SIZE C)
              (score_metadata person_id topic) starts [])
    as [r self'].
  intros [= -> -> <-].
  by destruct Hrest as (Hin & _ & _ & -> & _).
Qed.

Lemma pair_of_kept B m m' batch_id :
  ledger_kept B m m' -> pair_of m' batch_id = pair_of m batch_id.
Proof.
  intros (_ & Hf & _). specialize (Hf batch_id).
  unfold pair_of. cbv zeta.
  assert (Hk : forall k, k <> "status" -> k <> "completed_at" ->
            default ∅ (_batch_jobs m' !! batch_id) !! k
            = default ∅ (_batch_jobs m !! batch_id) !! k).
  { intros k H1 H2.
    destruct (_batch_jobs m' !! batch_id) as [j'|],
      (_batch_jobs m !! batch_id) as [j|]; try done.
    simpl in *. injection Hf as Hf.
    apply (f_equal (fun x => x !! k)) in Hf. unfold submitted_fields in Hf.
    by rewrite !lookup_delete_ne in Hf. }
  by rewrite !Hk.
Qed.

(** X22. The metadata of the score stage is read back as it was written: a
    batch that [_process_pair] returned for a pair names that pair to
    [_process_batch_results], before and after any polling, provided the
    person's id is not 0 and the topic is not the empty string. *)
Theorem score_metadata_round_trip (C : Config.t) (E : Env.t)
    (random : nat -> spec_float) (draws draws1 : nat)
    (dir : gmap string (list FilterPipeline.filtered_speech))
    (self self1 self2 : t) (person_id : Z) (topic : string)
    (reasoning_rate : spec_float) (batch_ids polled : list string)
    (interval : Z) (fuel : nat) (done : gmap string string) :
  _process_pair C E random draws dir self person_id topic reasoning_rate
  = (Ok batch_ids, self1, draws1) ->
  poll_batches fuel E self1 polled interval = Some (Ok (done, self2)) ->
  person_id <> 0%Z -> topic <> "" ->
  forall batch_id, batch_id ∈ batch_ids ->
    pair_of self1 batch_id = Some (person_id, topic)
    /\ pair_of self2 batch_id = Some (person_id, topic).
Proof.
  intros Hp Hpoll Hid Htp batch_id Hin.
  assert (H1 : pair_of self1 batch_id = Some (person_id, topic)).
  { destruct (process_pair_jobs _ _ _ _ _ _ _ _ _ _ _ _ Hp batch_id Hin)
      as (k & ts & n & f & Hj).
    unfold pair_of. cbv zeta. rewrite Hj. cbn [default from_option id].
    change (job_entry (score_metadata person_id topic k) ts n f
              !! "person_id") with (Some (MStr (str person_id))).
    change (job_entry (score_metadata person_id topic k) ts n f !! "topic")
      with (Some (MStr topic)).
    cbn [ScorePipeline.meta_truthy ScorePipeline.meta_int
           ScorePipeline.meta_text].
    rewrite (proj2 (String.eqb_neq _ _) (str_nonempty person_id)).
    rewrite (proj2 (String.eqb_neq _ _) Htp). cbn [negb andb].
    rewrite int_str. by rewrite (proj2 (Z.eqb_neq _ _) Hid). }
  split; [done|]. rewrite <- H1.
  apply (pair_of_kept polled).
  apply (poll_loop_ledger E interval polled fuel (S754_zero false)
           {| completed := ∅; remaining := polled; mgr := self1 |}
           done self2); [by intros id|exact Hpoll].
Qed.

End ScoreSubmitFacts.

Module FilterStageFacts.
Import Py PyFacts PyList StringFacts Env FilterPipeline FilterPipelineFacts.
Import JobTracker JobTrackerFacts FilterStage ScorePipelineFacts.

(** The state of the pairs after the loop that marks the topics. *)
Lemma mark_topics_state E person_id batch_id topics : forall bm jt p tp,
  state_of (mark_topics E bm jt person_id topics batch_id).2 p tp
  = if decide (p = person_id /\ tp ∈ topics) then "filter_complete"
    else state_of jt p tp.
Proof.
  induction topics as [|topic topics IH]; intros bm jt p tp.
  - simpl. rewrite decide_False; [done|]. intros [_ H].
    by apply elem_of_nil in H.
  - cbn [mark_topics]. rewrite IH, state_of_mark_filter.
    destruct (decide (p = person_id)) as [->|Hp].
    + destruct (decide (tp ∈ topics)) as [Hin|Hin].
      * rewrite !decide_True; [done|..]; split; [done| |done|done].
        by apply list_elem_of_further.
      * rewrite (decide_False (P := _ /\ tp ∈ topics)) by tauto.
        destruct (decide (tp = topic)) as [->|Ht].
        -- rewrite !decide_True; [done|..].
           ++ split; [done|apply list_elem_of_here].
           ++ done.
        -- rewrite !decide_False; [done|..].
           ++ intros [_ [?|?]%elem_of_cons]; done.
           ++ congruence.
    + rewrite !decide_False; [done|..]; try tauto. congruence.
Qed.

Lemma process_named D E self batch_id results person_id topics :
  (BatchManager.retrieve_results E (batch_manager self) batch_id).1
  = Ok results ->
  topics_of (BatchManager.retrieve_results E (batch_manager self) batch_id).2
    batch_id = Some (person_id, topics) ->
  _process_batch_results D E self batch_id
  = let bm := (BatchManager.retrieve_results E (batch_manager self) batch_id).2 in
    let self1 := with_batch_manager bm self in
    match collect_ids results [] with
    | Raise e => (Raise e, self1)
    | Ok speech_ids =>
        match group_results E (Database.get_speeches_by_ids D speech_ids)
                results [] with
        | Raise e => (Raise e, self1)
        | Ok all_by_topic =>
            let saved :=
              save_all E (intermediate_dir self) person_id all_by_topic in
            match saved.1 with
            | Raise e =>
                (Raise e,
                 {| batch_manager := bm; job_tracker := job_tracker self;
                    intermediate_dir := saved.2 |})
            | Ok _ =>
                let marked :=
                  mark_topics E bm (job_tracker self) person_id topics
                    batch_id in
                (Ok (),
                 {| batch_manager := marked.1; job_tracker := marked.2;
                    intermediate_dir := saved.2 |})
            end
        end
    end.
Proof.
  cbv zeta. unfold _process_batch_results, topics_of. cbv zeta.
  destruct (BatchManager.retrieve_results E (batch_manager self) batch_id)
    as [[results'|e] bm]; cbn [fst snd]; [|done].
  intros [= ->].
  destruct (default ∅ (BatchManager._batch_jobs bm !! batch_id)
              !! "person_id") as [p|]; [|done].
  destruct (default ∅ (BatchManager._batch_jobs bm !! batch_id) !! "topics")
    as [[s|z]|]; [|done..].
  cbn [default from_option id].
  destruct (ScorePipeline.meta_truthy (Some p)); cbn [andb]; [|done].
  cbn [ScorePipeline.meta_truthy].
  destruct (String.eqb s ""); cbn [negb]; [done|].
  destruct (ScorePipeline.meta_int p) as [pid|e]; [|done].
  rewrite orb_false_r.
  destruct (pid =? 0)%Z; [done|]. intros [= -> <-].
  destruct (collect_ids results []) as [speech_ids|e]; [|done].
  change (intermediate_dir (with_batch_manager bm self))
    with (intermediate_dir self).
  change (job_tracker (with_batch_manager bm self)) with (job_tracker self).
  destruct (group_results E (Database.get_speeches_by_ids D speech_ids)
              results []) as [all_by_topic|e]; [|done].
  destruct (save_all E (intermediate_dir self) person_id all_by_topic)
    as [[u|e] dir]; cbn [fst snd]; [|done].
  by destruct (mark_topics E bm (job_tracker self) person_id (split "," s)
                 batch_id).
Qed.

(** The loop that saves: it writes the rows of the topics it comes to, in
    order, and stops at the first file that cannot be opened. *)
Lemma save_all_spec E person_id all_by_topic : forall dir,
  exists written,
    (save_all E dir person_id all_by_topic).2
    = save_rows dir person_id written
    /\ Forall (fun item =>
                 is_ok (open_append E (csv_name person_id item.1)) = true)
         written
    /\ match (save_all E dir person_id all_by_topic).1 with
       | Ok _ => written = all_by_topic
       | Raise e =>
           exists topic rows rest,
             all_by_topic = written ++ (topic, rows) :: rest
             /\ open_append E (csv_name person_id topic) = Raise e
       end.
Proof.
  induction all_by_topic as [|[topic rows] rest IH]; intros dir.
  - exists []. by repeat split.
  - cbn [save_all].
    destruct (open_append E (csv_name person_id topic)) as [u|e] eqn:Ho.
    + destruct (IH (_save_filtered_speeches dir person_id topic rows))
        as (written & Hd & Hopen & Hres).
      exists ((topic, rows) :: written). split; [exact Hd|]. split.
      * constructor; [by cbn [fst]; rewrite Ho|done].
      * destruct (save_all E _ person_id rest).1 as [u'|e'].
        -- by rewrite Hres.
        -- destruct Hres as (tp & rs & rest' & -> & He).
           by exists tp, rs, rest'.
    + exists []. split; [done|]. split; [constructor|].
      by exists topic, rows, rest.
Qed.

(** X23. [_process_batch_results] of the filter stage, for a batch whose
    results are retrieved and whose person and topics are in the ledger.
    It either raises, and then has marked no pair; it has written no row
    either, unless what it raises is the refusal to open the file of a
    topic of the answers, in which case the rows of the topics before that
    one, in the order of their first use, are written and stay.  Or it
    returns, and then every topic of the batch is filter_complete for the
    person (whether or not a row was saved for it), no other pair has
    changed its state, every file of a topic of the answers could be
    opened, and the intermediate artifacts hold the rows grouped from the
    results. *)
Theorem filter_batch_marks (D : Database.t) (E : Env.t) (self : t)
    (batch_id : string) (results : list json) (person_id : Z)
    (topics : list string) :
  (BatchManager.retrieve_results E (batch_manager self) batch_id).1
  = Ok results ->
  topics_of (BatchManager.retrieve_results E (batch_manager self) batch_id).2
    batch_id = Some (person_id, topics) ->
  let out := _process_batch_results D E self batch_id in
  match out.1 with
  | Raise e =>
      job_tracker out.2 = job_tracker self
      /\ (intermediate_dir out.2 = intermediate_dir self
          \/ exists speech_ids all_by_topic written topic rows rest,
               collect_ids results [] = Ok speech_ids
               /\ group_results E (Database.get_speeches_by_ids D speech_ids)
                    results [] = Ok all_by_topic
               /\ all_by_topic = written ++ (topic, rows) :: rest
               /\ open_append E (csv_name person_id topic) = Raise e
               /\ intermediate_dir out.2
                  = save_rows (intermediate_dir self) person_id written)
  | Ok _ =>
      (forall topic, topic ∈ topics ->
         state_of (job_tracker out.2) person_id topic = "filter_complete")
      /\ (forall p tp, ~ (p = person_id /\ tp ∈ topics) ->
            state_of (job_tracker out.2) p tp
            = state_of (job_tracker self) p tp)
      /\ exists speech_ids all_by_topic,
          collect_ids results [] = Ok speech_ids
          /\ group_results E (Database.get_speeches_by_ids D speech_ids)
               results [] = Ok all_by_topic
          /\ Forall (fun item =>
                       is_ok (open_append E (csv_name person_id item.1))
                       = true) all_by_topic
          /\ intermediate_dir out.2
             = save_rows (intermediate_dir self) person_id all_by_topic
  end.
Proof.
  intros Hr Ht. cbv zeta. rewrite (process_named _ _ _ _ _ _ _ Hr Ht).
  cbv zeta.
  destruct (collect_ids results []) as [speech_ids|e]; [|by split; [|left]].
  destruct (group_results E (Database.get_speeches_by_ids D speech_ids)
              results []) as [all_by_topic|e] eqn:Hg; [|by split; [|left]].
  destruct (save_all_spec E person_id all_by_topic (intermediate_dir self))
    as (written & Hd & Hopen & Hres).
  destruct (save_all E (intermediate_dir self) person_id all_by_topic).1
    as [u|e]; cbn [fst snd job_tracker intermediate_dir].
  - subst written. split; [|split].
    + intros topic Hin. rewrite mark_topics_state. by rewrite decide_True.
    + intros p tp Hn. rewrite mark_topics_state. by rewrite decide_False.
    + by exists speech_ids, all_by_topic.
  - split; [done|]. right.
    destruct Hres as (topic & rows & rest & Hall & He).
    by exists speech_ids, all_by_topic, written, topic, rows, rest.
Qed.

(** *** Where the rows come from *)

Lemma append_row_keys all_by_topic topic row :
  (append_row all_by_topic topic row).*1
  = if decide (topic ∈ all_by_topic.*1) then all_by_topic.*1
    else all_by_topic.*1 ++ [topic].
Proof.
  induction all_by_topic as [|[tp rows] rest IH]; [done|].
  cbn [append_row]. destruct (String.eqb_spec tp topic) as [->|Hne].
  - cbn [fmap list_fmap fst].
    by rewrite decide_True by apply list_elem_of_here.
  - cbn [fmap list_fmap fst] in *. rewrite IH.
    destruct (decide (topic ∈ rest.*1)) as [Hin|Hin].
    + by rewrite decide_True by (by apply list_elem_of_further).
    + rewrite decide_False; [done|].
      intros [?|?]%elem_of_cons; [congruence|done].
Qed.

Lemma append_row_elem all_by_topic topic row tp rows :
  (tp, rows) ∈ append_row all_by_topic topic row ->
  (tp, rows) ∈ all_by_topic
  \/ (tp = topic
      /\ exists old, rows = old ++ [row]
           /\ (old = [] \/ (topic, old) ∈ all_by_topic)).
Proof.
  induction all_by_topic as [|[tp' rows'] rest IH].
  - intros [= -> ->]%list_elem_of_singleton. right. split; [done|].
    exists []. auto.
  - cbn [append_row]. destruct (String.eqb_spec tp' topic) as [->|Hne].
    + intros [[= -> ->]|H]%elem_of_cons.
      * right. split; [done|]. exists rows'. split; [done|]. right.
        apply list_elem_of_here.
      * left. by apply list_elem_of_further.
    + intros [[= -> ->]|H]%elem_of_cons; [left; apply list_elem_of_here|].
      destruct (IH H) as [?|(-> & old & -> & [->|?])].
      * left. by apply list_elem_of_further.
      * right. split; [done|]. exists []. auto.
      * right. split; [done|]. exists old. split; [done|]. right.
        by apply list_elem_of_further.
Qed.

(** The dict of the second loop: each topic once, no topic without rows,
    and every row with the property [Q]. *)
Lemma append_row_good (Q : string -> filtered_speech -> Prop)
    all_by_topic topic row :
  NoDup (all_by_topic.*1)
  /\ (forall tp rows, (tp, rows) ∈ all_by_topic ->
        rows <> [] /\ forall r, r ∈ rows -> Q tp r) ->
  Q topic row ->
  NoDup ((append_row all_by_topic topic row).*1)
  /\ (forall tp rows, (tp, rows) ∈ append_row all_by_topic topic row ->
        rows <> [] /\ forall r, r ∈ rows -> Q tp r).
Proof.
  intros [Hnd Hq] Hrow. split.
  - rewrite append_row_keys. case_decide as Hin; [done|].
    apply NoDup_app. split; [done|]. split; [|apply NoDup_singleton].
    by intros x Hx ->%list_elem_of_singleton.
  - intros tp rows H. apply append_row_elem in H.
    destruct H as [H | (-> & old & -> & Hold)]; [by apply Hq|].
    split; [by destruct old|].
    intros r [Hr | ->%list_elem_of_singleton]%elem_of_app; [|done].
    destruct Hold as [->|Hold]; [by apply elem_of_nil in Hr|].
    by apply (Hq _ _ Hold).
Qed.

Lemma add_scores_good (Q : string -> filtered_speech -> Prop)
    speech_id speech_text scores : forall all_by_topic all_by_topic',
  add_scores speech_id speech_text scores all_by_topic = Ok all_by_topic' ->
  (forall topic score_data relevance,
     (topic, score_data) ∈ scores ->
     get score_data "relevance" (JInt 0) = Ok relevance ->
     Q topic {| Id := speech_id; Text := speech_text;
                RelevanceScore := relevance |}) ->
  NoDup (all_by_topic.*1)
  /\ (forall tp rows, (tp, rows) ∈ all_by_topic ->
        rows <> [] /\ forall r, r ∈ rows -> Q tp r) ->
  NoDup (all_by_topic'.*1)
  /\ (forall tp rows, (tp, rows) ∈ all_by_topic' ->
        rows <> [] /\ forall r, r ∈ rows -> Q tp r).
Proof.
  induction scores as [|[topic score_data] scores IH];
    intros abt abt' Ha HQ Hgood.
  - by injection Ha as <-.
  - cbn [add_scores] in Ha. apply bind_Ok in Ha as (relevance & Hrel & Ha).
    apply (IH _ _ Ha).
    + intros tp sd rel Hin. apply HQ. by apply list_elem_of_further.
    + apply append_row_good; [done|].
      apply (HQ topic score_data); [apply list_elem_of_here|done].
Qed.

Lemma group_result_good E speech_map (results : list json) all_by_topic
    result all_by_topic' :
  result ∈ results ->
  group_result E speech_map all_by_topic result = Ok all_by_topic' ->
  NoDup (all_by_topic.*1)
  /\ (forall tp rows, (tp, rows) ∈ all_by_topic ->
        rows <> []
        /\ forall r, r ∈ rows ->
             exists res, res ∈ results /\ row_from E speech_map res tp r) ->
  NoDup (all_by_topic'.*1)
  /\ (forall tp rows, (tp, rows) ∈ all_by_topic' ->
        rows <> []
        /\ forall r, r ∈ rows ->
             exists res, res ∈ results /\ row_from E speech_map res tp r).
Proof.
  intros Hin Hg Hgood. unfold group_result in Hg.
  apply bind_Ok in Hg as (r & Hid & Hg).
  destruct r as [speech_id|]; [|by injection Hg as <-].
  destruct (parse_relevance E speech_map result speech_id all_by_topic)
    as [abt|e] eqn:Hp.
  2: { destruct (is_ValueError e || is_KeyError e); [|done].
       by injection Hg as <-. }
  injection Hg as <-. unfold parse_relevance in Hp.
  apply bind_Ok in Hp as (relevance_scores & Hsd & Hp).
  destruct (speech_map !! speech_id) as [speech_text|] eqn:Hm;
    cbn [default from_option id] in Hp; [|by injection Hp as <-].
  destruct (String.eqb_spec speech_text "") as [->|Hne];
    [by injection Hp as <-|].
  apply bind_Ok in Hp as (scores & Hit & Hp).
  eapply add_scores_good; [exact Hp| |exact Hgood].
  intros topic score_data relevance Hs Hrel. exists result. split; [done|].
  unfold row_from. cbn [Id Text RelevanceScore]. split; [done|].
  split; [done|]. split; [done|]. by exists relevance_scores, scores, score_data.
Qed.

Lemma group_results_good E speech_map (results rs : list json) :
  forall all_by_topic all_by_topic',
    (forall r, r ∈ rs -> r ∈ results) ->
    group_results E speech_map rs all_by_topic = Ok all_by_topic' ->
    NoDup (all_by_topic.*1)
    /\ (forall tp rows, (tp, rows) ∈ all_by_topic ->
          rows <> []
          /\ forall r, r ∈ rows ->
               exists res, res ∈ results /\ row_from E speech_map res tp r) ->
    NoDup (all_by_topic'.*1)
    /\ (forall tp rows, (tp, rows) ∈ all_by_topic' ->
          rows <> []
          /\ forall r, r ∈ rows ->
               exists res, res ∈ results /\ row_from E speech_map res tp r).
Proof.
  induction rs as [|result rs IH]; intros abt abt' Hsub Hg Hgood.
  - by injection Hg as <-.
  - cbn [group_results] in Hg. apply bind_Ok in Hg as (abt1 & H1 & Hg).
    apply (IH abt1 abt'); [|done|].
    + intros r Hr. apply Hsub. by apply list_elem_of_further.
    + eapply (group_result_good E speech_map results abt result);
        [|exact H1|exact Hgood].
      apply Hsub. apply list_elem_of_here.
Qed.

Lemma csv_name_inj person_id t1 t2 :
  csv_name person_id t1 = csv_name person_id t2 -> t1 = t2.
Proof.
  unfold csv_name. intros H. apply append_inj_l in H.
  change ("_" +:+ ?t +:+ "_filtered.csv")
    with (String "_" (t +:+ "_filtered.csv")) in H.
  injection H as H. by apply append_inj_r in H.
Qed.

Lemma save_rows_lookup person_id all_by_topic : forall dir path,
  NoDup (all_by_topic.*1) ->
  save_rows dir person_id all_by_topic !! path = dir !! path
  \/ exists topic rows,
       (topic, rows) ∈ all_by_topic /\ path = csv_name person_id topic
       /\ save_rows dir person_id all_by_topic !! path
          = Some (default [] (dir !! path) ++ rows).
Proof.
  induction all_by_topic as [|[topic rows] rest IH]; intros dir path Hnd.
  - by left.
  - cbn [fmap list_fmap fst] in Hnd. apply NoDup_cons in Hnd as [Hk Hnd].
    change (save_rows dir person_id ((topic, rows) :: rest))
      with (save_rows (_save_filtered_speeches dir person_id topic rows)
              person_id rest).
    destruct (IH (_save_filtered_speeches dir person_id topic rows) path Hnd)
      as [->|(tp & rs & Hin & -> & ->)].
    + destruct (decide (path = csv_name person_id topic)) as [->|Hne].
      * right. exists topic, rows. split; [apply list_elem_of_here|].
        split; [done|]. apply save_lookup.
      * left. by apply save_lookup_ne.
    + right. exists tp, rs. split; [by apply list_elem_of_further|].
      split; [done|]. rewrite save_lookup_ne; [done|].
      intros ->%csv_name_inj. apply Hk. apply list_elem_of_fmap.
      by exists (topic, rs).
Qed.

(** X24. Every row the filter stage writes comes from a result of the batch:
    after a call that returns, an intermediate artifact is as it was, or it
    is the artifact of the person and a topic that an answer names and
    holds, after what it held, rows that are each made from one result of
    the batch: the row has the speech id of the result's custom id, the
    text of that speech in the database, which is not empty, and the
    relevance the answer gives for the topic.  The topic is the answer's:
    it need not be one of the topics of the batch. *)
Theorem filter_batch_rows (D : Database.t) (E : Env.t) (self : t)
    (batch_id : string) (results : list json) (person_id : Z)
    (topics : list string) (speech_ids : list Z) :
  (BatchManager.retrieve_results E (batch_manager self) batch_id).1
  = Ok results ->
  topics_of (BatchManager.retrieve_results E (batch_manager self) batch_id).2
    batch_id = Some (person_id, topics) ->
  collect_ids results [] = Ok speech_ids ->
  (_process_batch_results D E self batch_id).1 = Ok () ->
  forall path,
    intermediate_dir (_process_batch_results D E self batch_id).2 !! path
    = intermediate_dir self !! path
    \/ exists topic rows,
         path = csv_name person_id topic
         /\ intermediate_dir (_process_batch_results D E self batch_id).2
              !! path
            = Some (default [] (intermediate_dir self !! path) ++ rows)
         /\ rows <> []
         /\ forall row, row ∈ rows ->
              exists result,
                result ∈ results
                /\ row_from E (Database.get_speeches_by_ids D speech_ids)
                     result topic row.
Proof.
  intros Hr Ht Hc. rewrite (process_named _ _ _ _ _ _ _ Hr Ht). cbv zeta.
  rewrite Hc.
  destruct (group_results E (Database.get_speeches_by_ids D speech_ids)
              results []) as [all_by_topic|e] eqn:Hg; [|done].
  destruct (save_all_spec E person_id all_by_topic (intermediate_dir self))
    as (written & Hd & _ & Hres).
  destruct (save_all E (intermediate_dir self) person_id all_by_topic).1
    as [u|e]; [|done].
  subst written. cbn [fst snd intermediate_dir]. rewrite Hd. intros _ path.
  destruct (group_results_good E _ results results [] all_by_topic
              (fun _ H => H) Hg) as [Hnd Hrows].
  { split; [constructor|]. by intros tp rows ?%elem_of_nil. }
  destruct (save_rows_lookup person_id all_by_topic (intermediate_dir self)
              path Hnd) as [?|(topic & rows & Hin & -> & ->)]; [by left|].
  right. exists topic, rows. destruct (Hrows _ _ Hin) as [Hne Hq].
  by repeat split.
Qed.

End FilterStageFacts.

Module RunFacts.
Import Py PyFacts PyList StringFacts Env FilterPipeline FilterPipelineFacts.
Import JobTracker JobTrackerFacts JobTrackerFlow FilterStage FilterStageFacts.

Lemma group_fold pairs : forall (acc : gmap Z (gset string)) p t,
  t ∈ default ∅
        (fold_left
           (fun (person_topics : gmap Z (gset string)) (pair : Z * string) =>
              <[pair.1 := default ∅ (person_topics !! pair.1) ∪ {[pair.2]}]>
                person_topics)
           pairs acc !! p)
  <-> t ∈ default ∅ (acc !! p) \/ (p, t) ∈ pairs.
Proof.
  induction pairs as [|[p' t'] pairs IH]; intros acc p t.
  - simpl. rewrite elem_of_nil. tauto.
  - cbn [fold_left]. rewrite IH. cbn [fst snd]. rewrite elem_of_cons.
    destruct (decide (p = p')) as [->|Hne].
    + rewrite lookup_insert_eq. cbn [default from_option id].
      rewrite elem_of_union, elem_of_singleton.
      split; [intros [[?| ->]|?]|intros [?|[[= ->]|?]]]; auto.
    + rewrite lookup_insert_ne by done.
      split; [intros [?|?]|intros [?|[[= -> ->]|?]]]; auto. done.
Qed.

Lemma group_nonempty pairs : forall (acc : gmap Z (gset string)),
  (forall p s, acc !! p = Some s -> exists t, t ∈ s) ->
  forall p s,
    fold_left
      (fun (person_topics : gmap Z (gset string)) (pair : Z * string) =>
         <[pair.1 := default ∅ (person_topics !! pair.1) ∪ {[pair.2]}]>
           person_topics)
      pairs acc !! p = Some s ->
    exists t, t ∈ s.
Proof.
  induction pairs as [|[p' t'] pairs IH]; intros acc Hacc p s; [apply Hacc|].
  cbn [fold_left]. apply IH. intros q sq. cbn [fst snd].
  destruct (decide (q = p')) as [->|Hne].
  - rewrite lookup_insert_eq. intros [= <-]. exists t'.
    apply elem_of_union. right. by apply elem_of_singleton.
  - rewrite lookup_insert_ne by done. apply Hacc.
Qed.

(** X27. The grouping of [run] loses no pair and invents none: a topic is in
    the set of a person exactly when the pair is among the pairs given, so a
    pair given twice is processed once, and a person has a set exactly when
    a pair names the person. *)
Theorem group_pairs_pairs (pairs : list (Z * string)) (person_id : Z)
    (topic : string) :
  (topic ∈ default ∅ (group_pairs pairs !! person_id)
   <-> (person_id, topic) ∈ pairs)
  /\ (is_Some (group_pairs pairs !! person_id)
      <-> exists tp, (person_id, tp) ∈ pairs).
Proof.
  assert (H : forall t, t ∈ default ∅ (group_pairs pairs !! person_id)
                        <-> (person_id, t) ∈ pairs).
  { intros t. unfold group_pairs. rewrite group_fold, lookup_empty. simpl.
    rewrite elem_of_empty. tauto. }
  split; [apply H|]. split.
  - intros [s Hs].
    destruct (group_nonempty pairs ∅) with (p := person_id) (s := s)
      as [t Ht]; [by intros p s' ?%lookup_empty_Some|exact Hs|].
    exists t. apply H. by rewrite Hs.
  - intros [tp Htp]. apply H in Htp.
    destruct (group_pairs pairs !! person_id); [done|].
    by apply elem_of_empty in Htp.
Qed.

Lemma unfiltered_pending jt person_id topic :
  state_of jt person_id topic = "filter_complete" ->
  get_pending_pairs jt "score" [(person_id, topic)] = [(person_id, topic)].
Proof.
  intros H. rewrite pending_score. cbn [List.filter].
  unfold score_candidate, stored_status. cbn [fst snd].
  unfold state_of in H.
  destruct (_status jt !! _make_key person_id topic) as [e|]; [|done].
  simpl. by rewrite H.
Qed.

(** X26. A pair can be filter_complete with no intermediate artifact: where the
    results of a batch give no row for one of its topics and the topic had
    no artifact, the filter stage marks the pair all the same.  The pair is
    then pending for the score phase, and the score stage submits nothing
    for it and changes nothing, in this run and in every later one. *)
Theorem unfiltered_topic_never_scored (C : Config.t) (D : Database.t)
    (E : Env.t) (random : nat -> spec_float) (draws : nat) (self : t)
    (batch_id : string) (results : list json) (person_id : Z)
    (topics : list string) (topic : string) (reasoning_rate : spec_float)
    (bm : BatchManager.t) :
  (BatchManager.retrieve_results E (batch_manager self) batch_id).1
  = Ok results ->
  topics_of (BatchManager.retrieve_results E (batch_manager self) batch_id).2
    batch_id = Some (person_id, topics) ->
  (_process_batch_results D E self batch_id).1 = Ok () ->
  topic ∈ topics ->
  intermediate_dir (_process_batch_results D E self batch_id).2
    !! csv_name person_id topic = None ->
  let self' := (_process_batch_results D E self batch_id).2 in
  state_of (job_tracker self') person_id topic = "filter_complete"
  /\ get_pending_pairs (job_tracker self') "score" [(person_id, topic)]
     = [(person_id, topic)]
  /\ ScoreStage._process_pair C E random draws (intermediate_dir self') bm
       person_id topic reasoning_rate
     = (Ok [], bm, draws).
Proof.
  intros Hr Ht Hok Hin Hnone. cbv zeta.
  assert (Hst : state_of (job_tracker (_process_batch_results D E self
                                          batch_id).2) person_id topic
                = "filter_complete").
  { revert Hok. rewrite (process_named _ _ _ _ _ _ _ Hr Ht). cbv zeta.
    destruct (collect_ids results []) as [speech_ids|e]; [|done].
    destruct (group_results E (Database.get_speeches_by_ids D speech_ids)
                results []) as [all_by_topic|e]; [|done].
    destruct (save_all E (intermediate_dir self) person_id all_by_topic).1
      as [u|e]; [|done].
    intros _. cbn [snd job_tracker]. rewrite mark_topics_state.
    by rewrite decide_True. }
  split; [done|]. split; [by apply unfiltered_pending|].
  unfold ScoreStage._process_pair. by rewrite Hnone.
Qed.

(** X25. A batch of the filter stage that cannot be processed marks nothing
    and writes nothing: where the results cannot be retrieved, or the
    ledger names no person or no topics that can be read for the batch, the
    tracker and the intermediate artifacts are as before, so the pairs of
    the batch stay pending for the filter phase.  In the first case the
    exception is raised again; where the ledger has no person for the batch
    the call returns without a word to its caller.  (Topics that are stored
    as a number are set apart: they are not what the stage writes.) *)
Theorem filter_batch_unprocessed (D : Database.t) (E : Env.t) (self : t)
    (batch_id : string) :
  let r := (BatchManager.retrieve_results E (batch_manager self) batch_id).1 in
  let bm := (BatchManager.retrieve_results E (batch_manager self) batch_id).2 in
  let out := _process_batch_results D E self batch_id in
  (is_ok r = false
   \/ (topics_of bm batch_id = None
       /\ forall z, default ∅ (BatchManager._batch_jobs bm !! batch_id)
                      !! "topics" <> Some (MInt z))) ->
  job_tracker out.2 = job_tracker self
  /\ intermediate_dir out.2 = intermediate_dir self
  /\ (is_ok r = false -> out.1 = (fun _ => ()) <$> r)
  /\ (is_ok r = true ->
      default ∅ (BatchManager._batch_jobs bm !! batch_id) !! "person_id"
      = None ->
      out.1 = Ok ()).
Proof.
  cbv zeta. unfold _process_batch_results, topics_of. cbv zeta.
  destruct (BatchManager.retrieve_results E (batch_manager self) batch_id)
    as [[results|e] bm]; cbn [fst snd is_ok]; [|by intros _].
  intros [?|[Hn Hint]]; [done|].
  destruct (default ∅ (BatchManager._batch_jobs bm !! batch_id)
              !! "person_id") as [p|]; [|done].
  destruct (default ∅ (BatchManager._batch_jobs bm !! batch_id) !! "topics")
    as [[s|z]|]; cbn [default from_option id] in *.
  - destruct (ScorePipeline.meta_truthy (Some p)); cbn [andb] in *.
    + cbn [ScorePipeline.meta_truthy] in *.
      destruct (ScorePipeline.meta_int p) as [pid|e].
      * destruct (String.eqb s ""); cbn [negb] in *;
          [by rewrite orb_true_r|]. rewrite orb_false_r.
        by destruct (pid =? 0)%Z.
      * done.
    + done.
  - by destruct (Hint z).
  - destruct (ScorePipeline.meta_truthy (Some p)).
    + destruct (ScorePipeline.meta_int p) as [pid|e]; [|done].
      by rewrite orb_true_r.
    + done.
Qed.

End RunFacts.

Module CliFacts.
Import Py PyFacts PyList StringFacts JobTracker JobTrackerFacts Cli.

Lemma kept_stripped t : Cli.kept t = true -> Cli.kept (strip t) = true.
Proof. unfold Cli.kept. by rewrite strip_idem. Qed.

Lemma clean_fixed (topics : list string) :
  Forall (fun t => t <> "" /\ startswith t "#" = false /\ strip t = t)
    topics ->
  map strip (List.filter Cli.kept topics) = topics.
Proof.
  induction 1 as [|t topics (H1 & H2 & H3) HF IH]; [done|].
  cbn [List.filter]. unfold Cli.kept at 1. rewrite H3, H2.
  apply String.eqb_neq in H1. rewrite H1. cbn [negb andb map].
  by rewrite H3, IH.
Qed.

(** X28. The topics that [load_topics_from_file] returns are the lines of the
    file without the space around them, less the blank lines and the lines
    whose first character after the space is a hash sign: no topic is
    empty, starts with a hash sign or has space around it, so a file
    written from the loaded topics loads as the same topics.  A file that
    does not exist raises. *)
Theorem load_topics_clean (lines : list string) :
  load_topics_from_file None = Raise FileNotFoundError
  /\ exists topics,
      load_topics_from_file (Some lines) = Ok topics
      /\ Forall (fun t => t <> "" /\ startswith t "#" = false
                          /\ strip t = t) topics
      /\ (forall t, t ∈ topics <->
            exists line, line ∈ lines /\ strip line = t
                         /\ t <> "" /\ startswith t "#" = false)
      /\ load_topics_from_file (Some topics) = Ok topics.
Proof.
  split; [done|]. exists (map strip (List.filter Cli.kept lines)).
  assert (Hin : forall t, t ∈ map strip (List.filter Cli.kept lines) <->
            exists line, line ∈ lines /\ strip line = t
                         /\ t <> "" /\ startswith t "#" = false).
  { intros t. rewrite list_elem_of_fmap. split.
    - intros (line & -> & Hl). apply list_elem_of_In, filter_In in Hl as [Hl Hk].
      exists line. split; [by apply list_elem_of_In|]. split; [done|].
      unfold Cli.kept in Hk. apply andb_prop in Hk as [H1 H2].
      apply negb_true_iff in H1, H2. by apply String.eqb_neq in H1.
    - intros (line & Hl & <- & H1 & H2). exists line. split; [done|].
      apply list_elem_of_In, filter_In. split; [by apply list_elem_of_In|].
      unfold Cli.kept. apply String.eqb_neq in H1. by rewrite H1, H2. }
  assert (HF : Forall (fun t => t <> "" /\ startswith t "#" = false
                                /\ strip t = t)
                 (map strip (List.filter Cli.kept lines))).
  { apply Forall_forall. intros t Ht. apply Hin in Ht as (line & _ & <- & ? & ?).
    by rewrite strip_idem. }
  split. { reflexivity. } split. { exact HF. } split. { exact Hin. }
  unfold load_topics_from_file. f_equal. by apply clean_fixed.
Qed.

(** *** The files [cleanup_intermediate] removes *)

Lemma target_spec dir key e path :
  path ∈ cleanup_target dir (key, e) <->
  status e = "score_complete"
  /\ is_Some (dir !! path)
  /\ exists a b, split1 "_" key = [a; b]
                 /\ path = a +:+ "_" +:+ b +:+ "_filtered.csv".
Proof.
  unfold cleanup_target. cbn [fst snd].
  destruct (String.eqb_spec (status e) "score_complete") as [Hs|Hs];
    [|rewrite elem_of_nil; tauto].
  destruct (split1 "_" key) as [|a [|b [|? ?]]];
    try (rewrite elem_of_nil; split; [done|];
         by intros (_ & _ & ? & ? & ? & _)).
  case_bool_decide as Hd.
  - rewrite list_elem_of_singleton. split.
    + intros ->. eauto 10.
    + by intros (_ & _ & ? & ? & [= <- <-] & ->).
  - rewrite elem_of_nil. split; [done|].
    by intros (_ & ? & ? & ? & [= <- <-] & ->).
Qed.

Lemma target_key dir key e path key' e' :
  path ∈ cleanup_target dir (key, e) ->
  path ∈ cleanup_target dir (key', e') -> key = key'.
Proof.
  rewrite !target_spec.
  intros (_ & _ & a & b & Hk & ->) (_ & _ & a' & b' & Hk' & E).
  pose proof (split1_spec "_" key) as S. rewrite Hk in S.
  pose proof (split1_spec "_" key') as S'. rewrite Hk' in S'.
  destruct S as [-> Ha], S' as [-> Ha'].
  change (a +:+ "_" +:+ b +:+ "_filtered.csv")
    with (a +:+ String "_" (b +:+ "_filtered.csv")) in E.
  change (a' +:+ "_" +:+ b' +:+ "_filtered.csv")
    with (a' +:+ String "_" (b' +:+ "_filtered.csv")) in E.
  apply app_sep_inj in E as [-> E]; [|done..].
  by apply append_inj_r in E as ->.
Qed.

Lemma in_completed dir (items : list (string * entry)) path :
  path ∈ flat_map (cleanup_target dir) items <->
  exists item, item ∈ items /\ path ∈ cleanup_target dir item.
Proof.
  rewrite list_elem_of_In, in_flat_map. split.
  - intros (item & H1 & H2). exists item. by rewrite !list_elem_of_In.
  - intros (item & H1 & H2). exists item. by rewrite <- !list_elem_of_In.
Qed.

Lemma completed_NoDup dir (items : list (string * entry)) :
  NoDup (items.*1) -> NoDup (flat_map (cleanup_target dir) items).
Proof.
  induction items as [|[key e] items IH]; [constructor|].
  cbn [fmap list_fmap fst flat_map]. intros [Hk Hnd]%NoDup_cons.
  apply NoDup_app. split; [|split; [|by apply IH]].
  - unfold cleanup_target. cbn [fst snd].
    destruct (String.eqb (status e) "score_complete"); [|constructor].
    destruct (split1 "_" key) as [|a [|b [|? ?]]]; try constructor.
    case_bool_decide; [apply NoDup_singleton|constructor].
  - intros path H1 H2. apply in_completed in H2 as ([key' e'] & Hin & H2).
    pose proof (target_key _ _ _ _ _ _ H1 H2) as ->.
    apply Hk. apply list_elem_of_fmap. by exists (key', e').
Qed.

Lemma unlink_all_spec completed : forall dir,
  NoDup completed ->
  (forall path, path ∈ completed -> is_Some (dir !! path)) ->
  exists dir', unlink_all dir completed = Ok dir'
    /\ forall path, dir' !! path
                    = if decide (path ∈ completed) then None else dir !! path.
Proof.
  induction completed as [|p completed IH]; intros dir Hnd Hin.
  - exists dir. split; [done|]. intros path. by rewrite decide_False
      by apply not_elem_of_nil.
  - apply NoDup_cons in Hnd as [Hp Hnd].
    cbn [unlink_all]. unfold unlink at 1.
    destruct (Hin p) as [rows ->]; [apply list_elem_of_here|].
    cbn [mbind result_bind].
    destruct (IH (delete p dir) Hnd) as (dir' & -> & Hl).
    { intros path Hpath. rewrite lookup_delete_ne by (by intros ->).
      apply Hin. by apply list_elem_of_further. }
    exists dir'. split; [done|]. intros path. rewrite Hl.
    destruct (decide (path = p)) as [->|Hne].
    + rewrite decide_False by done.
      rewrite decide_True by apply list_elem_of_here.
      apply lookup_delete_eq.
    + rewrite lookup_delete_ne by done.
      repeat case_decide; try done.
      * exfalso. by apply H0, list_elem_of_further.
      * apply elem_of_cons in H0 as [?|?]; done.
Qed.

(** X29. [cleanup_intermediate] removes the intermediate artifact of the pairs
    that are score_complete and of no other pair: once confirmed, the
    artifact of a pair is gone exactly when the pair's status is
    score_complete, whatever else the tracker holds, and no file is changed,
    only removed.  It never raises: no file is removed twice.  Without the
    option and with the answer no, nothing is removed. *)
Theorem cleanup_removes_scored (job_tracker : JobTracker.t)
    (dir : gmap string (list FilterPipeline.filtered_speech))
    (confirm response : bool) :
  exists dir',
    cleanup_intermediate job_tracker dir confirm response = Ok dir'
    /\ (confirm || response = false -> dir' = dir)
    /\ (confirm || response = true ->
        forall person_id topic,
          dir' !! FilterPipeline.csv_name person_id topic
          = if String.eqb (state_of job_tracker person_id topic)
                 "score_complete"
            then None
            else dir !! FilterPipeline.csv_name person_id topic)
    /\ forall path, dir' !! path = dir !! path \/ dir' !! path = None.
Proof.
  unfold cleanup_intermediate.
  set (items := map_to_list (_status job_tracker)).
  set (completed := flat_map (cleanup_target dir) items).
  assert (Hnd : NoDup completed).
  { apply completed_NoDup. apply NoDup_fst_map_to_list. }
  assert (Hin : forall path, path ∈ completed -> is_Some (dir !! path)).
  { intros path ([key e] & _ & H)%in_completed.
    by apply target_spec in H as (_ & ? & _). }
  destruct (unlink_all_spec completed dir Hnd Hin) as (dir' & Hu & Hl).
  assert (Hpair : forall person_id topic,
             (if decide (FilterPipeline.csv_name person_id topic ∈ completed)
              then None
              else dir !! FilterPipeline.csv_name person_id topic)
             = if String.eqb (state_of job_tracker person_id topic)
                    "score_complete"
               then None
               else dir !! FilterPipeline.csv_name person_id topic).
  { intros p tp. unfold state_of.
    pose proof (split1_append "_" (str p) tp
                  (numeral_no_underscore _ (str_numeral p))) as Hsplit.
    case_decide as Hc.
    - apply in_completed in Hc as ([key e] & Hitem & Ht).
      apply elem_of_map_to_list in Hitem.
      assert (Hkey : key = _make_key p tp).
      { apply target_spec in Ht as (_ & _ & a & b & Hk & E).
        pose proof (split1_spec "_" key) as S. rewrite Hk in S.
        destruct S as [-> Ha].
        change (FilterPipeline.csv_name p tp)
          with (str p +:+ String "_" (tp +:+ "_filtered.csv")) in E.
        change (a +:+ "_" +:+ b +:+ "_filtered.csv")
          with (a +:+ String "_" (b +:+ "_filtered.csv")) in E.
        apply app_sep_inj in E as [<- E];
          [|by apply numeral_no_underscore, str_numeral|done].
        by apply append_inj_r in E as <-. }
      subst key. rewrite Hitem.
      apply target_spec in Ht as (-> & _). done.
    - destruct (_status job_tracker !! _make_key p tp) as [e|] eqn:He;
        [|done].
      destruct (String.eqb_spec (status e) "score_complete") as [Hs|Hs];
        [|done].
      destruct (dir !! FilterPipeline.csv_name p tp) as [rows|] eqn:Hd;
        [|done].
      exfalso. apply Hc. apply in_completed. exists (_make_key p tp, e).
      split; [by apply elem_of_map_to_list|].
      apply target_spec. split; [done|]. split; [by rewrite Hd|].
      exists (str p), tp. split; [exact Hsplit|done]. }
  clearbody completed. destruct completed as [|p0 rest].
  - exists dir. split; [done|]. split; [done|]. split; [|by left].
    intros _ p tp. rewrite <- Hpair. by rewrite decide_False
      by apply not_elem_of_nil.
  - destruct (confirm || response).
    + exists dir'. split; [done|]. split; [done|]. split.
      * intros _ p' tp. by rewrite Hl, Hpair.
      * intros path. rewrite Hl. case_decide; auto.
    + exists dir. split; [done|]. split; [done|]. split; [done|by left].
Qed.

End CliFacts.

(** * Part V: the further theorems on an example *)

Module TrackerExamples.
Import Py JobTracker JobTrackerReport JobTrackerFlow Examples.

Lemma statistics_partition_witness :
  known empty
  /\ known (run ops empty)
  /\ (count_status "pending" (run ops empty)
      + count_status "filter_complete" (run ops empty)
      + count_status "score_complete" (run ops empty))%Z
     = Z.of_nat (size (_status (run ops empty)))
  /\ get_statistics (run ops empty) !! "total"
     = Some (Z.of_nat (size (_status (run ops empty)))).
Proof.
  assert (Hk : known empty) by apply map_Forall_empty.
  split; [exact Hk|]. exact (statistics_partition ops empty Hk).
Defined.

(** The statistics of the store with A pending, B filter_complete and C
    score_complete. *)
Example statistics_example :
  get_statistics tracker !! "pending" = Some 1%Z
  /\ get_statistics tracker !! "filter_complete" = Some 1%Z
  /\ get_statistics tracker !! "score_complete" = Some 1%Z
  /\ get_statistics tracker !! "total" = Some 3%Z.
Proof. vm_compute. repeat split. Qed.

End TrackerExamples.

Module LedgerExamples.
Import Py Env BatchManager BatchFile LedgerFacts PollFacts Examples.
Import StageExamples.

Lemma retry_budget_witness :
  accepts env
  /\ attempt_is ∅ 0
  /\ exists ids metadata' self' logged,
      retry_times 3 env empty [request] ∅ 2
      = (map (fun id => Ok (Some id)) ids ++ [Ok None], metadata', self')
      /\ length ids = 2
      /\ attempt_is metadata' 2
      /\ _failed_speeches self' = _failed_speeches empty ++ logged
      /\ map BatchManager.request logged = [request]
      /\ Forall (fun r => BatchManager.metadata r = metadata') logged
      /\ failed_speeches_file self' = _failed_speeches self'.
Proof.
  assert (HE : accepts env) by (split; intros; reflexivity).
  assert (Ha : attempt_is ∅ 0) by reflexivity.
  split; [exact HE|]. split; [exact Ha|].
  exact (retry_budget env empty [request] ∅ 0 2 HE Ha).
Defined.

Lemma retry_refused_witness :
  refuses refusing_env (APIError "unavailable")
  /\ attempt_is ∅ 0
  /\ exists metadata' self' logged,
      retry_times 3 refusing_env empty [request] ∅ 2
      = ([Raise (APIError "unavailable"); Raise (APIError "unavailable");
          Ok None], metadata', self')
      /\ attempt_is metadata' 2
      /\ _batch_jobs self' = _batch_jobs empty
      /\ batch_jobs_file self' = batch_jobs_file empty
      /\ _failed_speeches self' = _failed_speeches empty ++ logged
      /\ map BatchManager.request logged = [request].
Proof.
  assert (HE : refuses refusing_env (APIError "unavailable"))
    by (intros call requests; reflexivity).
  assert (Ha : attempt_is ∅ 0) by reflexivity.
  split; [exact HE|]. split; [exact Ha|].
  exact (retry_refused refusing_env (APIError "unavailable") [request] 2 HE 2
           empty ∅ 0 Ha eq_refl).
Defined.

Lemma poll_batches_keeps_ledger_witness :
  exists done self',
    poll_batches 4 env submitted ["batch_1"] 30 = Some (Ok (done, self'))
    /\ ledger_kept ["batch_1"] submitted self'.
Proof.
  destruct (poll_batches 4 env submitted ["batch_1"] 30)
    as [[[done self']|e]|] eqn:Hr; [|by vm_compute in Hr..].
  exists done, self'. split; [reflexivity|].
  exact (poll_batches_keeps_ledger env submitted ["batch_1"] 30 4 done self'
           Hr).
Defined.

Lemma poll_batches_reports_witness :
  exists done self',
    poll_batches 4 env submitted ["batch_1"; "batch_x"] 30
    = Some (Ok (done, self'))
    /\ done !! "batch_1" = Some "completed"
    /\ done !! "batch_x" = Some "error"
    /\ reported env done self'.
Proof.
  destruct (poll_batches 4 env submitted ["batch_1"; "batch_x"] 30)
    as [[[done self']|e]|] eqn:Hr; [|by vm_compute in Hr..].
  exists done, self'. split; [reflexivity|].
  pose proof (poll_batches_reports env submitted ["batch_1"; "batch_x"] 30 4
                done self' Hr) as H.
  vm_compute in Hr. injection Hr as <- _. split; [reflexivity|].
  split; [reflexivity|]. exact H.
Defined.

Lemma jsonl_round_trip_witness :
  batches_retrieve printed_env (tick submitted) "batch_1" = Ok completed_batch
  /\ files_content printed_env (S (tick submitted)) "file-out"
     = Ok (jsonl toy_dumps [scored_result; JObj []])
  /\ Forall (prints printed_env toy_dumps) [scored_result; JObj []]
  /\ (retrieve_results printed_env submitted "batch_1").1
     = Ok [scored_result; JObj []].
Proof.
  assert (Hb : batches_retrieve printed_env (tick submitted) "batch_1"
               = Ok completed_batch) by reflexivity.
  assert (Hc : files_content printed_env (S (tick submitted)) "file-out"
               = Ok (jsonl toy_dumps [scored_result; JObj []]))
    by reflexivity.
  assert (HF : Forall (prints printed_env toy_dumps) [scored_result; JObj []]).
  { repeat constructor; vm_compute; reflexivity. }
  split; [exact Hb|]. split; [exact Hc|]. split; [exact HF|].
  refine (BatchFileFacts.jsonl_round_trip printed_env toy_dumps submitted
            "batch_1" completed_batch "file-out" [scored_result; JObj []]
            Hb eq_refl eq_refl _ Hc HF).
  discriminate.
Defined.

End LedgerExamples.

Module OutputDocsExamples.
Import Py Env OutputManager OutputDocs OutputDocsFacts Examples.

Lemma update_aggregations_frame_witness :
  update_aggregations env after_once 6 "education" [scored_row; scored_row]
  = Ok (_update_topic_json env
          (_update_mk_json env after_once 6 "education" 2 (JInt 7))
          "education" 6 2 (JInt 7))
  /\ (5%Z, "education") <> (6%Z, "education")
  /\ mk_stat (_update_topic_json env
                (_update_mk_json env after_once 6 "education" 2 (JInt 7))
                "education" 6 2 (JInt 7)) 5 "education"
     = Some (1%Z, JInt 7)
  /\ topic_stat (_update_topic_json env
                   (_update_mk_json env after_once 6 "education" 2 (JInt 7))
                   "education" 6 2 (JInt 7)) 5 "education"
     = Some (1%Z, JInt 7).
Proof.
  assert (Hu : update_aggregations env after_once 6 "education"
                 [scored_row; scored_row]
               = Ok (_update_topic_json env
                       (_update_mk_json env after_once 6 "education" 2
                          (JInt 7))
                       "education" 6 2 (JInt 7))) by reflexivity.
  assert (Hne : (5%Z, "education") <> (6%Z, "education")) by discriminate.
  split; [exact Hu|]. split; [exact Hne|].
  destruct (update_aggregations_frame env after_once _ 6 "education"
              [scored_row; scored_row] 5 "education" Hu Hne) as [-> ->].
  split; vm_compute; reflexivity.
Defined.

Lemma update_keeps_topics_distinct_witness :
  distinct_topics empty
  /\ update_aggregations env empty 5 "education" [scored_row] = Ok after_once
  /\ distinct_topics after_once.
Proof.
  assert (Hd : distinct_topics empty) by apply map_Forall_empty.
  assert (Hu : update_aggregations env empty 5 "education" [scored_row]
               = Ok after_once) by reflexivity.
  split; [exact Hd|]. split; [exact Hu|].
  exact (proj1 (update_keeps_topics_distinct env empty after_once 5
                  "education" [scored_row] Hd Hu)).
Defined.

End OutputDocsExamples.

Module ScoreStageExamples.
Import Py Env ScorePipeline ScoreStage ScoreStageFacts Examples.

Lemma score_batch_unprocessed_witness :
  pair_of (BatchManager.retrieve_results env (batch_manager pipeline)
             "batch_9").2 "batch_9" = None
  /\ job_tracker (_process_batch_results env pipeline "batch_9")
     = job_tracker pipeline
  /\ client_data (_process_batch_results env pipeline "batch_9")
     = client_data pipeline
  /\ output_manager (_process_batch_results env pipeline "batch_9")
     = output_manager pipeline
  /\ intermediate_dir (_process_batch_results env pipeline "batch_9")
     = intermediate_dir pipeline.
Proof.
  assert (Hn : pair_of (BatchManager.retrieve_results env
                          (batch_manager pipeline) "batch_9").2 "batch_9"
               = None) by (vm_compute; reflexivity).
  split; [exact Hn|].
  exact (score_batch_unprocessed env pipeline "batch_9"
           (or_intror (or_introl Hn))).
Defined.

Lemma score_batch_processed_witness :
  (BatchManager.retrieve_results env (batch_manager pipeline) "batch_1").1
  = Ok [scored_result; JObj []]
  /\ pair_of (BatchManager.retrieve_results env (batch_manager pipeline)
                "batch_1").2 "batch_1" = Some (5%Z, "education")
  /\ collect env (intermediate_dir pipeline) 5 "education"
       [scored_result; JObj []] [] = Ok [scored_row]
  /\ JobTracker.state_of
       (job_tracker (_process_batch_results env pipeline "batch_1"))
       5 "education" = "score_complete"
  /\ client_data (_process_batch_results env pipeline "batch_1")
       !! scored_csv_name 5 "education" = Some [scored_row].
Proof.
  assert (Hr : (BatchManager.retrieve_results env (batch_manager pipeline)
                  "batch_1").1 = Ok [scored_result; JObj []])
    by (vm_compute; reflexivity).
  assert (Hp : pair_of (BatchManager.retrieve_results env
                          (batch_manager pipeline) "batch_1").2 "batch_1"
               = Some (5%Z, "education")) by (vm_compute; reflexivity).
  assert (Hc : collect env (intermediate_dir pipeline) 5 "education"
                 [scored_result; JObj []] [] = Ok [scored_row])
    by (vm_compute; reflexivity).
  split; [exact Hr|]. split; [exact Hp|]. split; [exact Hc|].
  destruct (score_batch_processed env pipeline "batch_1"
              [scored_result; JObj []] 5 "education" [scored_row] Hr Hp Hc)
    as (H1 & _ & _ & H2 & _).
  split; [exact H1|]. apply H2. discriminate.
Defined.

(** The artifact with the long row: the speeches before the long row are
    found, the second with its line ends read as LF; the long row and the
    row after it raise the error of the reader, and so does the submission
    of the pair, before a draw is made. *)
Lemma speech_text_lookup_example :
  let path := FilterPipeline.csv_name 5 "education" in
  _get_speech_text_from_csv env StageExamples.long_row_dir path 12
  = Ok "We must fund schools."
  /\ _get_speech_text_from_csv env StageExamples.long_row_dir path 15
     = Ok ("Roads first," +:+ nl +:+ "rails later." +:+ nl)
  /\ _get_speech_text_from_csv env StageExamples.long_row_dir path 16
     = Raise (CsvError FilterPipeline.field_limit_msg)
  /\ _get_speech_text_from_csv env StageExamples.long_row_dir path 17
     = Raise (CsvError FilterPipeline.field_limit_msg)
  /\ ScoreStage._process_pair StageExamples.config env StageExamples.random
       0 StageExamples.long_row_dir BatchManager.empty 5 "education"
       StageExamples.rate
     = (Raise (CsvError FilterPipeline.field_limit_msg),
        BatchManager.empty, 0).
Proof. cbv zeta. repeat split; vm_compute; reflexivity. Qed.

End ScoreStageExamples.

Module StageWitnesses.
Import Py Env BatchManager BatchFile StageFacts ScoreSubmitFacts.
Import FilterStageFacts RunFacts Examples StageExamples.

Lemma filter_metadata_round_trip_witness :
  FilterStage._process_person config database env empty 5
    ["education"; "health"] = (Ok ["batch_1"], submitted_filter)
  /\ Forall (fun topic => topic <> ""
                          /\ FilterStage.comma_free topic = true)
       ["education"; "health"]
  /\ exists done self2,
      poll_batches 4 env submitted_filter ["batch_1"] 30
      = Some (Ok (done, self2))
      /\ FilterStage.topics_of self2 "batch_1"
         = Some (5%Z, ["education"; "health"]).
Proof.
  assert (Hp : FilterStage._process_person config database env empty 5
                 ["education"; "health"] = (Ok ["batch_1"], submitted_filter))
    by (vm_compute; reflexivity).
  assert (HF : Forall (fun topic => topic <> ""
                                    /\ FilterStage.comma_free topic = true)
                 ["education"; "health"]).
  { repeat constructor; discriminate. }
  split; [exact Hp|]. split; [exact HF|].
  destruct (poll_batches 4 env submitted_filter ["batch_1"] 30)
    as [[[done self2]|e]|] eqn:Hr; [|by vm_compute in Hr..].
  exists done, self2. split; [reflexivity|].
  refine (proj2 (proj2 (filter_metadata_round_trip config database env empty
                          5 ["education"; "health"] ["batch_1"] ["batch_1"]
                          submitted_filter self2 30 4 done Hp Hr _ _ HF)
                   "batch_1" _)).
  - discriminate.
  - discriminate.
  - apply list_elem_of_here.
Defined.

Lemma score_metadata_round_trip_witness :
  exists self1 done self2,
    ScoreStage._process_pair config env random 0 three_row_dir empty 5
      "education" rate = (Ok ["batch_1"; "batch_4"], self1, 3)
    /\ poll_batches 4 env self1 ["batch_1"; "batch_4"] 30
       = Some (Ok (done, self2))
    /\ ScoreStage.pair_of self2 "batch_4" = Some (5%Z, "education").
Proof.
  destruct (ScoreStage._process_pair config env random 0 three_row_dir empty
              5 "education" rate) as [[r self1] draws] eqn:Hp.
  assert (Hr : r = Ok ["batch_1"; "batch_4"] /\ draws = 3).
  { apply (f_equal (fun x => (x.1.1, x.2))) in Hp. vm_compute in Hp.
    by injection Hp as <- <-. }
  destruct Hr as [-> ->].
  destruct (poll_batches 4 env self1 ["batch_1"; "batch_4"] 30)
    as [[[done self2]|e]|] eqn:Hpoll.
  - exists self1, done, self2. split; [reflexivity|]. split; [exact Hpoll|].
    refine (proj2 (score_metadata_round_trip config env random 0 3
                     three_row_dir empty self1 self2 5 "education" rate
                     ["batch_1"; "batch_4"] ["batch_1"; "batch_4"] 30 4 done
                     Hp Hpoll _ _ "batch_4" _)).
    + discriminate.
    + discriminate.
    + apply list_elem_of_further, list_elem_of_here.
  - exfalso. apply (f_equal (fun x => x.1.2)) in Hp. cbn [fst snd] in Hp.
    subst self1. by vm_compute in Hpoll.
  - exfalso. apply (f_equal (fun x => x.1.2)) in Hp. cbn [fst snd] in Hp.
    subst self1. by vm_compute in Hpoll.
Defined.

Lemma filter_batch_marks_witness :
  (retrieve_results filter_env (FilterStage.batch_manager filter_stage)
     "batch_1").1 = Ok [filter_result]
  /\ FilterStage.topics_of
       (retrieve_results filter_env (FilterStage.batch_manager filter_stage)
          "batch_1").2 "batch_1" = Some (5%Z, ["education"; "health"])
  /\ (FilterStage._process_batch_results database filter_env filter_stage
        "batch_1").1 = Ok ()
  /\ JobTracker.state_of
       (FilterStage.job_tracker
          (FilterStage._process_batch_results database filter_env
             filter_stage "batch_1").2) 5 "health" = "filter_complete".
Proof.
  assert (Hr : (retrieve_results filter_env
                  (FilterStage.batch_manager filter_stage) "batch_1").1
               = Ok [filter_result]) by (vm_compute; reflexivity).
  assert (Ht : FilterStage.topics_of
                 (retrieve_results filter_env
                    (FilterStage.batch_manager filter_stage) "batch_1").2
                 "batch_1" = Some (5%Z, ["education"; "health"]))
    by (vm_compute; reflexivity).
  assert (Hok : (FilterStage._process_batch_results database filter_env
                   filter_stage "batch_1").1 = Ok ())
    by (vm_compute; reflexivity).
  split; [exact Hr|]. split; [exact Ht|]. split; [exact Hok|].
  pose proof (filter_batch_marks database filter_env filter_stage "batch_1"
                [filter_result] 5 ["education"; "health"] Hr Ht) as H.
  cbv zeta in H. rewrite Hok in H. destruct H as (H & _).
  apply H. apply list_elem_of_further, list_elem_of_here.
Defined.

(** The answer that names the topic with a slash: the rows of the topic
    before it are written, the file of the topic with the slash cannot be
    opened, the call raises and no topic of the batch is marked. *)
Lemma filter_batch_refused_example :
  let out :=
    FilterStage._process_batch_results database slash_env filter_stage
      "batch_1" in
  out.1 = Raise FileNotFoundError
  /\ FilterStage.intermediate_dir out.2
       !! FilterPipeline.csv_name 5 "education" = Some [filtered_row]
  /\ FilterStage.intermediate_dir filter_stage
       !! FilterPipeline.csv_name 5 "education" = None
  /\ JobTracker.state_of (FilterStage.job_tracker out.2) 5 "education"
     = "pending".
Proof. cbv zeta. repeat split; vm_compute; reflexivity. Qed.

Lemma filter_batch_rows_witness :
  (retrieve_results filter_env (FilterStage.batch_manager filter_stage)
     "batch_1").1 = Ok [filter_result]
  /\ FilterStage.collect_ids [filter_result] [] = Ok [12%Z]
  /\ FilterStage.intermediate_dir
       (FilterStage._process_batch_results database filter_env filter_stage
          "batch_1").2 !! FilterPipeline.csv_name 5 "education"
     = Some [filtered_row]
  /\ (FilterStage.intermediate_dir
        (FilterStage._process_batch_results database filter_env filter_stage
           "batch_1").2 !! FilterPipeline.csv_name 5 "education"
      = FilterStage.intermediate_dir filter_stage
          !! FilterPipeline.csv_name 5 "education"
      \/ exists topic rows,
          FilterPipeline.csv_name 5 "education"
          = FilterPipeline.csv_name 5 topic
          /\ FilterStage.intermediate_dir
               (FilterStage._process_batch_results database filter_env
                  filter_stage "batch_1").2
               !! FilterPipeline.csv_name 5 "education"
             = Some (default []
                       (FilterStage.intermediate_dir filter_stage
                          !! FilterPipeline.csv_name 5 "education") ++ rows)
          /\ rows <> []
          /\ forall row, row ∈ rows ->
               exists result,
                 result ∈ [filter_result]
                 /\ FilterStage.row_from filter_env
                      (Database.get_speeches_by_ids database [12%Z]) result
                      topic row).
Proof.
  assert (Hr : (retrieve_results filter_env
                  (FilterStage.batch_manager filter_stage) "batch_1").1
               = Ok [filter_result]) by (vm_compute; reflexivity).
  assert (Ht : FilterStage.topics_of
                 (retrieve_results filter_env
                    (FilterStage.batch_manager filter_stage) "batch_1").2
                 "batch_1" = Some (5%Z, ["education"; "health"]))
    by (vm_compute; reflexivity).
  assert (Hc : FilterStage.collect_ids [filter_result] [] = Ok [12%Z])
    by (vm_compute; reflexivity).
  assert (Hok : (FilterStage._process_batch_results database filter_env
                   filter_stage "batch_1").1 = Ok ())
    by (vm_compute; reflexivity).
  split; [exact Hr|]. split; [exact Hc|].
  split; [vm_compute; reflexivity|].
  exact (filter_batch_rows database filter_env filter_stage "batch_1"
           [filter_result] 5 ["education"; "health"] [12%Z] Hr Ht Hc Hok
           (FilterPipeline.csv_name 5 "education")).
Defined.

Lemma unfiltered_topic_never_scored_witness :
  FilterStage.intermediate_dir
    (FilterStage._process_batch_results database filter_env filter_stage
       "batch_1").2 !! FilterPipeline.csv_name 5 "health" = None
  /\ JobTracker.state_of
       (FilterStage.job_tracker
          (FilterStage._process_batch_results database filter_env
             filter_stage "batch_1").2) 5 "health" = "filter_complete"
  /\ JobTracker.get_pending_pairs
       (FilterStage.job_tracker
          (FilterStage._process_batch_results database filter_env
             filter_stage "batch_1").2) "score" [(5%Z, "health")]
     = [(5%Z, "health")]
  /\ ScoreStage._process_pair config env random 0
       (FilterStage.intermediate_dir
          (FilterStage._process_batch_results database filter_env
             filter_stage "batch_1").2) empty 5 "health" rate
     = (Ok [], empty, 0).
Proof.
  assert (Hr : (retrieve_results filter_env
                  (FilterStage.batch_manager filter_stage) "batch_1").1
               = Ok [filter_result]) by (vm_compute; reflexivity).
  assert (Ht : FilterStage.topics_of
                 (retrieve_results filter_env
                    (FilterStage.batch_manager filter_stage) "batch_1").2
                 "batch_1" = Some (5%Z, ["education"; "health"]))
    by (vm_compute; reflexivity).
  assert (Hok : (FilterStage._process_batch_results database filter_env
                   filter_stage "batch_1").1 = Ok ())
    by (vm_compute; reflexivity).
  assert (Hin : "health" ∈ ["education"; "health"])
    by apply list_elem_of_further, list_elem_of_here.
  assert (Hn : FilterStage.intermediate_dir
                 (FilterStage._process_batch_results database filter_env
                    filter_stage "batch_1").2
                 !! FilterPipeline.csv_name 5 "health" = None)
    by (vm_compute; reflexivity).
  split; [exact Hn|].
  exact (unfiltered_topic_never_scored config database filter_env random 0
           filter_stage "batch_1" [filter_result] 5 ["education"; "health"]
           "health" rate empty Hr Ht Hok Hin Hn).
Defined.

Lemma filter_batch_unprocessed_witness :
  FilterStage.topics_of
    (retrieve_results env (FilterStage.batch_manager filter_stage)
       "batch_9").2 "batch_9" = None
  /\ FilterStage.job_tracker
       (FilterStage._process_batch_results database env filter_stage
          "batch_9").2 = FilterStage.job_tracker filter_stage
  /\ FilterStage.intermediate_dir
       (FilterStage._process_batch_results database env filter_stage
          "batch_9").2 = FilterStage.intermediate_dir filter_stage
  /\ (FilterStage._process_batch_results database env filter_stage
        "batch_9").1 = Ok ().
Proof.
  assert (Hn : FilterStage.topics_of
                 (retrieve_results env
                    (FilterStage.batch_manager filter_stage) "batch_9").2
                 "batch_9" = None) by (vm_compute; reflexivity).
  assert (Hz : forall z,
             default ∅
               (_batch_jobs
                  (retrieve_results env
                     (FilterStage.batch_manager filter_stage) "batch_9").2
                  !! "batch_9") !! "topics" <> Some (MInt z))
    by (intros z; vm_compute; discriminate).
  split; [exact Hn|].
  destruct (filter_batch_unprocessed database env filter_stage "batch_9"
              (or_intror (conj Hn Hz))) as (H1 & H2 & _ & H3).
  split; [exact H1|]. split; [exact H2|].
  apply H3; vm_compute; reflexivity.
Defined.

End StageWitnesses.
